(** * We-Vote: vote integrity, role gating, tally and export

    A shallow embedding of the parts of the repository that carry its
    invariants:

    - [supabase/migrations/20251117140442_...sql]: the schema (tables,
      keys, foreign keys with their [ON DELETE] actions), the row-level
      security policies, [has_role], [handle_new_user] and
      [get_vote_counts];
    - the admin page ([fetchElections], [addCandidate], [removeCandidate],
      [handleCreateElection], [handleDeleteElection]);
    - [src/pages/VotePage.tsx] ([checkIfAlreadyVoted],
      [fetchElectionAndCandidates], [handleSubmitVote]);
    - [src/pages/ResultsPage.tsx] ([fetchResults], [handleExport], the
      percentages of the detailed results);
    - [src/pages/Dashboard.tsx] ([fetchElections], [fetchVotedElections],
      the mark of an election the user has voted in).

    A table is the list of its rows in scan order.  A statement sent by a
    client runs as the role [authenticated] (or [anon]) with the caller's
    [auth.uid()], goes through the policies of the table, then through the
    constraints, and either yields the next database or an error and no
    change. *)

From Stdlib Require Import List String Ascii Bool NArith ZArith Lia Arith.
From Stdlib Require Import Permutation Sorted.
From Stdlib Require Import Floats.SpecFloat DecimalString.
Import ListNotations.

Set Implicit Arguments.

Open Scope string_scope.
Open Scope list_scope.

(** ** SQL values *)

Definition uuid := string.
Definition timestamptz := Z.

(** A boolean expression of SQL evaluates to TRUE, FALSE or NULL. *)
Definition sql_bool := option bool.

Definition sql_eq {A : Type} (eqb : A -> A -> bool) (a b : option A) : sql_bool :=
  match a, b with
  | Some x, Some y => Some (eqb x y)
  | _, _ => None
  end.

Definition sql_or (a b : sql_bool) : sql_bool :=
  match a, b with
  | Some true, _ => Some true
  | _, Some true => Some true
  | Some false, Some false => Some false
  | _, _ => None
  end.

(** A row passes a [USING] or [WITH CHECK] expression only when the
    expression is TRUE: FALSE and NULL both reject it. *)
Definition is_true (b : sql_bool) : bool :=
  match b with
  | Some true => true
  | _ => false
  end.

Definition uuid_eqb : uuid -> uuid -> bool := String.eqb.

Definition is_some {A : Type} (o : option A) : bool :=
  match o with
  | Some _ => true
  | None => false
  end.

(** ** Schema *)

(** [CREATE TYPE public.app_role AS ENUM ('admin', 'student')] *)
Inductive app_role := admin | student.

(** [CREATE TYPE public.election_status AS ENUM ('draft', 'active', 'closed')] *)
Inductive election_status := draft | active | closed.

Definition app_role_eqb (a b : app_role) : bool :=
  match a, b with
  | admin, admin | student, student => true
  | _, _ => false
  end.

Definition election_status_eqb (a b : election_status) : bool :=
  match a, b with
  | draft, draft | active, active | closed, closed => true
  | _, _ => false
  end.

(** A column declared [NOT NULL] (or a primary key) holds a value; any other
    column is an [option].  A request that puts NULL in a [NOT NULL] column
    is refused by the storage with no change, and is not a row of these
    types. *)

Module Profile.
Record t := mk {
  id : uuid;
  full_name : string;
  student_id : option string;
  created_at : option timestamptz
}.
End Profile.

Module UserRole.
Record t := mk {
  id : uuid;
  user_id : uuid;
  role : app_role
}.
End UserRole.

Module Election.
Record t := mk {
  id : uuid;
  title : string;
  description : option string;
  status : option election_status;
  is_anonymous : option bool;
  start_date : option timestamptz;
  end_date : option timestamptz;
  created_by : option uuid;
  created_at : option timestamptz;
  updated_at : option timestamptz
}.
End Election.

Module Candidate.
Record t := mk {
  id : uuid;
  election_id : uuid;
  name : string;
  description : option string;
  image_url : option string;
  created_at : option timestamptz
}.
End Candidate.

Module Vote.
Record t := mk {
  id : uuid;
  election_id : uuid;
  candidate_id : uuid;
  voter_id : option uuid;
  vote_token : option uuid;
  created_at : option timestamptz
}.
End Vote.

Module AuditLog.
Record t := mk {
  id : uuid;
  user_id : option uuid;
  action : string;
  details : list (string * option string);
  created_at : option timestamptz
}.
End AuditLog.

(** The database: [auth.users] (its ids) and the six public tables. *)
Record db := mkDb {
  users : list uuid;
  profiles : list Profile.t;
  user_roles : list UserRole.t;
  elections : list Election.t;
  candidates : list Candidate.t;
  votes : list Vote.t;
  audit_logs : list AuditLog.t
}.

Definition empty_db : db := mkDb [] [] [] [] [] [] [].

(** ** Identity and roles *)

(** [public.has_role(_user_id, _role)]: [SECURITY DEFINER], so it reads
    [user_roles] whoever calls it.  With a NULL [_user_id] the comparison
    [user_id = _user_id] is never TRUE and [EXISTS] is FALSE. *)
Definition has_role (d : db) (_user_id : option uuid) (_role : app_role) : bool :=
  match _user_id with
  | None => false
  | Some u =>
      existsb (fun r => uuid_eqb (UserRole.user_id r) u
                        && app_role_eqb (UserRole.role r) _role)
              (user_roles d)
  end.

(** ** Row-level security

    Every table has row-level security enabled and every policy is
    [TO authenticated].  The policies of a table that apply to a command
    are combined with OR; a command with no policy is denied for every
    row.  A policy [FOR ALL] applies to the four commands, and a policy
    without [WITH CHECK] checks new rows with its [USING] expression. *)

Inductive command := SELECT | INSERT | UPDATE | DELETE.

Definition policy (row : Type) := db -> option uuid -> row -> sql_bool.

Definition rls_pass {row : Type} (ps : list (policy row))
    (d : db) (auth_uid : option uuid) (r : row) : bool :=
  is_some auth_uid && existsb (fun p => is_true (p d auth_uid r)) ps.

(** "Users can view all profiles", "Users can update own profile" *)
Definition profiles_policies (c : command) : list (policy Profile.t) :=
  match c with
  | SELECT => [fun _ _ _ => Some true]
  | UPDATE => [fun _ uid r => sql_eq uuid_eqb uid (Some (Profile.id r))]
  | _ => []
  end.

(** "Only admins can manage roles" ([FOR ALL]) and "Users can view all
    roles" *)
Definition only_admins_can_manage_roles : policy UserRole.t :=
  fun d uid _ => Some (has_role d uid admin).

Definition user_roles_policies (c : command) : list (policy UserRole.t) :=
  match c with
  | SELECT => [(fun _ _ _ => Some true); only_admins_can_manage_roles]
  | _ => [only_admins_can_manage_roles]
  end.

(** "Everyone can view active elections":
    [USING (status = 'active' OR public.has_role(auth.uid(), 'admin'))] *)
Definition everyone_can_view_active_elections : policy Election.t :=
  fun d uid r =>
    sql_or (sql_eq election_status_eqb (Election.status r) (Some active))
           (Some (has_role d uid admin)).

(** "Only admins can create / update / delete elections" *)
Definition only_admins_elections : policy Election.t :=
  fun d uid _ => Some (has_role d uid admin).

Definition elections_policies (c : command) : list (policy Election.t) :=
  match c with
  | SELECT => [everyone_can_view_active_elections]
  | INSERT | UPDATE | DELETE => [only_admins_elections]
  end.

(** "Everyone can view candidates", "Only admins can manage candidates"
    ([FOR ALL]) *)
Definition only_admins_can_manage_candidates : policy Candidate.t :=
  fun d uid _ => Some (has_role d uid admin).

Definition candidates_policies (c : command) : list (policy Candidate.t) :=
  match c with
  | SELECT => [(fun _ _ _ => Some true); only_admins_can_manage_candidates]
  | _ => [only_admins_can_manage_candidates]
  end.

(** "Users can view own votes in non-anonymous elections":
    [USING (voter_id = auth.uid() OR public.has_role(auth.uid(), 'admin'))] *)
Definition users_can_view_own_votes : policy Vote.t :=
  fun d uid r =>
    sql_or (sql_eq uuid_eqb (Vote.voter_id r) uid)
           (Some (has_role d uid admin)).

(** "Users can cast votes": [WITH CHECK (voter_id = auth.uid())] *)
Definition users_can_cast_votes : policy Vote.t :=
  fun _ uid r => sql_eq uuid_eqb (Vote.voter_id r) uid.

(** The votes table has a policy for SELECT and one for INSERT, none for
    UPDATE or DELETE. *)
Definition votes_policies (c : command) : list (policy Vote.t) :=
  match c with
  | SELECT => [users_can_view_own_votes]
  | INSERT => [users_can_cast_votes]
  | UPDATE | DELETE => []
  end.

(** "Only admins can view audit logs", "System can insert audit logs" *)
Definition audit_logs_policies (c : command) : list (policy AuditLog.t) :=
  match c with
  | SELECT => [fun d uid _ => Some (has_role d uid admin)]
  | INSERT => [fun _ _ _ => Some true]
  | UPDATE | DELETE => []
  end.

(** ** Errors

    The error of a refused statement, by its PostgreSQL condition; a unique
    or foreign-key violation names the constraint.  [not_a_single_row] is
    the error of [.single()] when the result has no row or several, and
    [fetch_failed] the client's error when a request did not reach the
    storage. *)

Inductive error :=
| insufficient_privilege
| unique_violation (constraint : string)
| foreign_key_violation (constraint : string)
| invalid_datetime_format
| not_a_single_row
| fetch_failed.

Inductive result (A : Type) :=
| Ok (a : A)
| Err (e : error).

Arguments Ok {A} a.
Arguments Err {A} e.

(** The conditions of the error taxonomy, as the storage reports them. *)
Definition PermissionDenied : error := insufficient_privilege.
Definition DuplicateVote : error := unique_violation "votes_election_id_voter_id_key".
Definition DependencyFailure : error := fetch_failed.

(** ** Constraints *)

Definition mem (x : uuid) (l : list uuid) : bool := existsb (uuid_eqb x) l.

Definition mem_opt (x : option uuid) (l : list uuid) : bool :=
  match x with
  | None => true
  | Some u => mem u l
  end.

Fixpoint distinctb {A : Type} (eqb : A -> A -> bool) (l : list A) : bool :=
  match l with
  | [] => true
  | x :: t => negb (existsb (eqb x) t) && distinctb eqb t
  end.

Definition pair_eqb (a b : uuid * uuid) : bool :=
  uuid_eqb (fst a) (fst b) && uuid_eqb (snd a) (snd b).

Definition user_role_eqb (a b : uuid * app_role) : bool :=
  uuid_eqb (fst a) (fst b) && app_role_eqb (snd a) (snd b).

(** The keys of [UNIQUE(election_id, voter_id)]: a row whose [voter_id] is
    NULL has no key, since NULLs never conflict in a unique index. *)
Definition election_voter_keys (vs : list Vote.t) : list (uuid * uuid) :=
  flat_map (fun v => match Vote.voter_id v with
                     | Some p => [(Vote.election_id v, p)]
                     | None => []
                     end) vs.

(** The keys of [student_id TEXT UNIQUE]. *)
Definition student_id_keys (ps : list Profile.t) : list string :=
  flat_map (fun p => match Profile.student_id p with
                     | Some s => [s]
                     | None => []
                     end) ps.

Definition user_role_keys (rs : list UserRole.t) : list (uuid * app_role) :=
  map (fun r => (UserRole.user_id r, UserRole.role r)) rs.

(** Primary keys and [UNIQUE] constraints of the whole database. *)
Definition unique_ok (d : db) : bool :=
  distinctb uuid_eqb (users d)
  && distinctb uuid_eqb (map Profile.id (profiles d))
  && distinctb String.eqb (student_id_keys (profiles d))
  && distinctb uuid_eqb (map UserRole.id (user_roles d))
  && distinctb user_role_eqb (user_role_keys (user_roles d))
  && distinctb uuid_eqb (map Election.id (elections d))
  && distinctb uuid_eqb (map Candidate.id (candidates d))
  && distinctb uuid_eqb (map Vote.id (votes d))
  && distinctb pair_eqb (election_voter_keys (votes d))
  && distinctb uuid_eqb (map AuditLog.id (audit_logs d)).

(** The [REFERENCES] clauses of the whole database. *)
Definition foreign_keys_ok (d : db) : bool :=
  forallb (fun p => mem (Profile.id p) (users d)) (profiles d)
  && forallb (fun r => mem (UserRole.user_id r) (users d)) (user_roles d)
  && forallb (fun e => mem_opt (Election.created_by e) (users d)) (elections d)
  && forallb (fun c => mem (Candidate.election_id c) (map Election.id (elections d)))
             (candidates d)
  && forallb (fun v => mem (Vote.election_id v) (map Election.id (elections d))
                       && mem (Vote.candidate_id v) (map Candidate.id (candidates d))
                       && mem_opt (Vote.voter_id v) (users d))
             (votes d)
  && forallb (fun a => mem_opt (AuditLog.user_id a) (users d)) (audit_logs d).

Definition constraints_ok (d : db) : bool := unique_ok d && foreign_keys_ok d.

(** ** Statements

    What a client can send for each table.  A [where_] is the filter of the
    request, a [set] the new column values of an update.  The primary key
    of a new row is in the row: it is the client's value or the one
    [gen_random_uuid()] drew. *)

Inductive request :=
| insert_profile (r : Profile.t)
| update_profiles (where_ : Profile.t -> bool) (set : Profile.t -> Profile.t)
| delete_profiles (where_ : Profile.t -> bool)
| insert_user_role (r : UserRole.t)
| update_user_roles (where_ : UserRole.t -> bool) (set : UserRole.t -> UserRole.t)
| delete_user_roles (where_ : UserRole.t -> bool)
| insert_election (r : Election.t)
| update_elections (where_ : Election.t -> bool) (set : Election.t -> Election.t)
| delete_elections (where_ : Election.t -> bool)
| insert_candidates (rs : list Candidate.t)
| update_candidates (where_ : Candidate.t -> bool) (set : Candidate.t -> Candidate.t)
| delete_candidates (where_ : Candidate.t -> bool)
| insert_vote (r : Vote.t)
| update_votes (where_ : Vote.t -> bool) (set : Vote.t -> Vote.t)
| delete_votes (where_ : Vote.t -> bool)
| insert_audit_log (r : AuditLog.t)
| update_audit_logs (where_ : AuditLog.t -> bool) (set : AuditLog.t -> AuditLog.t)
| delete_audit_logs (where_ : AuditLog.t -> bool).

Definition with_profiles (d : db) (l : list Profile.t) : db :=
  mkDb (users d) l (user_roles d) (elections d) (candidates d) (votes d) (audit_logs d).

Definition with_user_roles (d : db) (l : list UserRole.t) : db :=
  mkDb (users d) (profiles d) l (elections d) (candidates d) (votes d) (audit_logs d).

Definition with_elections (d : db) (l : list Election.t) : db :=
  mkDb (users d) (profiles d) (user_roles d) l (candidates d) (votes d) (audit_logs d).

Definition with_candidates (d : db) (l : list Candidate.t) : db :=
  mkDb (users d) (profiles d) (user_roles d) (elections d) l (votes d) (audit_logs d).

Definition with_votes (d : db) (l : list Vote.t) : db :=
  mkDb (users d) (profiles d) (user_roles d) (elections d) (candidates d) l (audit_logs d).

Definition with_audit_logs (d : db) (l : list AuditLog.t) : db :=
  mkDb (users d) (profiles d) (user_roles d) (elections d) (candidates d) (votes d) l.

(** A statement stops at the first check that fails. *)
Notation "'assert' b 'otherwise' e ; k" :=
  (if b then k else Err e)
  (at level 10, b at level 200, e at level 200, k at level 200).

(** The rows an UPDATE or DELETE acts on: those the filter selects among
    the rows its policies let the caller touch.  (A statement with a
    filter also needs the rows to pass the SELECT policies; in this schema
    a caller who passes an UPDATE or DELETE policy of a table passes a
    SELECT policy of it on every row.) *)
Definition targeted {row : Type} (ps : list (policy row)) (d : db)
    (auth_uid : option uuid) (where_ : row -> bool) (r : row) : bool :=
  where_ r && rls_pass ps d auth_uid r.

Definition update_rows {row : Type} (ps : list (policy row)) (d : db)
    (auth_uid : option uuid) (where_ : row -> bool) (set : row -> row)
    (l : list row) : list row :=
  map (fun r => if targeted ps d auth_uid where_ r then set r else r) l.

(** The new version of every updated row must pass the policy too. *)
Definition update_check {row : Type} (ps : list (policy row)) (d : db)
    (auth_uid : option uuid) (where_ : row -> bool) (set : row -> row)
    (l : list row) : bool :=
  forallb (fun r => if targeted ps d auth_uid where_ r
                    then rls_pass ps d auth_uid (set r) else true) l.

Definition delete_rows {row : Type} (ps : list (policy row)) (d : db)
    (auth_uid : option uuid) (where_ : row -> bool) (l : list row) : list row :=
  filter (fun r => negb (targeted ps d auth_uid where_ r)) l.

Definition deleted_rows {row : Type} (ps : list (policy row)) (d : db)
    (auth_uid : option uuid) (where_ : row -> bool) (l : list row) : list row :=
  filter (targeted ps d auth_uid where_) l.

(** [ON DELETE CASCADE] from [candidates] to [votes] ([votes.candidate_id]):
    the votes that survive the deletion of the candidates [gone]. *)
Definition cascade_candidates_to_votes (gone : list uuid) (vs : list Vote.t) : list Vote.t :=
  filter (fun v => negb (mem (Vote.candidate_id v) gone)) vs.

(** [ON DELETE CASCADE] from [elections] to [candidates] and to [votes]
    ([candidates.election_id], [votes.election_id]). *)
Definition cascade_elections_to_candidates (gone : list uuid) (cs : list Candidate.t)
    : list Candidate.t :=
  filter (fun c => negb (mem (Candidate.election_id c) gone)) cs.

Definition cascade_elections_to_votes (gone : list uuid) (vs : list Vote.t) : list Vote.t :=
  filter (fun v => negb (mem (Vote.election_id v) gone)) vs.

Definition exec_delete_candidates (d : db) (auth_uid : option uuid)
    (where_ : Candidate.t -> bool) : db :=
  let gone := map Candidate.id
                  (deleted_rows (candidates_policies DELETE) d auth_uid where_ (candidates d)) in
  with_votes
    (with_candidates d (delete_rows (candidates_policies DELETE) d auth_uid where_ (candidates d)))
    (cascade_candidates_to_votes gone (votes d)).

Definition exec_delete_elections (d : db) (auth_uid : option uuid)
    (where_ : Election.t -> bool) : db :=
  let gone := map Election.id
                  (deleted_rows (elections_policies DELETE) d auth_uid where_ (elections d)) in
  let gone_c := map Candidate.id
                    (filter (fun c => mem (Candidate.election_id c) gone) (candidates d)) in
  with_votes
    (with_candidates
       (with_elections d
          (delete_rows (elections_policies DELETE) d auth_uid where_ (elections d)))
       (cascade_elections_to_candidates gone (candidates d)))
    (cascade_candidates_to_votes gone_c (cascade_elections_to_votes gone (votes d))).

(** Whether the unique index on [(election_id, voter_id)] already holds the
    key of the new row; a row with a NULL [voter_id] conflicts with none. *)
Definition conflicts_election_voter (r : Vote.t) (vs : list Vote.t) : bool :=
  match Vote.voter_id r with
  | None => false
  | Some p => existsb (pair_eqb (Vote.election_id r, p)) (election_voter_keys vs)
  end.

(** INSERT of one vote: the policy, then the two unique indexes, then the
    three foreign keys. *)
Definition exec_insert_vote (d : db) (auth_uid : option uuid) (r : Vote.t) : result db :=
  assert rls_pass (votes_policies INSERT) d auth_uid r
    otherwise insufficient_privilege;
  assert negb (mem (Vote.id r) (map Vote.id (votes d)))
    otherwise unique_violation "votes_pkey";
  assert negb (conflicts_election_voter r (votes d))
    otherwise unique_violation "votes_election_id_voter_id_key";
  assert mem (Vote.election_id r) (map Election.id (elections d))
    otherwise foreign_key_violation "votes_election_id_fkey";
  assert mem (Vote.candidate_id r) (map Candidate.id (candidates d))
    otherwise foreign_key_violation "votes_candidate_id_fkey";
  assert mem_opt (Vote.voter_id r) (users d)
    otherwise foreign_key_violation "votes_voter_id_fkey";
  Ok (with_votes d (votes d ++ [r])).

(** INSERT of one election: the policy, the primary key, the foreign key of
    [created_by]. *)
Definition exec_insert_election (d : db) (auth_uid : option uuid) (r : Election.t)
    : result db :=
  assert rls_pass (elections_policies INSERT) d auth_uid r
    otherwise insufficient_privilege;
  assert negb (mem (Election.id r) (map Election.id (elections d)))
    otherwise unique_violation "elections_pkey";
  assert mem_opt (Election.created_by r) (users d)
    otherwise foreign_key_violation "elections_created_by_fkey";
  Ok (with_elections d (elections d ++ [r])).

(** INSERT of several candidates in one statement: each row goes through
    the policy and the primary key in turn, the foreign keys are checked
    when all rows are in, and one failure leaves the table as it was. *)
Fixpoint insert_candidate_rows (d : db) (auth_uid : option uuid)
    (rs : list Candidate.t) (acc : list Candidate.t) : result (list Candidate.t) :=
  match rs with
  | [] => Ok acc
  | r :: rest =>
      assert rls_pass (candidates_policies INSERT) d auth_uid r
        otherwise insufficient_privilege;
      assert negb (mem (Candidate.id r) (map Candidate.id acc))
        otherwise unique_violation "candidates_pkey";
      insert_candidate_rows d auth_uid rest (acc ++ [r])
  end.

Definition exec_insert_candidates (d : db) (auth_uid : option uuid)
    (rs : list Candidate.t) : result db :=
  match insert_candidate_rows d auth_uid rs (candidates d) with
  | Err e => Err e
  | Ok l =>
      assert forallb (fun r => mem (Candidate.election_id r) (map Election.id (elections d))) rs
        otherwise foreign_key_violation "candidates_election_id_fkey";
      Ok (with_candidates d l)
  end.

(** The constraints of [user_roles] on a new row; the policy is checked by
    the caller of this function when there is one. *)
Definition insert_user_role_row (d : db) (r : UserRole.t) : result db :=
  assert negb (mem (UserRole.id r) (map UserRole.id (user_roles d)))
    otherwise unique_violation "user_roles_pkey";
  assert negb (existsb (user_role_eqb (UserRole.user_id r, UserRole.role r))
                       (user_role_keys (user_roles d)))
    otherwise unique_violation "user_roles_user_id_role_key";
  assert mem (UserRole.user_id r) (users d)
    otherwise foreign_key_violation "user_roles_user_id_fkey";
  Ok (with_user_roles d (user_roles d ++ [r])).

Definition exec_insert_user_role (d : db) (auth_uid : option uuid) (r : UserRole.t)
    : result db :=
  assert rls_pass (user_roles_policies INSERT) d auth_uid r
    otherwise insufficient_privilege;
  insert_user_role_row d r.

Definition exec_insert_audit_log (d : db) (auth_uid : option uuid) (r : AuditLog.t)
    : result db :=
  assert rls_pass (audit_logs_policies INSERT) d auth_uid r
    otherwise insufficient_privilege;
  assert negb (mem (AuditLog.id r) (map AuditLog.id (audit_logs d)))
    otherwise unique_violation "audit_logs_pkey";
  assert mem_opt (AuditLog.user_id r) (users d)
    otherwise foreign_key_violation "audit_logs_user_id_fkey";
  Ok (with_audit_logs d (audit_logs d ++ [r])).

(** UPDATE: the targeted rows are replaced, their new versions go through
    the policy, and the keys of the table and the foreign keys to and from
    it (all [ON UPDATE NO ACTION]) are checked at the end of the
    statement. *)
Definition exec_update_profiles (d : db) (auth_uid : option uuid)
    (where_ : Profile.t -> bool) (set : Profile.t -> Profile.t) : result db :=
  let l := update_rows (profiles_policies UPDATE) d auth_uid where_ set (profiles d) in
  assert update_check (profiles_policies UPDATE) d auth_uid where_ set (profiles d)
    otherwise insufficient_privilege;
  assert distinctb uuid_eqb (map Profile.id l)
    otherwise unique_violation "profiles_pkey";
  assert distinctb String.eqb (student_id_keys l)
    otherwise unique_violation "profiles_student_id_key";
  assert forallb (fun p => mem (Profile.id p) (users d)) l
    otherwise foreign_key_violation "profiles_id_fkey";
  Ok (with_profiles d l).

Definition exec_update_user_roles (d : db) (auth_uid : option uuid)
    (where_ : UserRole.t -> bool) (set : UserRole.t -> UserRole.t) : result db :=
  let l := update_rows (user_roles_policies UPDATE) d auth_uid where_ set (user_roles d) in
  assert update_check (user_roles_policies UPDATE) d auth_uid where_ set (user_roles d)
    otherwise insufficient_privilege;
  assert distinctb uuid_eqb (map UserRole.id l)
    otherwise unique_violation "user_roles_pkey";
  assert distinctb user_role_eqb (user_role_keys l)
    otherwise unique_violation "user_roles_user_id_role_key";
  assert forallb (fun r => mem (UserRole.user_id r) (users d)) l
    otherwise foreign_key_violation "user_roles_user_id_fkey";
  Ok (with_user_roles d l).

Definition exec_update_elections (d : db) (auth_uid : option uuid)
    (where_ : Election.t -> bool) (set : Election.t -> Election.t) : result db :=
  let l := update_rows (elections_policies UPDATE) d auth_uid where_ set (elections d) in
  assert update_check (elections_policies UPDATE) d auth_uid where_ set (elections d)
    otherwise insufficient_privilege;
  assert distinctb uuid_eqb (map Election.id l)
    otherwise unique_violation "elections_pkey";
  assert forallb (fun e => mem_opt (Election.created_by e) (users d)) l
    otherwise foreign_key_violation "elections_created_by_fkey";
  assert forallb (fun c => mem (Candidate.election_id c) (map Election.id l)) (candidates d)
    otherwise foreign_key_violation "candidates_election_id_fkey";
  assert forallb (fun v => mem (Vote.election_id v) (map Election.id l)) (votes d)
    otherwise foreign_key_violation "votes_election_id_fkey";
  Ok (with_elections d l).

Definition exec_update_candidates (d : db) (auth_uid : option uuid)
    (where_ : Candidate.t -> bool) (set : Candidate.t -> Candidate.t) : result db :=
  let l := update_rows (candidates_policies UPDATE) d auth_uid where_ set (candidates d) in
  assert update_check (candidates_policies UPDATE) d auth_uid where_ set (candidates d)
    otherwise insufficient_privilege;
  assert distinctb uuid_eqb (map Candidate.id l)
    otherwise unique_violation "candidates_pkey";
  assert forallb (fun c => mem (Candidate.election_id c) (map Election.id (elections d))) l
    otherwise foreign_key_violation "candidates_election_id_fkey";
  assert forallb (fun v => mem (Vote.candidate_id v) (map Candidate.id l)) (votes d)
    otherwise foreign_key_violation "votes_candidate_id_fkey";
  Ok (with_candidates d l).

Definition exec_update_votes (d : db) (auth_uid : option uuid)
    (where_ : Vote.t -> bool) (set : Vote.t -> Vote.t) : result db :=
  let l := update_rows (votes_policies UPDATE) d auth_uid where_ set (votes d) in
  assert update_check (votes_policies UPDATE) d auth_uid where_ set (votes d)
    otherwise insufficient_privilege;
  assert distinctb uuid_eqb (map Vote.id l)
    otherwise unique_violation "votes_pkey";
  assert distinctb pair_eqb (election_voter_keys l)
    otherwise unique_violation "votes_election_id_voter_id_key";
  assert forallb (fun v => mem (Vote.election_id v) (map Election.id (elections d))) l
    otherwise foreign_key_violation "votes_election_id_fkey";
  assert forallb (fun v => mem (Vote.candidate_id v) (map Candidate.id (candidates d))) l
    otherwise foreign_key_violation "votes_candidate_id_fkey";
  assert forallb (fun v => mem_opt (Vote.voter_id v) (users d)) l
    otherwise foreign_key_violation "votes_voter_id_fkey";
  Ok (with_votes d l).

Definition exec_update_audit_logs (d : db) (auth_uid : option uuid)
    (where_ : AuditLog.t -> bool) (set : AuditLog.t -> AuditLog.t) : result db :=
  let l := update_rows (audit_logs_policies UPDATE) d auth_uid where_ set (audit_logs d) in
  assert update_check (audit_logs_policies UPDATE) d auth_uid where_ set (audit_logs d)
    otherwise insufficient_privilege;
  assert distinctb uuid_eqb (map AuditLog.id l)
    otherwise unique_violation "audit_logs_pkey";
  assert forallb (fun a => mem_opt (AuditLog.user_id a) (users d)) l
    otherwise foreign_key_violation "audit_logs_user_id_fkey";
  Ok (with_audit_logs d l).

(** INSERT of one profile by a client: the policy (the table has none for
    INSERT), the two keys, the foreign key.  The trigger
    [handle_new_user] inserts as the owner of the table and does not go
    through this. *)
Definition exec_insert_profile (d : db) (auth_uid : option uuid) (r : Profile.t)
    : result db :=
  assert rls_pass (profiles_policies INSERT) d auth_uid r
    otherwise insufficient_privilege;
  assert negb (mem (Profile.id r) (map Profile.id (profiles d)))
    otherwise unique_violation "profiles_pkey";
  assert distinctb String.eqb (student_id_keys (profiles d ++ [r]))
    otherwise unique_violation "profiles_student_id_key";
  assert mem (Profile.id r) (users d)
    otherwise foreign_key_violation "profiles_id_fkey";
  Ok (with_profiles d (profiles d ++ [r])).

(** One statement of a client whose [auth.uid()] is [auth_uid] ([None] for
    a request without a session, which runs as [anon]). *)
Definition exec (auth_uid : option uuid) (rq : request) (d : db) : result db :=
  match rq with
  | insert_profile r => exec_insert_profile d auth_uid r
  | update_profiles where_ set => exec_update_profiles d auth_uid where_ set
  | delete_profiles where_ =>
      Ok (with_profiles d
            (delete_rows (profiles_policies DELETE) d auth_uid where_ (profiles d)))
  | insert_user_role r => exec_insert_user_role d auth_uid r
  | update_user_roles where_ set => exec_update_user_roles d auth_uid where_ set
  | delete_user_roles where_ =>
      Ok (with_user_roles d
            (delete_rows (user_roles_policies DELETE) d auth_uid where_ (user_roles d)))
  | insert_election r => exec_insert_election d auth_uid r
  | update_elections where_ set => exec_update_elections d auth_uid where_ set
  | delete_elections where_ => Ok (exec_delete_elections d auth_uid where_)
  | insert_candidates rs => exec_insert_candidates d auth_uid rs
  | update_candidates where_ set => exec_update_candidates d auth_uid where_ set
  | delete_candidates where_ => Ok (exec_delete_candidates d auth_uid where_)
  | insert_vote r => exec_insert_vote d auth_uid r
  | update_votes where_ set => exec_update_votes d auth_uid where_ set
  | delete_votes where_ =>
      Ok (with_votes d (delete_rows (votes_policies DELETE) d auth_uid where_ (votes d)))
  | insert_audit_log r => exec_insert_audit_log d auth_uid r
  | update_audit_logs where_ set => exec_update_audit_logs d auth_uid where_ set
  | delete_audit_logs where_ =>
      Ok (with_audit_logs d
            (delete_rows (audit_logs_policies DELETE) d auth_uid where_ (audit_logs d)))
  end.

(** ** What happens outside the client requests *)

Definition coalesce (o : option string) (dflt : string) : string :=
  match o with
  | Some s => s
  | None => dflt
  end.

(** [public.handle_new_user()], the trigger [AFTER INSERT ON auth.users]:
    a profile for the new user, then the role [student].  [role_id] is the
    id [gen_random_uuid()] draws for the role row and [now] the time. *)
Definition handle_new_user (d : db) (new_id : uuid)
    (full_name student_id : option string) (role_id : uuid) (now : timestamptz)
    : result db :=
  let p := Profile.mk new_id (coalesce full_name "") (Some (coalesce student_id ""))
                      (Some now) in
  assert negb (mem new_id (map Profile.id (profiles d)))
    otherwise unique_violation "profiles_pkey";
  assert negb (existsb (String.eqb (coalesce student_id "")) (student_id_keys (profiles d)))
    otherwise unique_violation "profiles_student_id_key";
  insert_user_role_row (with_profiles d (profiles d ++ [p]))
                       (UserRole.mk role_id new_id student).

(** What changes the database: a client's statement, a sign-up at the
    authentication provider (the insert into [auth.users] and its trigger,
    both or neither), and the grant of a role by the operator, who is not
    subject to the policies. *)
Inductive action :=
| client_request (auth_uid : option uuid) (rq : request)
| auth_signup (new_id : uuid) (full_name student_id : option string)
              (role_id : uuid) (now : timestamptz)
| operator_grant_role (r : UserRole.t).

Definition run (a : action) (d : db) : result db :=
  match a with
  | client_request auth_uid rq => exec auth_uid rq d
  | auth_signup new_id full_name student_id role_id now =>
      assert negb (mem new_id (users d))
        otherwise unique_violation "users_pkey";
      handle_new_user
        (mkDb (users d ++ [new_id]) (profiles d) (user_roles d) (elections d)
              (candidates d) (votes d) (audit_logs d))
        new_id full_name student_id role_id now
  | operator_grant_role r => insert_user_role_row d r
  end.

(** A failed action changes nothing. *)
Definition step (d : db) (a : action) : db :=
  match run a d with
  | Ok d' => d'
  | Err _ => d
  end.

Inductive reachable : db -> Prop :=
| reachable_empty : reachable empty_db
| reachable_step (d : db) (a : action) : reachable d -> reachable (step d a).

(** ** Queries *)

(** SELECT on a table: the rows the SELECT policies show to the caller,
    among them those the filter of the request keeps. *)
Definition select {row : Type} (ps : list (policy row)) (d : db)
    (auth_uid : option uuid) (where_ : row -> bool) (l : list row) : list row :=
  filter (fun r => rls_pass ps d auth_uid r && where_ r) l.

Definition select_elections (d : db) (auth_uid : option uuid)
    (where_ : Election.t -> bool) : list Election.t :=
  select (elections_policies SELECT) d auth_uid where_ (elections d).

Definition select_candidates (d : db) (auth_uid : option uuid)
    (where_ : Candidate.t -> bool) : list Candidate.t :=
  select (candidates_policies SELECT) d auth_uid where_ (candidates d).

Definition select_votes (d : db) (auth_uid : option uuid)
    (where_ : Vote.t -> bool) : list Vote.t :=
  select (votes_policies SELECT) d auth_uid where_ (votes d).

(** A row of the result of [get_vote_counts]; the interface [VoteCount] of
    the results page. *)
Record VoteCount := mkVoteCount {
  candidate_id : uuid;
  candidate_name : string;
  vote_count : Z
}.

(** [FROM public.candidates c LEFT JOIN public.votes v ON c.id = v.candidate_id]:
    a candidate with no matching vote gives one row with a NULL vote. *)
Definition left_join (cs : list Candidate.t) (vs : list Vote.t)
    : list (Candidate.t * option Vote.t) :=
  flat_map (fun c =>
      match filter (fun v => uuid_eqb (Candidate.id c) (Vote.candidate_id v)) vs with
      | [] => [(c, None)]
      | ms => map (fun v => (c, Some v)) ms
      end) cs.

Definition group_key := (uuid * string)%type.

Definition group_key_eqb (a b : group_key) : bool :=
  uuid_eqb (fst a) (fst b) && String.eqb (snd a) (snd b).

Definition key_of (row : Candidate.t * option Vote.t) : group_key :=
  (Candidate.id (fst row), Candidate.name (fst row)).

(** [GROUP BY c.id, c.name]: the distinct keys, each at its first row. *)
Fixpoint groups (ks : list group_key) : list group_key :=
  match ks with
  | [] => []
  | k :: t => k :: filter (fun k' => negb (group_key_eqb k k')) (groups t)
  end.

(** [COUNT(v.id)] over the rows of one group: the rows whose [v.id] is not
    NULL, that is the rows with a vote. *)
Definition count_v_id (rows : list (Candidate.t * option Vote.t)) (k : group_key) : Z :=
  Z.of_nat (List.length (filter (fun row => group_key_eqb (key_of row) k && is_some (snd row))
                           rows)).

(** [ORDER BY vote_count DESC].  Rows with equal counts keep the order they
    come in (the sort is stable): SQL leaves their order open, and this is
    the choice made here. *)
Fixpoint insert_desc (x : VoteCount) (l : list VoteCount) : list VoteCount :=
  match l with
  | [] => [x]
  | y :: t => if (vote_count y <=? vote_count x)%Z then x :: y :: t
              else y :: insert_desc x t
  end.

Fixpoint order_by_vote_count_desc (l : list VoteCount) : list VoteCount :=
  match l with
  | [] => []
  | x :: t => insert_desc x (order_by_vote_count_desc t)
  end.

(** The query of [get_vote_counts] over the rows [cs] of [candidates] and
    [vs] of [votes] that it can see:
    [SELECT c.id, c.name, COUNT(v.id) FROM candidates c LEFT JOIN votes v
     ON c.id = v.candidate_id WHERE c.election_id = election_uuid
     GROUP BY c.id, c.name ORDER BY vote_count DESC]. *)
Definition vote_counts_of (cs : list Candidate.t) (vs : list Vote.t) (election_uuid : uuid)
    : list VoteCount :=
  let rows := filter (fun row => uuid_eqb (Candidate.election_id (fst row)) election_uuid)
                     (left_join cs vs) in
  order_by_vote_count_desc
    (map (fun k => mkVoteCount (fst k) (snd k) (count_v_id rows k))
         (groups (map key_of rows))).

(** [get_vote_counts(election_uuid)].  The function is not
    [SECURITY DEFINER] (unlike [has_role]): it runs with the rights of its
    caller, so its two tables are read through their SELECT policies. *)
Definition get_vote_counts (d : db) (auth_uid : option uuid) (election_uuid : uuid)
    : list VoteCount :=
  vote_counts_of (select_candidates d auth_uid (fun _ => true))
                 (select_votes d auth_uid (fun _ => true))
                 election_uuid.

(** ** The client

    What a handler does not decide: the values [gen_random_uuid()] draws
    for the rows it inserts (the [i]-th draw of the handler), the time, and
    whether its [i]-th request reaches the storage. *)

Record world := mkWorld {
  gen_random_uuid : nat -> uuid;
  now : timestamptz;
  online : nat -> bool
}.

(** A request of the [supabase] client: the [error] it returns is the
    storage's or, when the request was not delivered, the client's own. *)
Definition supabase (w : world) (i : nat) (auth_uid : option uuid) (rq : request) (d : db)
    : result db :=
  if online w i then exec auth_uid rq d else Err fetch_failed.

(** What the user is shown. [toast_error_of e] is
    [toast.error(error.message || ...)] for the error [e] of a request. *)
Inductive toast :=
| toast_error (message : string)
| toast_error_of (e : error)
| toast_success (message : string).

(** [String.prototype.trim].  A text is held as the bytes of its UTF-8
    encoding.  What [trim] takes away at both ends are the white space and
    the line terminators of ECMAScript: TAB, LF, VT, FF, CR, SPACE, U+00A0,
    U+1680, U+2000 to U+200A, U+2028, U+2029, U+202F, U+205F, U+3000 and
    U+FEFF, here as the bytes of each. *)
Definition bytes (l : list N) : string := string_of_list_ascii (map ascii_of_N l).

Definition white_space : list string :=
  map bytes
      [ [9]; [10]; [11]; [12]; [13]; [32];
        [194; 160];
        [225; 154; 128];
        [226; 128; 128]; [226; 128; 129]; [226; 128; 130]; [226; 128; 131];
        [226; 128; 132]; [226; 128; 133]; [226; 128; 134]; [226; 128; 135];
        [226; 128; 136]; [226; 128; 137]; [226; 128; 138];
        [226; 128; 168]; [226; 128; 169];
        [226; 128; 175];
        [226; 129; 159];
        [227; 128; 128];
        [239; 187; 191] ]%N.

Definition among (ps : list string) (p : string) : bool := existsb (String.eqb p) ps.

(** The text without the characters of [ps] at its start; a character of
    [ps] has one, two or three bytes. *)
Fixpoint trim_start_of (ps : list string) (s : string) : string :=
  match s with
  | String a t1 =>
      if among ps (String a "") then trim_start_of ps t1
      else
        match t1 with
        | String b t2 =>
            if among ps (String a (String b "")) then trim_start_of ps t2
            else
              match t2 with
              | String c t3 =>
                  if among ps (String a (String b (String c "")))
                  then trim_start_of ps t3
                  else s
              | EmptyString => s
              end
        | EmptyString => s
        end
  | EmptyString => s
  end.

Definition reverse (s : string) : string :=
  string_of_list_ascii (rev (list_ascii_of_string s)).

Definition trim_start (s : string) : string := trim_start_of white_space s.

(** The end of a text is the start of the text read backwards, where the
    bytes of each character come in reverse. *)
Definition trim_end (s : string) : string :=
  reverse (trim_start_of (map reverse white_space) (reverse s)).

Definition trim (s : string) : string := trim_end (trim_start s).

Fixpoint map_indexed {A B : Type} (f : nat -> A -> B) (i : nat) (l : list A) : list B :=
  match l with
  | [] => []
  | x :: t => f i x :: map_indexed f (S i) t
  end.

(** *** More of the queries

    [ORDER BY] with [before a b] telling that the row [a] may stand before
    the row [b]: rows that may stand either way keep the order they come
    in. *)
Fixpoint insert_by {A : Type} (before : A -> A -> bool) (x : A) (l : list A) : list A :=
  match l with
  | [] => [x]
  | y :: t => if before x y then x :: y :: t else y :: insert_by before x t
  end.

Fixpoint order_by {A : Type} (before : A -> A -> bool) (l : list A) : list A :=
  match l with
  | [] => []
  | x :: t => insert_by before x (order_by before t)
  end.

(** [ORDER BY created_at DESC]: the latest first, and before them the rows
    without a time (NULLS FIRST is the default of DESC). *)
Definition created_at_desc (a b : option timestamptz) : bool :=
  match a, b with
  | None, _ => true
  | Some _, None => false
  | Some x, Some y => (y <=? x)%Z
  end.

Definition select_profiles (d : db) (auth_uid : option uuid)
    (where_ : Profile.t -> bool) : list Profile.t :=
  select (profiles_policies SELECT) d auth_uid where_ (profiles d).

Definition select_user_roles (d : db) (auth_uid : option uuid)
    (where_ : UserRole.t -> bool) : list UserRole.t :=
  select (user_roles_policies SELECT) d auth_uid where_ (user_roles d).

Definition select_audit_logs (d : db) (auth_uid : option uuid)
    (where_ : AuditLog.t -> bool) : list AuditLog.t :=
  select (audit_logs_policies SELECT) d auth_uid where_ (audit_logs d).

(** [.single()] and [.maybeSingle()]: the one row of the result; no row is
    an error for the first and no data for the second, several rows are an
    error for both. *)
Definition single {A : Type} (l : list A) : result A :=
  match l with
  | [x] => Ok x
  | _ => Err not_a_single_row
  end.

Definition maybeSingle {A : Type} (l : list A) : result (option A) :=
  match l with
  | [] => Ok None
  | [x] => Ok (Some x)
  | _ => Err not_a_single_row
  end.

(** [new Set(values)] and [set.has(value)]: each value once, at its first
    place. *)
Fixpoint new_Set (values : list uuid) : list uuid :=
  match values with
  | [] => []
  | x :: t => x :: filter (fun y => negb (uuid_eqb x y)) (new_Set t)
  end.

Definition has (set : list uuid) (value : uuid) : bool := mem value set.


(** The interface [Candidate] of the admin page: an entry of the form. *)
Module CandidateForm.
Record t := mk {
  name : string;
  description : string
}.
End CandidateForm.

Module Admin.

(** The state of the component that [handleCreateElection] reads. *)
Record state := mkState {
  user : option uuid;
  title : string;
  description : string;
  isAnonymous : bool;
  startDate : string;
  endDate : string;
  status : election_status;
  candidates : list CandidateForm.t
}.

Section Handlers.

(** How the storage reads the text of a date into a [timestamptz]; [None]
    when the text is not a date (the empty text, for one). *)
Variable timestamptz_in : string -> option timestamptz.

(** [supabase.from("elections").insert({...}).select().single()]: the
    request of [handleCreateElection].  The payload has no [id],
    [created_at] or [updated_at]: the defaults fill them.  The row comes
    back when the SELECT policy shows it to the caller, which it does for
    whoever passed the INSERT policy. *)
Definition insert_election_select_single (s : state) (w : world) (d : db)
    : result (Election.t * db) :=
  if online w 0 then
    match timestamptz_in (startDate s), timestamptz_in (endDate s) with
    | Some start_date, Some end_date =>
        let r := Election.mk (gen_random_uuid w 0) (title s) (Some (description s))
                             (Some (status s)) (Some (isAnonymous s))
                             (Some start_date) (Some end_date) (user s)
                             (Some (now w)) (Some (now w)) in
        match exec (user s) (insert_election r) d with
        | Ok d' => Ok (r, d')
        | Err e => Err e
        end
    | _, _ => Err invalid_datetime_format
    end
  else Err fetch_failed.

Definition validCandidates (s : state) : list CandidateForm.t :=
  filter (fun c => negb (String.eqb (trim (CandidateForm.name c)) "")) (candidates s).

Definition candidatesData (w : world) (electionData : Election.t)
    (valid : list CandidateForm.t) : list Candidate.t :=
  map_indexed (fun i c => Candidate.mk (gen_random_uuid w i) (Election.id electionData)
                                       (CandidateForm.name c)
                                       (Some (CandidateForm.description c))
                                       None (Some (now w)))
              1 valid.

Definition election_created_log (s : state) (w : world) (electionData : Election.t)
    (n : nat) : AuditLog.t :=
  AuditLog.mk (gen_random_uuid w (S n)) (user s) "election_created"
              [("election_id", Some (Election.id electionData));
               ("title", Some (title s))]
              (Some (now w)).

(** [handleCreateElection]: the toast shown and the database afterwards.
    The three requests are sent one after the other, each a statement of
    its own; the result of the audit insert is not looked at. *)
Definition handleCreateElection (s : state) (w : world) (d : db) : toast * db :=
  let valid := validCandidates s in
  if (List.length valid <? 2)%nat then
    (toast_error "Please add at least 2 candidates", d)
  else
    match insert_election_select_single s w d with
    | Err electionError => (toast_error_of electionError, d)
    | Ok (electionData, d1) =>
        match supabase w 1 (user s) (insert_candidates (candidatesData w electionData valid)) d1 with
        | Err candidatesError => (toast_error_of candidatesError, d1)
        | Ok d2 =>
            let d3 :=
              match supabase w 2 (user s)
                      (insert_audit_log
                         (election_created_log s w electionData (List.length valid))) d2 with
              | Ok d3 => d3
              | Err _ => d2
              end in
            (toast_success "Election created successfully!", d3)
        end
    end.

End Handlers.

(** [handleDeleteElection], once the user has confirmed. *)
Definition handleDeleteElection (auth_uid : option uuid) (w : world) (id : uuid) (d : db)
    : toast * db :=
  match supabase w 0 auth_uid (delete_elections (fun e => uuid_eqb (Election.id e) id)) d with
  | Err _ => (toast_error "Failed to delete election", d)
  | Ok d' => (toast_success "Election deleted successfully", d')
  end.

(** [fetchElections] of the admin page: all the elections the caller may
    see, the latest first; an error is not looked at and gives the empty
    list. *)
Definition fetchElections (auth_uid : option uuid) (w : world) (d : db) : list Election.t :=
  if online w 0
  then order_by (fun a b => created_at_desc (Election.created_at a) (Election.created_at b))
                (select_elections d auth_uid (fun _ => true))
  else [].



End Admin.

Module VotePage.

Record state := mkState {
  electionId : uuid;
  user : option uuid;
  election : option Election.t;
  selectedCandidate : string
}.

(** The row of [supabase.from("votes").insert({election_id, candidate_id,
    voter_id})]: [id], [vote_token] and [created_at] take their defaults. *)
Definition vote_row (w : world) (election_id candidate_id : uuid)
    (voter_id : option uuid) : Vote.t :=
  Vote.mk (gen_random_uuid w 0) election_id candidate_id voter_id
          (Some (gen_random_uuid w 1)) (Some (now w)).

Definition vote_cast_log (s : state) (w : world) : AuditLog.t :=
  AuditLog.mk (gen_random_uuid w 2) (user s) "vote_cast"
              [("election_id", Some (electionId s));
               ("election_title", option_map Election.title (election s))]
              (Some (now w)).

(** [handleSubmitVote]: no request is sent before the insert of the vote. *)
Definition handleSubmitVote (s : state) (w : world) (d : db) : toast * db :=
  if String.eqb (selectedCandidate s) "" then
    (toast_error "Please select a candidate", d)
  else
    match supabase w 0 (user s)
            (insert_vote (vote_row w (electionId s) (selectedCandidate s) (user s))) d with
    | Err e => (toast_error_of e, d)
    | Ok d1 =>
        let d2 :=
          match supabase w 1 (user s) (insert_audit_log (vote_cast_log s w)) d1 with
          | Ok d2 => d2
          | Err _ => d1
          end in
        (toast_success "Vote submitted successfully!", d2)
    end.

(** [checkIfAlreadyVoted]: the toast, which comes with the way back to the
    dashboard, when the query gives a row.  The error of the query is not
    looked at: without data nothing happens. *)
Definition checkIfAlreadyVoted (s : state) (w : world) (d : db) : option toast :=
  let data :=
    if online w 0 then
      match maybeSingle
              (select_votes d (user s)
                 (fun v => uuid_eqb (Vote.election_id v) (electionId s)
                           && is_true (sql_eq uuid_eqb (Vote.voter_id v) (user s)))) with
      | Ok data => data
      | Err _ => None
      end
    else None in
  match data with
  | Some _ => Some (toast_error "You have already voted in this election")
  | None => None
  end.

Section Load.

(** The order of two texts in the collation of the database. *)
Variable text_le : string -> string -> bool.

(** [fetchElectionAndCandidates]: the election and its candidates by name,
    or [None] for the toast "Failed to load election details" and the way
    back to the dashboard. *)
Definition fetchElectionAndCandidates (s : state) (w : world) (d : db)
    : option (Election.t * list Candidate.t) :=
  if online w 0 then
    match single (select_elections d (user s)
                    (fun e => uuid_eqb (Election.id e) (electionId s))) with
    | Err _ => None
    | Ok electionData =>
        if online w 1 then
          Some (electionData,
                order_by (fun a b => text_le (Candidate.name a) (Candidate.name b))
                         (select_candidates d (user s)
                            (fun c => uuid_eqb (Candidate.election_id c) (electionId s))))
        else None
    end
  else None.

End Load.

End VotePage.

(** [castVote(electionId, candidateId, voterPrincipal)]: the insert of
    [handleSubmitVote], sent by the voter, as the storage executes it. *)
Definition castVote (w : world) (electionId candidateId voterPrincipal : uuid) (d : db)
    : result db :=
  exec (Some voterPrincipal)
       (insert_vote (VotePage.vote_row w electionId candidateId (Some voterPrincipal))) d.

Module ResultsPage.

Record state := mkState {
  electionId : uuid;
  user : option uuid;
  election : option Election.t;
  results : list VoteCount;
  totalVotes : Z
}.

(** [.single()]: the one row of the result, or an error. *)
Definition single {A : Type} (l : list A) : result A :=
  match l with
  | [x] => Ok x
  | _ => Err not_a_single_row
  end.

(** [fetchResults]: the election, then [rpc("get_vote_counts")]; any error
    gives the same toast and leaves the results as they were. *)
Definition fetchResults (s : state) (w : world) (d : db) : state * option toast :=
  let failed s' := (s', Some (toast_error "Failed to load results")) in
  if online w 0 then
    match single (select_elections d (user s)
                    (fun e => uuid_eqb (Election.id e) (electionId s))) with
    | Err _ => failed s
    | Ok electionData =>
        let s1 := mkState (electionId s) (user s) (Some electionData)
                          (results s) (totalVotes s) in
        if online w 1 then
          let resultsData := get_vote_counts d (user s) (electionId s) in
          (mkState (electionId s) (user s) (Some electionData) resultsData
                   (fold_left (fun sum r => (sum + vote_count r)%Z) resultsData 0%Z),
           None)
        else failed s1
    end
  else failed s.

(** *** Numbers

    A number of JavaScript is a binary64 float: [spec_float] with 53 bits
    of precision.  A vote count is an integer below 2^53, which a number
    holds exactly and [String] prints as its decimal digits. *)

Definition prec : Z := 53.
Definition emax : Z := 1024.

Definition Number (z : Z) : spec_float := binary_normalize prec emax z 0 false.

Definition number_to_string (z : Z) : string := NilZero.string_of_int (Z.to_int z).

Definition digit (n : Z) : string := String (ascii_of_nat (48 + Z.to_nat n)) "".

(** The integer [n] for which [n / 100] is nearest to [m * 2^e], the larger
    one when two are as near. *)
Definition nearest_hundredths (m : positive) (e : Z) : Z :=
  if (0 <=? e)%Z then 100 * Zpos m * 2 ^ e
  else (200 * Zpos m + 2 ^ (- e)) / 2 ^ (1 - e).

(** The digits of [n] with a point before the last two, [n] taken as
    hundredths. *)
Definition hundredths_to_string (n : Z) : string :=
  number_to_string (n / 100) ++ "." ++ digit (n mod 100 / 10) ++ digit (n mod 10).

(** [x.toFixed(2)].  For a number of 10^21 or more JavaScript gives the
    exponent notation instead of the digits written here; a percentage of
    vote counts is far below that. *)
Definition toFixed_2 (x : spec_float) : string :=
  match x with
  | S754_nan => "NaN"
  | S754_infinity s => if s then "-Infinity" else "Infinity"
  | S754_zero _ => hundredths_to_string 0
  | S754_finite s m e =>
      (if s then "-" else "") ++ hundredths_to_string (nearest_hundredths m e)
  end.

(** [(Number(r.vote_count) / totalVotes) * 100] *)
Definition percentage_of (vote_count totalVotes : Z) : spec_float :=
  SFmul prec emax (SFdiv prec emax (Number vote_count) (Number totalVotes)) (Number 100).

(** The last cell of a row of the export. *)
Definition percentage_cell (r : VoteCount) (totalVotes : Z) : string :=
  if (totalVotes >? 0)%Z
  then toFixed_2 (percentage_of (vote_count r) totalVotes) ++ "%"
  else "0%".






(** The percentage under a candidate in the detailed results:
    [percentage.toFixed(2)] followed by [%], where [percentage] is the
    number [0] when there is no vote. *)
Definition percentage (r : VoteCount) (totalVotes : Z) : spec_float :=
  if (totalVotes >? 0)%Z then percentage_of (vote_count r) totalVotes else Number 0.

Definition percentage_text (r : VoteCount) (totalVotes : Z) : string :=
  toFixed_2 (percentage r totalVotes) ++ "%".

End ResultsPage.

Module Dashboard.

(** [fetchElections]: the active elections, the latest first, or [None]
    for the toast "Failed to load elections". *)
Definition fetchElections (auth_uid : option uuid) (w : world) (d : db)
    : option (list Election.t) :=
  if online w 0
  then Some (order_by
               (fun a b => created_at_desc (Election.created_at a) (Election.created_at b))
               (select_elections d auth_uid
                  (fun e => is_true (sql_eq election_status_eqb (Election.status e)
                                            (Some active)))))
  else None.

(** [fetchVotedElections]: the set of the elections of the caller's votes,
    or [None] when the request fails (the set on the page stays). *)
Definition fetchVotedElections (auth_uid : option uuid) (w : world) (d : db)
    : option (list uuid) :=
  if online w 0
  then Some (new_Set
               (map Vote.election_id
                    (select_votes d auth_uid
                       (fun v => is_true (sql_eq uuid_eqb (Vote.voter_id v) auth_uid)))))
  else None.

(** [hasVoted] of an election card. *)
Definition hasVoted (votedElections : list uuid) (election : Election.t) : bool :=
  has votedElections (Election.id election).

End Dashboard.

(** ** Runs and sample data *)

Definition play (l : list action) (d : db) : db := fold_left step l d.

(** An attempt to cast a vote: who sends the insert, and the row. *)
Definition attempt := (option uuid * Vote.t)%type.

Definition attempt_action (a : attempt) : action :=
  client_request (fst a) (insert_vote (snd a)).

(** The attempt is for the pair of the election [e] and the voter [p]. *)
Definition is_for (e p : uuid) (r : Vote.t) : bool :=
  uuid_eqb (Vote.election_id r) e && is_true (sql_eq uuid_eqb (Vote.voter_id r) (Some p)).

Definition votes_of (e p : uuid) (vs : list Vote.t) : list Vote.t :=
  filter (is_for e p) vs.

Definition succeeded {A : Type} (r : result A) : bool :=
  match r with
  | Ok _ => true
  | Err _ => false
  end.

(** The number of attempts for [(e, p)] that succeed when the attempts [l]
    are served one after the other from [d]. *)
Fixpoint successes (e p : uuid) (d : db) (l : list attempt) : nat :=
  match l with
  | [] => 0
  | a :: t =>
      (if is_for e p (snd a) && succeeded (run (attempt_action a) d) then 1 else 0)
      + successes e p (step d (attempt_action a)) t
  end.

(** A university with one administrator and three students, an active
    election between A and B and a closed one between C and D. *)
Definition sample_election (id title : string) (st : election_status) : Election.t :=
  Election.mk id title (Some "") (Some st) (Some false) (Some 1000%Z) (Some 2000%Z)
              (Some "admin-1") (Some 900%Z) (Some 900%Z).

Definition sample_candidate (id election name : string) : Candidate.t :=
  Candidate.mk id election name (Some "") None (Some 900%Z).

Definition sample_setup : list action :=
  [ auth_signup "admin-1" (Some "Registrar") (Some "S-000") "role-1" 100%Z;
    operator_grant_role (UserRole.mk "role-2" "admin-1" admin);
    auth_signup "student-1" (Some "Ada") (Some "S-001") "role-3" 101%Z;
    auth_signup "student-2" (Some "Ben") (Some "S-002") "role-4" 102%Z;
    auth_signup "student-3" (Some "Cyd") (Some "S-003") "role-5" 103%Z;
    client_request (Some "admin-1")
      (insert_election (sample_election "election-1" "President" active));
    client_request (Some "admin-1")
      (insert_candidates [sample_candidate "cand-A" "election-1" "A";
                          sample_candidate "cand-B" "election-1" "B"]);
    client_request (Some "admin-1")
      (insert_election (sample_election "election-2" "Treasurer" closed));
    client_request (Some "admin-1")
      (insert_candidates [sample_candidate "cand-C" "election-2" "C";
                          sample_candidate "cand-D" "election-2" "D"]) ].

Definition sample_vote (id candidate voter : string) : attempt :=
  (Some voter, Vote.mk id "election-1" candidate (Some voter) (Some ("token-" ++ id)%string)
                       (Some 1500%Z)).

Definition sample_votes : list attempt :=
  [ sample_vote "vote-1" "cand-A" "student-1";
    sample_vote "vote-2" "cand-A" "student-2";
    sample_vote "vote-3" "cand-B" "student-3" ].

Definition campus : db := play sample_setup empty_db.

Definition campus_after_votes : db := play (map attempt_action sample_votes) campus.

Definition sample_world (prefix : string) : world :=
  mkWorld (fun i => (prefix ++ "-" ++ NilZero.string_of_uint (Nat.to_uint i))%string)
          1600%Z (fun _ => true).

(** The university after the first student has written an entry into the
    audit log. *)
Definition campus_with_log : db :=
  step campus
       (client_request (Some "student-1")
          (insert_audit_log
             (AuditLog.mk "log-1" (Some "student-1") "vote_cast"
                          [("election_id", Some "election-1")] (Some 1500%Z)))).

(** A reading of dates for the examples: any text but the empty one is a
    date. *)
Definition sample_timestamptz_in (s : string) : option timestamptz :=
  if String.eqb s "" then None else Some 1700%Z.

(** A form with the candidates X and Y for a third election, and a world
    in which the second request of a handler is lost. *)
Definition sample_form : Admin.state :=
  Admin.mkState (Some "admin-1") "Secretary" "" false "2025-12-01T09:00"
                "2025-12-02T17:00" active
                [CandidateForm.mk "X" ""; CandidateForm.mk "Y" ""].

Definition second_request_lost (prefix : string) : world :=
  mkWorld (gen_random_uuid (sample_world prefix)) (now (sample_world prefix))
          (fun i => negb (Nat.eqb i 1)).


(** ** Statements of the properties *)

(** The code points that ECMAScript names WhiteSpace (TAB, VT, FF, ZWNBSP
    and the space separators of Unicode) and LineTerminator (LF, CR, LS,
    PS), and the UTF-8 encoding of a code point. *)
Definition WhiteSpace : list N :=
  [ 0x0009; 0x000B; 0x000C; 0xFEFF;
    0x0020; 0x00A0; 0x1680;
    0x2000; 0x2001; 0x2002; 0x2003; 0x2004; 0x2005; 0x2006; 0x2007; 0x2008; 0x2009;
    0x200A; 0x202F; 0x205F; 0x3000 ]%N.

Definition LineTerminator : list N := [ 0x000A; 0x000D; 0x2028; 0x2029 ]%N.

Definition continuation (n : N) : ascii := ascii_of_N (N.lor 0x80 (N.land n 0x3F)).

Definition utf8_encode (cp : N) : string :=
  if (cp <? 0x80)%N then String (ascii_of_N cp) ""
  else if (cp <? 0x800)%N then
    String (ascii_of_N (N.lor 0xC0 (N.shiftr cp 6))) (String (continuation cp) "")
  else if (cp <? 0x10000)%N then
    String (ascii_of_N (N.lor 0xE0 (N.shiftr cp 12)))
           (String (continuation (N.shiftr cp 6)) (String (continuation cp) ""))
  else
    String (ascii_of_N (N.lor 0xF0 (N.shiftr cp 18)))
           (String (continuation (N.shiftr cp 12))
                   (String (continuation (N.shiftr cp 6)) (String (continuation cp) ""))).

(** A text of nothing but white space and line terminators; the empty
    text is one. *)
Inductive blank : string -> Prop :=
| blank_empty : blank ""
| blank_more (cp : N) (s : string) :
    In cp (WhiteSpace ++ LineTerminator) -> blank s -> blank (utf8_encode cp ++ s).

(** A text that is a sequence of texts of [ps]. *)
Inductive made_of (ps : list string) : string -> Prop :=
| made_of_empty : made_of ps ""
| made_of_more (p s : string) : In p ps -> made_of ps s -> made_of ps (p ++ s).

(** At most one row of [votes] for an election and a voter. *)
Definition one_vote_per_voter (d : db) : Prop :=
  forall e p, (List.length (votes_of e p (votes d)) <= 1)%nat.

(** The action deletes the election [e]: it is a DELETE on [elections]
    that targets a row whose id is [e]. *)
Definition deletes_election (d : db) (a : action) (e : uuid) : Prop :=
  exists auth_uid where_,
    a = client_request auth_uid (delete_elections where_)
    /\ In e (map Election.id
               (deleted_rows (elections_policies DELETE) d auth_uid where_ (elections d))).

(** The action deletes the candidate [c]: it is a DELETE on [candidates]
    that targets a row whose id is [c], or a DELETE on [elections] that
    targets the election of such a row. *)
Definition deletes_candidate (d : db) (a : action) (c : uuid) : Prop :=
  (exists auth_uid where_,
      a = client_request auth_uid (delete_candidates where_)
      /\ In c (map Candidate.id
                 (deleted_rows (candidates_policies DELETE) d auth_uid where_ (candidates d))))
  \/ (exists auth_uid where_ row,
        a = client_request auth_uid (delete_elections where_)
        /\ In row (candidates d)
        /\ Candidate.id row = c
        /\ In (Candidate.election_id row)
              (map Election.id
                 (deleted_rows (elections_policies DELETE) d auth_uid where_ (elections d)))).

(** A vote that an action records is for a candidate of the election the
    vote is in. *)
Definition recorded_for_candidate_of_election (d : db) (a : action) (r : Vote.t) : Prop :=
  In r (votes (step d a)) -> ~ In r (votes d) ->
  exists c, In c (candidates d)
            /\ Candidate.id c = Vote.candidate_id r
            /\ Candidate.election_id c = Vote.election_id r.

(** The unique index on [(election_id, voter_id)] has no key twice. *)
Definition keys_distinct (d : db) : Prop := NoDup (election_voter_keys (votes d)).

(** The validation failure of the election form. *)
Definition ValidationError : toast := toast_error "Please add at least 2 candidates".

(** Election creation is all or nothing: when the insert of the candidates
    fails after the election row was created, the caller sees one failure
    and the database is as before the operation. *)
Definition creation_all_or_nothing (timestamptz_in : string -> option timestamptz)
    (s : Admin.state) (w : world) (d : db) : Prop :=
  forall electionData d1 candidatesError,
    (2 <= List.length (Admin.validCandidates s))%nat ->
    Admin.insert_election_select_single timestamptz_in s w d = Ok (electionData, d1) ->
    supabase w 1 (Admin.user s)
             (insert_candidates
                (Admin.candidatesData w electionData (Admin.validCandidates s))) d1
    = Err candidatesError ->
    fst (Admin.handleCreateElection timestamptz_in s w d) = toast_error_of candidatesError
    /\ snd (Admin.handleCreateElection timestamptz_in s w d) = d.

(** The candidates of an election. *)
Definition candidates_of (d : db) (e : uuid) : list Candidate.t :=
  filter (fun c => uuid_eqb (Candidate.election_id c) e) (candidates d).

(** A row of [votes] stays as it is under an action, unless the action
    deletes the election of the vote. *)
Definition removed_only_with_election (d : db) (a : action) (v : Vote.t) : Prop :=
  In v (votes d) -> In v (votes (step d a)) \/ deletes_election d a (Vote.election_id v).







Definition is_digit (c : ascii) : bool :=
  (48 <=? nat_of_ascii c)%nat && (nat_of_ascii c <=? 57)%nat.

Fixpoint all_digits (s : string) : bool :=
  match s with
  | EmptyString => true
  | String c t => is_digit c && all_digits t
  end.

(** Digits, a point, two digits. *)
Definition two_decimals (s : string) : Prop :=
  exists a b, s = (a ++ "." ++ b)%string
              /\ a <> "" /\ all_digits a = true
              /\ all_digits b = true /\ String.length b = 2%nat.

(** A float that is not below zero: its sign bit is clear. *)
Definition unsigned (x : spec_float) : Prop :=
  match x with
  | S754_zero s | S754_infinity s | S754_finite s _ _ => s = false
  | S754_nan => True
  end.




(** The votes for a candidate, and the entry of the tally the candidate
    should get from the votes [vs]. *)
Definition votes_for (c : uuid) (vs : list Vote.t) : list Vote.t :=
  filter (fun v => uuid_eqb c (Vote.candidate_id v)) vs.

Definition tally_entry (vs : list Vote.t) (c : Candidate.t) : VoteCount :=
  mkVoteCount (Candidate.id c) (Candidate.name c)
              (Z.of_nat (List.length (votes_for (Candidate.id c) vs))).

(** By descending vote count. *)
Definition descending (l : list VoteCount) : Prop :=
  Sorted (fun a b => (vote_count b <= vote_count a)%Z) l.

(** The rows of the join for one candidate. *)
Definition joined (vs : list Vote.t) (c : Candidate.t) : list (Candidate.t * option Vote.t) :=
  match votes_for (Candidate.id c) vs with
  | [] => [(c, None)]
  | ms => map (fun v => (c, Some v)) ms
  end.

(** * Properties *)

(** ** Equality tests and keys *)

Lemma uuid_eqb_eq (a b : uuid) : uuid_eqb a b = true <-> a = b.
Proof. apply String.eqb_eq. Qed.

Lemma uuid_eqb_refl (a : uuid) : uuid_eqb a a = true.
Proof. apply String.eqb_refl. Qed.

Lemma pair_eqb_eq (a b : uuid * uuid) : pair_eqb a b = true <-> a = b.
Proof.
  destruct a as [a1 a2], b as [b1 b2]. unfold pair_eqb. simpl.
  rewrite andb_true_iff, !uuid_eqb_eq. split.
  - intros [-> ->]. reflexivity.
  - intros H. inversion H. auto.
Qed.

Lemma mem_In (x : uuid) (l : list uuid) : mem x l = true <-> In x l.
Proof.
  unfold mem. rewrite existsb_exists. split.
  - intros [y [Hy Heq]]. apply uuid_eqb_eq in Heq. subst. exact Hy.
  - intros H. exists x. split; [exact H | apply uuid_eqb_refl].
Qed.

Lemma mem_false_not_In (x : uuid) (l : list uuid) : mem x l = false <-> ~ In x l.
Proof.
  rewrite <- mem_In. destruct (mem x l); split; congruence.
Qed.

Section Distinct.

Variable A : Type.
Variable eqb : A -> A -> bool.
Hypothesis eqb_eq : forall a b, eqb a b = true <-> a = b.

Lemma existsb_eqb_In (x : A) (l : list A) : existsb (eqb x) l = true <-> In x l.
Proof.
  rewrite existsb_exists. split.
  - intros [y [Hy Heq]]. apply eqb_eq in Heq. subst. exact Hy.
  - intros H. exists x. split; [exact H | now apply eqb_eq].
Qed.

Lemma distinctb_NoDup (l : list A) : distinctb eqb l = true <-> NoDup l.
Proof.
  induction l as [|x t IH]; simpl.
  - split; [constructor | reflexivity].
  - rewrite andb_true_iff, negb_true_iff, IH. split.
    + intros [Hx Ht]. constructor; [|exact Ht].
      intros Hin. apply existsb_eqb_In in Hin. congruence.
    + intros H. inversion H as [|? ? Hx Ht]; subst. split; [|exact Ht].
      destruct (existsb (eqb x) t) eqn:E; [|reflexivity].
      apply existsb_eqb_In in E. contradiction.
Qed.

End Distinct.

Lemma election_voter_keys_app (vs ws : list Vote.t) :
  election_voter_keys (vs ++ ws) = election_voter_keys vs ++ election_voter_keys ws.
Proof. unfold election_voter_keys. apply flat_map_app. Qed.

(** A row is for [(e, p)] exactly when its key in the unique index is
    [(e, p)]. *)
Lemma is_for_key (e p : uuid) (v : Vote.t) :
  is_for e p v = true <-> election_voter_keys [v] = [(e, p)].
Proof.
  unfold is_for, election_voter_keys. simpl.
  destruct (Vote.voter_id v) as [q|]; simpl.
  - destruct (uuid_eqb (Vote.election_id v) e) eqn:Ee;
      destruct (uuid_eqb q p) eqn:Ep; simpl; split; try discriminate.
    + intros _. apply uuid_eqb_eq in Ee, Ep. now subst.
    + reflexivity.
    + intros H. inversion H; subst. rewrite uuid_eqb_refl in Ep. discriminate.
    + intros H. inversion H; subst. rewrite uuid_eqb_refl in Ee. discriminate.
    + intros H. inversion H; subst. rewrite uuid_eqb_refl in Ee. discriminate.
  - rewrite andb_false_r. split; discriminate.
Qed.

Lemma election_voter_keys_cons (v : Vote.t) (t : list Vote.t) :
  election_voter_keys (v :: t) = election_voter_keys [v] ++ election_voter_keys t.
Proof. apply (election_voter_keys_app [v] t). Qed.

Lemma votes_of_cons (e p : uuid) (v : Vote.t) (t : list Vote.t) :
  votes_of e p (v :: t) = if is_for e p v then v :: votes_of e p t else votes_of e p t.
Proof. reflexivity. Qed.

(** The key of one row: none, or the one key it is for. *)
Lemma key_of_row (v : Vote.t) :
  election_voter_keys [v] = []
  \/ exists e p, election_voter_keys [v] = [(e, p)].
Proof.
  unfold election_voter_keys. simpl.
  destruct (Vote.voter_id v); simpl; [right; eauto | left; reflexivity].
Qed.

Lemma In_keys_votes_of (e p : uuid) (vs : list Vote.t) :
  In (e, p) (election_voter_keys vs) <-> votes_of e p vs <> [].
Proof.
  induction vs as [|v t IH].
  - simpl. split; [contradiction | congruence].
  - rewrite election_voter_keys_cons, votes_of_cons, in_app_iff, IH.
    destruct (is_for e p v) eqn:E.
    + apply is_for_key in E. rewrite E. split; [discriminate | simpl; auto].
    + split; [|auto]. intros [H|H]; [|exact H]. exfalso.
      destruct (key_of_row v) as [K|[e' [p' K]]]; rewrite K in H; simpl in H.
      * contradiction.
      * destruct H as [H|[]]. rewrite H in K. apply is_for_key in K. congruence.
Qed.

(** With distinct keys in the unique index, a pair has at most one row. *)
Lemma NoDup_keys_votes_of (e p : uuid) (vs : list Vote.t) :
  NoDup (election_voter_keys vs) -> (List.length (votes_of e p vs) <= 1)%nat.
Proof.
  induction vs as [|v t IH]; [simpl; lia|].
  rewrite election_voter_keys_cons, votes_of_cons.
  intros H. destruct (is_for e p v) eqn:E.
  - apply is_for_key in E. rewrite E in H. simpl in H.
    inversion H as [|? ? Hnot Hrest]; subst.
    rewrite In_keys_votes_of in Hnot.
    destruct (votes_of e p t) eqn:Et; [simpl; lia|].
    exfalso. apply Hnot. discriminate.
  - apply IH. apply NoDup_app_remove_l in H. exact H.
Qed.

Lemma In_keys_filter (f : Vote.t -> bool) (k : uuid * uuid) (vs : list Vote.t) :
  In k (election_voter_keys (filter f vs)) -> In k (election_voter_keys vs).
Proof.
  unfold election_voter_keys. rewrite !in_flat_map.
  intros [x [Hx Hk]]. apply filter_In in Hx. exists x. tauto.
Qed.

Lemma NoDup_keys_filter (f : Vote.t -> bool) (vs : list Vote.t) :
  NoDup (election_voter_keys vs) -> NoDup (election_voter_keys (filter f vs)).
Proof.
  induction vs as [|v t IH]; [simpl; auto|].
  rewrite election_voter_keys_cons. intros H.
  pose proof (NoDup_app_remove_l _ _ H) as Ht. simpl.
  destruct (f v); [|auto].
  rewrite election_voter_keys_cons.
  destruct (key_of_row v) as [K|[e [p K]]]; rewrite K in *; simpl in *; [auto|].
  inversion H as [|? ? Hnot Hrest]; subst. constructor; [|auto].
  intros Hin. apply Hnot. eapply In_keys_filter. exact Hin.
Qed.

(** ** How a statement changes [votes] *)

Lemma rls_pass_nil (row : Type) (d : db) (auth_uid : option uuid) (r : row) :
  rls_pass [] d auth_uid r = false.
Proof. unfold rls_pass. simpl. apply andb_false_r. Qed.

Lemma targeted_nil (row : Type) (d : db) (auth_uid : option uuid)
    (where_ : row -> bool) (r : row) :
  targeted [] d auth_uid where_ r = false.
Proof. unfold targeted. rewrite rls_pass_nil. apply andb_false_r. Qed.

Lemma update_rows_nil (row : Type) (d : db) (auth_uid : option uuid)
    (where_ : row -> bool) (set : row -> row) (l : list row) :
  update_rows [] d auth_uid where_ set l = l.
Proof.
  unfold update_rows. induction l as [|r t IH]; simpl; [reflexivity|].
  rewrite targeted_nil, IH. reflexivity.
Qed.

Lemma delete_rows_nil (row : Type) (d : db) (auth_uid : option uuid)
    (where_ : row -> bool) (l : list row) :
  delete_rows [] d auth_uid where_ l = l.
Proof.
  unfold delete_rows. induction l as [|r t IH]; simpl; [reflexivity|].
  rewrite targeted_nil. simpl. rewrite IH. reflexivity.
Qed.

Lemma with_votes_same (d : db) : with_votes d (votes d) = d.
Proof. destruct d. reflexivity. Qed.

(** Splits the checks of a statement that is known to succeed. *)
Ltac passed :=
  repeat match goal with
         | H : (if ?b then _ else _) = Ok _ |- _ =>
             let E := fresh "Check" in destruct b eqn:E; [|discriminate H]
         end.

(** Goes through the checks of a statement, one case per outcome. *)
Ltac each_check :=
  repeat match goal with
         | |- context [if ?b then _ else Err _] => destruct b
         end.

Lemma exec_insert_vote_Ok (d d' : db) (auth_uid : option uuid) (r : Vote.t) :
  exec_insert_vote d auth_uid r = Ok d' ->
  rls_pass (votes_policies INSERT) d auth_uid r = true
  /\ mem (Vote.id r) (map Vote.id (votes d)) = false
  /\ conflicts_election_voter r (votes d) = false
  /\ mem (Vote.election_id r) (map Election.id (elections d)) = true
  /\ mem (Vote.candidate_id r) (map Candidate.id (candidates d)) = true
  /\ mem_opt (Vote.voter_id r) (users d) = true
  /\ d' = with_votes d (votes d ++ [r]).
Proof.
  unfold exec_insert_vote. intros H. passed.
  apply negb_true_iff in Check0, Check1. inversion H. tauto.
Qed.

(** No UPDATE and no DELETE on [votes] changes the database, whoever sends
    it. *)
Lemma update_votes_no_change (d d' : db) (auth_uid : option uuid)
    (where_ : Vote.t -> bool) (set : Vote.t -> Vote.t) :
  exec auth_uid (update_votes where_ set) d = Ok d' -> d' = d.
Proof.
  simpl. unfold exec_update_votes. simpl votes_policies.
  rewrite update_rows_nil. intros H. passed. inversion H. apply with_votes_same.
Qed.

Lemma delete_votes_no_change (d : db) (auth_uid : option uuid) (where_ : Vote.t -> bool) :
  exec auth_uid (delete_votes where_) d = Ok d.
Proof.
  simpl. rewrite delete_rows_nil, with_votes_same. reflexivity.
Qed.

Lemma with_profiles_same (d : db) : with_profiles d (profiles d) = d.
Proof. destruct d. reflexivity. Qed.

Lemma with_user_roles_same (d : db) : with_user_roles d (user_roles d) = d.
Proof. destruct d. reflexivity. Qed.

Lemma with_elections_same (d : db) : with_elections d (elections d) = d.
Proof. destruct d. reflexivity. Qed.

Lemma with_candidates_same (d : db) : with_candidates d (candidates d) = d.
Proof. destruct d. reflexivity. Qed.

Lemma with_audit_logs_same (d : db) : with_audit_logs d (audit_logs d) = d.
Proof. destruct d. reflexivity. Qed.

(** The statements that no policy allows: INSERT and DELETE on [profiles],
    UPDATE and DELETE on [audit_logs].  The insert is refused; the others
    find no row and leave the database as it is. *)
Lemma exec_insert_profile_denied (d : db) (auth_uid : option uuid) (r : Profile.t) :
  exec_insert_profile d auth_uid r = Err insufficient_privilege.
Proof.
  unfold exec_insert_profile. simpl profiles_policies. rewrite rls_pass_nil. reflexivity.
Qed.

Lemma delete_profiles_keeps (d : db) (auth_uid : option uuid) (where_ : Profile.t -> bool) :
  with_profiles d (delete_rows (profiles_policies DELETE) d auth_uid where_ (profiles d)) = d.
Proof. simpl profiles_policies. rewrite delete_rows_nil. apply with_profiles_same. Qed.

Lemma update_audit_logs_keeps (d : db) (auth_uid : option uuid)
    (where_ : AuditLog.t -> bool) (set : AuditLog.t -> AuditLog.t) :
  match exec_update_audit_logs d auth_uid where_ set with
  | Ok d' => d'
  | Err _ => d
  end = d.
Proof.
  unfold exec_update_audit_logs. simpl audit_logs_policies. rewrite update_rows_nil.
  each_check; try reflexivity. apply with_audit_logs_same.
Qed.

Lemma delete_audit_logs_keeps (d : db) (auth_uid : option uuid)
    (where_ : AuditLog.t -> bool) :
  with_audit_logs d
    (delete_rows (audit_logs_policies DELETE) d auth_uid where_ (audit_logs d)) = d.
Proof. simpl audit_logs_policies. rewrite delete_rows_nil. apply with_audit_logs_same. Qed.

Lemma filter_none (A : Type) (f : A -> bool) (l : list A) :
  (forall x, In x l -> f x = false) -> filter f l = [].
Proof.
  induction l as [|x t IH]; intros H; [reflexivity|]. simpl.
  rewrite (H x (or_introl eq_refl)). apply IH. intros y Hy. apply H. right. exact Hy.
Qed.

Lemma filter_filter_andb (A : Type) (f g : A -> bool) (l : list A) :
  filter f (filter g l) = filter (fun x => g x && f x) l.
Proof.
  induction l as [|x t IH]; simpl; [reflexivity|].
  destruct (g x); simpl; [destruct (f x)|]; rewrite IH; reflexivity.
Qed.

(** After an action the table [votes] is what it was, or has the one new
    row of a successful insert at its end, or has lost the rows that the
    deletion of candidates or of elections takes with it. *)
Lemma votes_step_cases (d : db) (a : action) :
  votes (step d a) = votes d
  \/ (exists auth_uid r,
        a = client_request auth_uid (insert_vote r)
        /\ exec_insert_vote d auth_uid r = Ok (with_votes d (votes d ++ [r]))
        /\ votes (step d a) = votes d ++ [r])
  \/ (exists auth_uid where_,
        a = client_request auth_uid (delete_candidates where_)
        /\ votes (step d a)
           = cascade_candidates_to_votes
               (map Candidate.id
                    (deleted_rows (candidates_policies DELETE) d auth_uid where_
                                  (candidates d)))
               (votes d))
  \/ (exists auth_uid where_,
        a = client_request auth_uid (delete_elections where_)
        /\ let gone := map Election.id
                            (deleted_rows (elections_policies DELETE) d auth_uid where_
                                          (elections d)) in
           votes (step d a)
           = cascade_candidates_to_votes
               (map Candidate.id
                    (filter (fun c => mem (Candidate.election_id c) gone) (candidates d)))
               (cascade_elections_to_votes gone (votes d))).
Proof.
  destruct a as [auth_uid rq|new_id full_name student_id role_id t|r].
  - destruct rq; unfold step; simpl run.
    + unfold exec_insert_profile. each_check; auto.
    + unfold exec_update_profiles. each_check; auto.
    + auto.
    + unfold exec_insert_user_role, insert_user_role_row. each_check; auto.
    + unfold exec_update_user_roles. each_check; auto.
    + auto.
    + unfold exec_insert_election. each_check; auto.
    + unfold exec_update_elections. each_check; auto.
    + right. right. right. exists auth_uid, where_. split; reflexivity.
    + unfold exec_insert_candidates.
      destruct (insert_candidate_rows d auth_uid rs (candidates d)); [|auto].
      each_check; auto.
    + unfold exec_update_candidates. each_check; auto.
    + right. right. left. exists auth_uid, where_. split; reflexivity.
    + destruct (exec_insert_vote d auth_uid r) as [d'|e] eqn:E; [|auto].
      right. left. exists auth_uid, r.
      pose proof (exec_insert_vote_Ok _ _ _ E) as H.
      destruct H as (_ & _ & _ & _ & _ & _ & ->). auto.
    + destruct (exec_update_votes d auth_uid where_ set) as [d'|e] eqn:E; [|auto].
      apply (update_votes_no_change d auth_uid where_ set) in E. subst. auto.
    + left. simpl. apply delete_rows_nil.
    + unfold exec_insert_audit_log. each_check; auto.
    + unfold exec_update_audit_logs. each_check; auto.
    + auto.
  - unfold step. simpl run. unfold handle_new_user, insert_user_role_row.
    each_check; auto.
  - unfold step. simpl run. unfold insert_user_role_row. each_check; auto.
Qed.

(** In short: the old table, one more row, or some rows fewer. *)
Lemma votes_step_shape (d : db) (a : action) :
  votes (step d a) = votes d
  \/ (exists auth_uid r,
        a = client_request auth_uid (insert_vote r)
        /\ exec_insert_vote d auth_uid r = Ok (with_votes d (votes d ++ [r]))
        /\ votes (step d a) = votes d ++ [r])
  \/ (exists f, votes (step d a) = filter f (votes d)).
Proof.
  destruct (votes_step_cases d a) as [H|[H|[(u & w & _ & H)|(u & w & _ & H)]]]; auto.
  - right. right. unfold cascade_candidates_to_votes in H. eauto.
  - right. right. simpl in H.
    unfold cascade_candidates_to_votes, cascade_elections_to_votes in H.
    rewrite filter_filter_andb in H. eauto.
Qed.

(** ** The ballot ledger: one vote per election and voter *)

Lemma conflicts_In (r : Vote.t) (vs : list Vote.t) :
  conflicts_election_voter r vs = true
  <-> exists e p, election_voter_keys [r] = [(e, p)] /\ In (e, p) (election_voter_keys vs).
Proof.
  unfold conflicts_election_voter, election_voter_keys at 1. simpl.
  destruct (Vote.voter_id r) as [p|]; simpl.
  - rewrite (existsb_eqb_In pair_eqb pair_eqb_eq). split.
    + intros H. eauto.
    + intros (e & q & H & Hin). inversion H. subst. exact Hin.
  - split; [discriminate|]. intros (e & p & H & _). discriminate.
Qed.

Lemma keys_distinct_insert (d : db) (auth_uid : option uuid) (r : Vote.t) :
  keys_distinct d ->
  exec_insert_vote d auth_uid r = Ok (with_votes d (votes d ++ [r])) ->
  NoDup (election_voter_keys (votes d ++ [r])).
Proof.
  intros Hd H. apply exec_insert_vote_Ok in H.
  destruct H as (_ & _ & Hc & _). rewrite election_voter_keys_app.
  destruct (key_of_row r) as [K|[e [p K]]]; rewrite K.
  - rewrite app_nil_r. exact Hd.
  - apply NoDup_rev in Hd. rewrite <- (rev_involutive (_ ++ _)).
    apply NoDup_rev. rewrite rev_app_distr. simpl. constructor; [|exact Hd].
    rewrite <- in_rev. intros Hin.
    assert (C : conflicts_election_voter r (votes d) = true).
    { apply conflicts_In. eauto. }
    congruence.
Qed.

Lemma keys_distinct_step (d : db) (a : action) :
  keys_distinct d -> keys_distinct (step d a).
Proof.
  intros Hd. unfold keys_distinct.
  destruct (votes_step_shape d a) as [H|[(auth_uid & r & _ & Hins & H)|[f H]]];
    rewrite H.
  - exact Hd.
  - eapply keys_distinct_insert; eauto.
  - apply NoDup_keys_filter. exact Hd.
Qed.

Lemma keys_distinct_reachable (d : db) : reachable d -> keys_distinct d.
Proof.
  induction 1 as [|d a _ IH].
  - constructor.
  - apply keys_distinct_step. exact IH.
Qed.

Lemma reachable_play (l : list action) (d : db) : reachable d -> reachable (play l d).
Proof.
  revert d. induction l as [|a t IH]; simpl; intros d Hd; [exact Hd|].
  apply IH. constructor. exact Hd.
Qed.

Lemma votes_of_app (e p : uuid) (vs ws : list Vote.t) :
  votes_of e p (vs ++ ws) = votes_of e p vs ++ votes_of e p ws.
Proof. unfold votes_of. apply filter_app. Qed.

(** Served from [d], the attempts [l] leave as many rows for [(e, p)] as
    there were, plus one for each attempt for [(e, p)] that succeeded. *)
Lemma votes_of_play (e p : uuid) (l : list attempt) (d : db) :
  List.length (votes_of e p (votes (play (map attempt_action l) d)))
  = (successes e p d l + List.length (votes_of e p (votes d)))%nat.
Proof.
  revert d. induction l as [|a t IH]; intros d; [reflexivity|].
  simpl. rewrite IH. unfold step. destruct a as [auth_uid r]. simpl.
  destruct (exec_insert_vote d auth_uid r) as [d'|err] eqn:E; simpl.
  - apply exec_insert_vote_Ok in E. destruct E as (_ & _ & _ & _ & _ & _ & ->).
    simpl. rewrite votes_of_app, length_app. simpl.
    rewrite andb_true_r. destruct (is_for e p r); simpl; lia.
  - rewrite andb_false_r. lia.
Qed.

Lemma rls_pass_own_vote (d : db) (w : world) (e c p : uuid) :
  rls_pass (votes_policies INSERT) d (Some p) (VotePage.vote_row w e c (Some p)) = true.
Proof.
  unfold rls_pass, users_can_cast_votes. simpl. rewrite uuid_eqb_refl. reflexivity.
Qed.

(** With a row for [(e, p)] in the table, [castVote] for [(e, p)] is
    refused by the unique index, whatever the candidate. *)
Lemma castVote_duplicate (d : db) (w : world) (e c p : uuid) :
  votes_of e p (votes d) <> [] ->
  mem (gen_random_uuid w 0) (map Vote.id (votes d)) = false ->
  castVote w e c p d = Err DuplicateVote.
Proof.
  intros Hrow Hid. unfold castVote. simpl. unfold exec_insert_vote.
  rewrite rls_pass_own_vote. simpl Vote.id. rewrite Hid. simpl negb.
  assert (C : conflicts_election_voter (VotePage.vote_row w e c (Some p)) (votes d) = true).
  { apply conflicts_In. exists e, p. split; [reflexivity|].
    apply In_keys_votes_of. exact Hrow. }
  rewrite C. reflexivity.
Qed.

(** With no row for [(e, p)] yet, [castVote] by a registered voter for an
    existing election and an existing candidate records the vote. *)
Lemma castVote_first (d : db) (w : world) (e c p : uuid) :
  votes_of e p (votes d) = [] ->
  mem (gen_random_uuid w 0) (map Vote.id (votes d)) = false ->
  In e (map Election.id (elections d)) ->
  In c (map Candidate.id (candidates d)) ->
  In p (users d) ->
  castVote w e c p d
  = Ok (with_votes d (votes d ++ [VotePage.vote_row w e c (Some p)])).
Proof.
  intros Hrow Hid He Hc Hp. unfold castVote. simpl. unfold exec_insert_vote.
  rewrite rls_pass_own_vote. simpl Vote.id. rewrite Hid. simpl negb.
  assert (C : conflicts_election_voter (VotePage.vote_row w e c (Some p)) (votes d) = false).
  { destruct (conflicts_election_voter _ _) eqn:C; [|reflexivity].
    apply conflicts_In in C. destruct C as (e' & p' & K & Hin).
    inversion K; subst. apply In_keys_votes_of in Hin. contradiction. }
  rewrite C. simpl.
  apply mem_In in He, Hc, Hp. rewrite He, Hc, Hp. reflexivity.
Qed.

(** The page does not look for an earlier vote before it inserts: a second
    submission reaches the storage and comes back with its error. *)
Lemma handleSubmitVote_duplicate (s : VotePage.state) (w : world) (d : db) (p : uuid) :
  VotePage.user s = Some p ->
  VotePage.selectedCandidate s <> "" ->
  online w 0 = true ->
  votes_of (VotePage.electionId s) p (votes d) <> [] ->
  mem (gen_random_uuid w 0) (map Vote.id (votes d)) = false ->
  VotePage.handleSubmitVote s w d = (toast_error_of DuplicateVote, d).
Proof.
  intros Hu Hc Hon Hrow Hid. unfold VotePage.handleSubmitVote.
  apply String.eqb_neq in Hc. rewrite Hc. unfold supabase. rewrite Hon, Hu.
  pose proof (@castVote_duplicate d w (VotePage.electionId s)
                (VotePage.selectedCandidate s) p Hrow Hid) as H.
  unfold castVote in H. rewrite H. reflexivity.
Qed.

(** C1. In every reachable state there is at most one row of [votes] for an
    election and a voter.  When attempts to vote, by any callers and for
    any pairs, are served one after the other from such a state, the state
    they leave has the same property and at most one attempt for a given
    pair [(e, p)] has succeeded, none if the pair had its row already; from
    then on every [castVote] for [(e, p)] fails with [DuplicateVote],
    whatever the candidate, as long as the id drawn for the new row is not
    taken (a taken id is refused by the primary key first).  The refusal is
    the unique index of the table, checked by the storage in the insert
    itself: the first [castVote] for a pair goes through. *)
Theorem one_vote_per_election_and_voter (d : db) (Hd : reachable d) :
  one_vote_per_voter d
  /\ (forall (l : list attempt) (e p : uuid),
        one_vote_per_voter (play (map attempt_action l) d)
        /\ (successes e p d l + List.length (votes_of e p (votes d)) <= 1)%nat)
  /\ (forall (l : list attempt) (w : world) (e c p : uuid),
        (1 <= successes e p d l + List.length (votes_of e p (votes d)))%nat ->
        mem (gen_random_uuid w 0)
            (map Vote.id (votes (play (map attempt_action l) d))) = false ->
        castVote w e c p (play (map attempt_action l) d) = Err DuplicateVote)
  /\ (forall (w : world) (e c p : uuid),
        votes_of e p (votes d) = [] ->
        mem (gen_random_uuid w 0) (map Vote.id (votes d)) = false ->
        In e (map Election.id (elections d)) ->
        In c (map Candidate.id (candidates d)) ->
        In p (users d) ->
        castVote w e c p d
        = Ok (with_votes d (votes d ++ [VotePage.vote_row w e c (Some p)]))).
Proof.
  assert (Hall : forall d', reachable d' -> one_vote_per_voter d').
  { intros d' H e p. apply NoDup_keys_votes_of.
    apply keys_distinct_reachable. exact H. }
  split; [auto|]. split; [|split].
  - intros l e p.
    pose proof (Hall _ (reachable_play (map attempt_action l) Hd)) as H.
    split; [exact H|]. rewrite <- votes_of_play. apply H.
  - intros l w e c p Hone Hid. apply castVote_duplicate; [|exact Hid].
    rewrite <- votes_of_play in Hone.
    destruct (votes_of e p (votes (play (map attempt_action l) d)));
      [simpl in Hone; lia | discriminate].
  - intros w e c p. apply castVote_first.
Qed.

Lemma reachable_campus : reachable campus.
Proof. apply reachable_play. constructor. Qed.

Lemma one_vote_per_election_and_voter_witness :
  one_vote_per_voter campus
  /\ (successes "election-1" "student-1" campus
        (sample_votes ++ [sample_vote "vote-4" "cand-B" "student-1"]) <= 1)%nat
  /\ castVote (sample_world "draw") "election-1" "cand-B" "student-1" campus_after_votes
     = Err DuplicateVote.
Proof.
  destruct (one_vote_per_election_and_voter reachable_campus) as (H1 & H2 & H3 & _).
  split; [exact H1|]. split.
  - destruct (H2 (sample_votes ++ [sample_vote "vote-4" "cand-B" "student-1"])
                 "election-1" "student-1") as [_ H].
    lia.
  - apply (H3 sample_votes); vm_compute; [lia | reflexivity].
Defined.

(** ** Casting a vote: what the storage checks *)

Lemma rls_pass_cast_vote (d : db) (auth_uid : option uuid) (r : Vote.t) :
  rls_pass (votes_policies INSERT) d auth_uid r = true
  <-> exists u, auth_uid = Some u /\ Vote.voter_id r = Some u.
Proof.
  unfold rls_pass. simpl. unfold users_can_cast_votes.
  destruct auth_uid as [u|], (Vote.voter_id r) as [q|]; simpl.
  - rewrite orb_false_r. destruct (uuid_eqb q u) eqn:E.
    + apply uuid_eqb_eq in E. subst. split; [intros _; exists u; auto | reflexivity].
    + split; [discriminate|]. intros (u' & H1 & H2).
      inversion H1; inversion H2; subst. rewrite uuid_eqb_refl in E. discriminate.
  - split; [discriminate|]. intros (u' & _ & H). discriminate.
  - split; [discriminate|]. intros (u' & H & _). discriminate.
  - split; [discriminate|]. intros (u' & H & _). discriminate.
Qed.

(** C10. The check of "Users can cast votes" lets an insert into [votes]
    through exactly when the caller is authenticated and the [voter_id] of
    the row is the caller's id.  It reads nothing of the database, so not
    the status of the election either: for an authenticated principal and
    an existing election of any status, a row naming the principal as
    voter passes. *)
Theorem cast_vote_check_is_voter_is_caller (d : db) (auth_uid : option uuid) (r : Vote.t) :
  (rls_pass (votes_policies INSERT) d auth_uid r = true
   <-> exists u, auth_uid = Some u /\ Vote.voter_id r = Some u)
  /\ (forall d', rls_pass (votes_policies INSERT) d' auth_uid r
                 = rls_pass (votes_policies INSERT) d auth_uid r)
  /\ (forall (u : uuid) (election : Election.t),
        auth_uid = Some u ->
        Vote.voter_id r = Some u ->
        In election (elections d) ->
        Election.id election = Vote.election_id r ->
        rls_pass (votes_policies INSERT) d auth_uid r = true).
Proof.
  split; [apply rls_pass_cast_vote|]. split.
  - intros d'. reflexivity.
  - intros u election Hu Hv _ _. apply rls_pass_cast_vote. eauto.
Qed.

Lemma cast_vote_check_is_voter_is_caller_witness :
  Election.status (sample_election "election-2" "Treasurer" closed) = Some closed
  /\ rls_pass (votes_policies INSERT) campus (Some "student-1")
              (VotePage.vote_row (sample_world "draw") "election-2" "cand-C"
                                 (Some "student-1")) = true.
Proof.
  split; [reflexivity|].
  destruct (cast_vote_check_is_voter_is_caller campus (Some "student-1")
              (VotePage.vote_row (sample_world "draw") "election-2" "cand-C"
                                 (Some "student-1"))) as (_ & _ & H).
  apply (H "student-1" (sample_election "election-2" "Treasurer" closed));
    [reflexivity | reflexivity | vm_compute; auto | reflexivity].
Defined.

(** The whole insert goes through for a closed election as well. *)
Example castVote_in_closed_election :
  succeeded (castVote (sample_world "draw") "election-2" "cand-C" "student-1" campus)
  = true.
Proof. vm_compute. reflexivity. Qed.

Lemma In_map_exists (A : Type) (f : A -> uuid) (x : uuid) (l : list A) :
  In x (map f l) -> exists a, In a l /\ f a = x.
Proof. rewrite in_map_iff. intros [a [H1 H2]]. eauto. Qed.

(** C4, as the code has it.  A row that an action adds to [votes] was sent
    by an authenticated caller as an insert naming the caller as voter,
    for an election that exists and a candidate that exists; the candidate
    is one of some election, which the storage does not compare with the
    election of the vote. *)
Theorem vote_recorded_only_if (d : db) (a : action) (r : Vote.t)
    (Hnew : In r (votes (step d a))) (Hold : ~ In r (votes d)) :
  exists u,
    a = client_request (Some u) (insert_vote r)
    /\ Vote.voter_id r = Some u
    /\ In u (users d)
    /\ (exists election, In election (elections d)
                         /\ Election.id election = Vote.election_id r)
    /\ (exists c, In c (candidates d) /\ Candidate.id c = Vote.candidate_id r).
Proof.
  destruct (votes_step_shape d a) as [H|[(auth_uid & r' & Ha & Hins & H)|[f H]]];
    rewrite H in Hnew.
  - contradiction.
  - apply in_app_iff in Hnew. destruct Hnew as [Hin|[<-|[]]]; [contradiction|].
    apply exec_insert_vote_Ok in Hins.
    destruct Hins as (Hrls & _ & _ & He & Hc & Hu & _).
    apply rls_pass_cast_vote in Hrls. destruct Hrls as (u & -> & Hv).
    exists u. rewrite Hv in Hu. simpl in Hu.
    apply mem_In in He, Hc, Hu.
    apply In_map_exists in He, Hc. repeat split; auto.
  - apply filter_In in Hnew. tauto.
Qed.

Lemma vote_recorded_only_if_witness :
  exists u,
    attempt_action (sample_vote "vote-1" "cand-A" "student-1")
    = client_request (Some u) (insert_vote (snd (sample_vote "vote-1" "cand-A" "student-1")))
    /\ In u (users campus).
Proof.
  destruct (@vote_recorded_only_if campus
              (attempt_action (sample_vote "vote-1" "cand-A" "student-1"))
              (snd (sample_vote "vote-1" "cand-A" "student-1")))
    as (u & Ha & _ & Hu & _).
  - vm_compute. auto.
  - vm_compute. intros [].
  - exists u. split; assumption.
Defined.

(** C4, as stated, fails: a student of the sample university votes in the
    election between A and B for C, a candidate of the other election, and
    the vote is recorded. *)
Lemma vote_for_candidate_of_another_election :
  let s := VotePage.mkState "election-1" (Some "student-1") None "cand-C" in
  let w := sample_world "draw" in
  let r := VotePage.vote_row w "election-1" "cand-C" (Some "student-1") in
  fst (VotePage.handleSubmitVote s w campus) = toast_success "Vote submitted successfully!"
  /\ In r (votes (snd (VotePage.handleSubmitVote s w campus)))
  /\ castVote w "election-1" "cand-C" "student-1" campus
     = Ok (with_votes campus (votes campus ++ [r]))
  /\ ~ recorded_for_candidate_of_election campus
         (client_request (Some "student-1") (insert_vote r)) r.
Proof.
  split; [vm_compute; reflexivity|]. split; [vm_compute; auto|].
  split; [vm_compute; reflexivity|].
  intros H. destruct H as (c & Hin & Hid & He).
  - vm_compute. auto.
  - vm_compute. intros [].
  - vm_compute in Hin.
    destruct Hin as [<-|[<-|[<-|[<-|[]]]]]; vm_compute in Hid, He; discriminate.
Qed.

(** ** The constraints hold in every reachable state *)

Section DistinctKeys.

Variable A : Type.
Variable eqb : A -> A -> bool.
Hypothesis eqb_eq : forall a b, eqb a b = true <-> a = b.

Lemma distinctb_snoc (l : list A) (x : A) :
  distinctb eqb l = true -> existsb (eqb x) l = false ->
  distinctb eqb (l ++ [x]) = true.
Proof.
  intros Hl Hx. apply (distinctb_NoDup eqb eqb_eq).
  apply (distinctb_NoDup eqb eqb_eq) in Hl.
  apply NoDup_app; [exact Hl | repeat constructor; intros [] |].
  intros a Ha [<-|[]].
  apply (existsb_eqb_In eqb eqb_eq) in Ha. congruence.
Qed.

Lemma NoDup_app_disjoint (l1 l2 : list A) (a : A) :
  NoDup (l1 ++ l2) -> In a l1 -> ~ In a l2.
Proof.
  induction l1 as [|x t IH]; simpl; intros H Hin; [contradiction|].
  inversion H as [|? ? Hnot Ht]; subst. destruct Hin as [->|Hin].
  - intros Ha. apply Hnot. apply in_app_iff. auto.
  - apply IH; assumption.
Qed.

Variable B : Type.

Lemma NoDup_flat_map_filter (k : B -> list A) (g : B -> bool) (l : list B) :
  NoDup (flat_map k l) -> NoDup (flat_map k (filter g l)).
Proof.
  induction l as [|x t IH]; simpl; intros H; [constructor|].
  pose proof (NoDup_app_remove_l _ _ H) as Ht.
  destruct (g x); simpl; [|auto].
  apply NoDup_app; [eapply NoDup_app_remove_r; exact H | auto |].
  intros a Ha Hin. apply (@NoDup_app_disjoint _ _ a H Ha).
  apply in_flat_map in Hin. destruct Hin as (y & Hy & Hk).
  apply filter_In in Hy. apply in_flat_map. exists y. tauto.
Qed.

Lemma distinctb_flat_map_filter (k : B -> list A) (g : B -> bool) (l : list B) :
  distinctb eqb (flat_map k l) = true ->
  distinctb eqb (flat_map k (filter g l)) = true.
Proof.
  intros H. apply (distinctb_NoDup eqb eqb_eq).
  apply NoDup_flat_map_filter. apply (distinctb_NoDup eqb eqb_eq). exact H.
Qed.

Lemma distinctb_map_filter (f : B -> A) (g : B -> bool) (l : list B) :
  distinctb eqb (map f l) = true -> distinctb eqb (map f (filter g l)) = true.
Proof.
  intros H. apply (distinctb_NoDup eqb eqb_eq).
  apply (distinctb_NoDup eqb eqb_eq) in H.
  induction l as [|x t IH]; simpl in *; [constructor|].
  inversion H as [|? ? Hnot Ht]; subst. destruct (g x); simpl; [|auto].
  constructor; [|auto]. intros Hin. apply Hnot.
  apply in_map_iff in Hin. destruct Hin as (y & Hy & Hin).
  apply filter_In in Hin. apply in_map_iff. exists y. tauto.
Qed.

End DistinctKeys.

Lemma user_role_eqb_eq (a b : uuid * app_role) : user_role_eqb a b = true <-> a = b.
Proof.
  destruct a as [a1 a2], b as [b1 b2]. unfold user_role_eqb. simpl.
  rewrite andb_true_iff, uuid_eqb_eq. split.
  - intros [-> H]. destruct a2, b2; simpl in H; congruence.
  - intros H. inversion H. subst. split; [reflexivity | destruct b2; reflexivity].
Qed.

Lemma forallb_impl (A : Type) (f g : A -> bool) (l : list A) :
  (forall x, In x l -> f x = true -> g x = true) ->
  forallb f l = true -> forallb g l = true.
Proof.
  intros H Hf. apply forallb_forall. intros x Hx.
  apply H; [exact Hx|]. rewrite forallb_forall in Hf. auto.
Qed.

Lemma forallb_filter_sub (A : Type) (f g : A -> bool) (l : list A) :
  forallb f l = true -> forallb f (filter g l) = true.
Proof.
  intros H. apply forallb_forall. intros x Hx. apply filter_In in Hx.
  rewrite forallb_forall in H. apply H. tauto.
Qed.

Lemma forallb_snoc (A : Type) (f : A -> bool) (l : list A) (x : A) :
  forallb f l = true -> f x = true -> forallb f (l ++ [x]) = true.
Proof.
  intros Hl Hx. rewrite forallb_app, Hl. simpl. rewrite Hx. reflexivity.
Qed.

Lemma mem_snoc (x y : uuid) (l : list uuid) : mem x l = true -> mem x (l ++ [y]) = true.
Proof. rewrite !mem_In, in_app_iff. auto. Qed.

Lemma mem_opt_snoc (x : option uuid) (y : uuid) (l : list uuid) :
  mem_opt x l = true -> mem_opt x (l ++ [y]) = true.
Proof. destruct x; simpl; [apply mem_snoc | auto]. Qed.

Lemma mem_map_snoc (A : Type) (f : A -> uuid) (x : uuid) (l : list A) (y : A) :
  mem x (map f l) = true -> mem x (map f (l ++ [y])) = true.
Proof. rewrite map_app. apply mem_snoc. Qed.

(** Opens the constraints of a database into their parts. *)
Ltac open_constraints H :=
  unfold constraints_ok, unique_ok, foreign_keys_ok in H;
  cbn [users profiles user_roles elections candidates votes audit_logs
       with_profiles with_user_roles with_elections with_candidates with_votes
       with_audit_logs] in H;
  repeat rewrite andb_true_iff in H;
  repeat match goal with
         | K : _ /\ _ |- _ => destruct K
         end.

Ltac close_constraints :=
  unfold constraints_ok, unique_ok, foreign_keys_ok;
  cbn [users profiles user_roles elections candidates votes audit_logs
       with_profiles with_user_roles with_elections with_candidates with_votes
       with_audit_logs];
  repeat (apply andb_true_intro; split); try assumption.

Lemma constraints_insert_vote (d d' : db) (auth_uid : option uuid) (r : Vote.t) :
  exec_insert_vote d auth_uid r = Ok d' ->
  constraints_ok d = true -> constraints_ok d' = true.
Proof.
  intros H Hd. apply exec_insert_vote_Ok in H.
  destruct H as (_ & Hid & Hkey & He & Hc & Hu & ->).
  open_constraints Hd. close_constraints.
  - rewrite map_app. apply (@distinctb_snoc _ uuid_eqb uuid_eqb_eq); assumption.
  - rewrite election_voter_keys_app. unfold conflicts_election_voter in Hkey.
    unfold election_voter_keys at 2. simpl.
    destruct (Vote.voter_id r) as [p|]; simpl.
    + apply (@distinctb_snoc _ pair_eqb pair_eqb_eq); assumption.
    + rewrite app_nil_r. assumption.
  - apply forallb_snoc; [assumption|]. rewrite He, Hc, Hu. reflexivity.
Qed.

Lemma constraints_insert_election (d d' : db) (auth_uid : option uuid) (r : Election.t) :
  exec_insert_election d auth_uid r = Ok d' ->
  constraints_ok d = true -> constraints_ok d' = true.
Proof.
  unfold exec_insert_election. intros H Hd. passed. inversion H; subst.
  apply negb_true_iff in Check0.
  open_constraints Hd. close_constraints.
  - rewrite map_app. apply (@distinctb_snoc _ uuid_eqb uuid_eqb_eq); assumption.
  - apply forallb_snoc; assumption.
  - eapply forallb_impl; [|eassumption]. intros c _. apply mem_map_snoc.
  - eapply forallb_impl; [|eassumption]. intros v _ Hv.
    apply andb_true_iff in Hv. destruct Hv as [Hv Hu].
    apply andb_true_iff in Hv. destruct Hv as [He Hc].
    rewrite (mem_map_snoc _ _ _ r He), Hc, Hu. reflexivity.
Qed.

Lemma insert_candidate_rows_NoDup (d : db) (auth_uid : option uuid)
    (rs acc l : list Candidate.t) :
  insert_candidate_rows d auth_uid rs acc = Ok l ->
  NoDup (map Candidate.id acc) -> NoDup (map Candidate.id l).
Proof.
  revert acc. induction rs as [|r t IH]; simpl; intros acc H Hacc.
  - inversion H. subst. exact Hacc.
  - passed. apply (IH _ H). rewrite map_app. simpl.
    apply negb_true_iff in Check0. apply mem_false_not_In in Check0.
    apply NoDup_rev in Hacc. rewrite <- (rev_involutive (_ ++ _)).
    apply NoDup_rev. rewrite rev_app_distr. simpl. constructor; [|exact Hacc].
    rewrite <- in_rev. exact Check0.
Qed.

Lemma insert_candidate_rows_Ok (d : db) (auth_uid : option uuid)
    (rs acc l : list Candidate.t) :
  insert_candidate_rows d auth_uid rs acc = Ok l -> l = acc ++ rs.
Proof.
  revert acc. induction rs as [|r t IH]; simpl; intros acc H.
  - inversion H. now rewrite app_nil_r.
  - passed. rewrite (IH _ H), <- app_assoc. reflexivity.
Qed.

Lemma constraints_insert_candidates (d d' : db) (auth_uid : option uuid)
    (rs : list Candidate.t) :
  exec_insert_candidates d auth_uid rs = Ok d' ->
  constraints_ok d = true -> constraints_ok d' = true.
Proof.
  unfold exec_insert_candidates. intros H Hd.
  destruct (insert_candidate_rows d auth_uid rs (candidates d)) as [l|e] eqn:E;
    [|discriminate].
  passed. inversion H; subst.
  pose proof (insert_candidate_rows_Ok _ _ _ _ E) as Hl.
  open_constraints Hd. close_constraints.
  - apply (distinctb_NoDup uuid_eqb uuid_eqb_eq).
    eapply insert_candidate_rows_NoDup; [exact E|].
    apply (distinctb_NoDup uuid_eqb uuid_eqb_eq). assumption.
  - rewrite Hl, forallb_app. apply andb_true_intro. split; assumption.
  - eapply forallb_impl; [|eassumption]. intros v _ Hv.
    apply andb_true_iff in Hv. destruct Hv as [Hv Hu].
    apply andb_true_iff in Hv. destruct Hv as [He Hc].
    rewrite He, Hu, Hl, map_app. apply mem_In in Hc.
    rewrite (proj2 (mem_In _ _)); [reflexivity|]. apply in_app_iff. auto.
Qed.

Lemma constraints_insert_user_role_row (d d' : db) (r : UserRole.t) :
  insert_user_role_row d r = Ok d' ->
  constraints_ok d = true -> constraints_ok d' = true.
Proof.
  unfold insert_user_role_row. intros H Hd. passed. inversion H; subst.
  apply negb_true_iff in Check, Check0.
  open_constraints Hd. close_constraints.
  - rewrite map_app. apply (@distinctb_snoc _ uuid_eqb uuid_eqb_eq); assumption.
  - unfold user_role_keys. rewrite map_app.
    apply (@distinctb_snoc _ user_role_eqb user_role_eqb_eq); assumption.
  - apply forallb_snoc; assumption.
Qed.

Lemma constraints_insert_audit_log (d d' : db) (auth_uid : option uuid) (r : AuditLog.t) :
  exec_insert_audit_log d auth_uid r = Ok d' ->
  constraints_ok d = true -> constraints_ok d' = true.
Proof.
  unfold exec_insert_audit_log. intros H Hd. passed. inversion H; subst.
  apply negb_true_iff in Check0.
  open_constraints Hd. close_constraints.
  - rewrite map_app. apply (@distinctb_snoc _ uuid_eqb uuid_eqb_eq); assumption.
  - apply forallb_snoc; assumption.
Qed.

Lemma constraints_update (d d' : db) (auth_uid : option uuid) (rq : request) :
  match rq with
  | update_profiles _ _ | update_user_roles _ _ | update_elections _ _
  | update_candidates _ _ | update_votes _ _ => True
  | _ => False
  end ->
  exec auth_uid rq d = Ok d' ->
  constraints_ok d = true -> constraints_ok d' = true.
Proof.
  destruct rq; intros Hrq; try contradiction; simpl; intros H Hd.
  - unfold exec_update_profiles in H. passed. inversion H; subst.
    open_constraints Hd. close_constraints.
  - unfold exec_update_user_roles in H. passed. inversion H; subst.
    open_constraints Hd. close_constraints.
  - unfold exec_update_elections in H. passed. inversion H; subst.
    open_constraints Hd. close_constraints.
    eapply forallb_impl; [|eassumption]. intros v Hin Hv.
    apply andb_true_iff in Hv. destruct Hv as [Hv Hu].
    apply andb_true_iff in Hv. destruct Hv as [He Hc].
    rewrite forallb_forall in Check3. pose proof (Check3 v Hin) as K.
    apply andb_true_intro; split; [apply andb_true_intro; split|]; assumption.
  - unfold exec_update_candidates in H. passed. inversion H; subst.
    open_constraints Hd. close_constraints.
    eapply forallb_impl; [|eassumption]. intros v Hin Hv.
    apply andb_true_iff in Hv. destruct Hv as [Hv Hu].
    apply andb_true_iff in Hv. destruct Hv as [He Hc].
    rewrite forallb_forall in Check2. pose proof (Check2 v Hin) as K.
    apply andb_true_intro; split; [apply andb_true_intro; split|]; assumption.
  - apply (update_votes_no_change d auth_uid where_ set) in H. subst. exact Hd.
Qed.

(** A key that is in the table and not among the deleted rows is among the
    rows that stay. *)
Lemma mem_kept (A : Type) (f : A -> uuid) (t : A -> bool) (x : uuid) (l : list A) :
  mem x (map f l) = true ->
  mem x (map f (filter t l)) = false ->
  mem x (map f (filter (fun r => negb (t r)) l)) = true.
Proof.
  rewrite mem_false_not_In, !mem_In. intros Hin Hnot.
  apply in_map_iff in Hin. destruct Hin as (r & Hr & Hin).
  apply in_map_iff. exists r. split; [exact Hr|]. apply filter_In. split; [exact Hin|].
  destruct (t r) eqn:E; [|reflexivity].
  exfalso. apply Hnot. apply in_map_iff. exists r. split; [exact Hr|].
  apply filter_In. auto.
Qed.

Lemma constraints_delete_user_roles (d : db) (auth_uid : option uuid)
    (where_ : UserRole.t -> bool) :
  constraints_ok d = true ->
  constraints_ok (with_user_roles d
                    (delete_rows (user_roles_policies DELETE) d auth_uid where_
                                 (user_roles d))) = true.
Proof.
  intros Hd. open_constraints Hd. close_constraints; unfold delete_rows.
  - apply (@distinctb_map_filter _ uuid_eqb uuid_eqb_eq). assumption.
  - unfold user_role_keys.
    apply (@distinctb_map_filter _ user_role_eqb user_role_eqb_eq). assumption.
  - apply forallb_filter_sub. assumption.
Qed.

Lemma constraints_delete_candidates (d : db) (auth_uid : option uuid)
    (where_ : Candidate.t -> bool) :
  constraints_ok d = true ->
  constraints_ok (exec_delete_candidates d auth_uid where_) = true.
Proof.
  intros Hd. open_constraints Hd. unfold exec_delete_candidates.
  close_constraints;
    unfold delete_rows, deleted_rows, cascade_candidates_to_votes.
  - apply (@distinctb_map_filter _ uuid_eqb uuid_eqb_eq). assumption.
  - apply (@distinctb_map_filter _ uuid_eqb uuid_eqb_eq). assumption.
  - unfold election_voter_keys.
    apply (@distinctb_flat_map_filter _ pair_eqb pair_eqb_eq). assumption.
  - apply forallb_filter_sub. assumption.
  - apply forallb_forall. intros v Hv. apply filter_In in Hv.
    destruct Hv as [Hv Hkept]. apply negb_true_iff in Hkept.
    match goal with
    | K : forallb _ (votes d) = true |- _ =>
        rewrite forallb_forall in K; specialize (K v Hv);
        apply andb_true_iff in K; destruct K as [K Hu];
        apply andb_true_iff in K; destruct K as [He Hc]
    end.
    rewrite He, Hu, (mem_kept _ _ _ _ Hc Hkept). reflexivity.
Qed.

Lemma constraints_delete_elections (d : db) (auth_uid : option uuid)
    (where_ : Election.t -> bool) :
  constraints_ok d = true ->
  constraints_ok (exec_delete_elections d auth_uid where_) = true.
Proof.
  intros Hd. open_constraints Hd. unfold exec_delete_elections.
  close_constraints;
    unfold delete_rows, deleted_rows, cascade_candidates_to_votes,
      cascade_elections_to_votes, cascade_elections_to_candidates.
  - apply (@distinctb_map_filter _ uuid_eqb uuid_eqb_eq). assumption.
  - apply (@distinctb_map_filter _ uuid_eqb uuid_eqb_eq). assumption.
  - do 2 apply (@distinctb_map_filter _ uuid_eqb uuid_eqb_eq). assumption.
  - unfold election_voter_keys.
    do 2 apply (@distinctb_flat_map_filter _ pair_eqb pair_eqb_eq). assumption.
  - apply forallb_filter_sub. assumption.
  - apply forallb_forall. intros c Hc. apply filter_In in Hc.
    destruct Hc as [Hc Hkept]. apply negb_true_iff in Hkept.
    match goal with
    | K : forallb _ (candidates d) = true |- _ =>
        rewrite forallb_forall in K; specialize (K c Hc)
    end.
    apply mem_kept; assumption.
  - apply forallb_forall. intros v Hv. apply filter_In in Hv.
    destruct Hv as [Hv Hkept_c]. apply filter_In in Hv.
    destruct Hv as [Hv Hkept_e]. apply negb_true_iff in Hkept_c, Hkept_e.
    match goal with
    | K : forallb _ (votes d) = true |- _ =>
        rewrite forallb_forall in K; specialize (K v Hv);
        apply andb_true_iff in K; destruct K as [K Hu];
        apply andb_true_iff in K; destruct K as [He Hc]
    end.
    rewrite (mem_kept _ _ _ _ He Hkept_e), Hu, (mem_kept _ _ _ _ Hc Hkept_c).
    reflexivity.
Qed.

Lemma student_id_keys_snoc (l : list Profile.t) (p : Profile.t) (s : string) :
  Profile.student_id p = Some s -> student_id_keys (l ++ [p]) = student_id_keys l ++ [s].
Proof.
  intros H. unfold student_id_keys. rewrite flat_map_app. simpl. rewrite H. reflexivity.
Qed.

Lemma constraints_signup (d d' : db) (new_id : uuid) (full_name student_id : option string)
    (role_id : uuid) (t : timestamptz) :
  run (auth_signup new_id full_name student_id role_id t) d = Ok d' ->
  constraints_ok d = true -> constraints_ok d' = true.
Proof.
  simpl. unfold handle_new_user. intros H Hd. passed.
  apply negb_true_iff in Check, Check0, Check1.
  apply constraints_insert_user_role_row in H; [exact H|].
  cbn [users profiles] in *.
  open_constraints Hd. close_constraints.
  - apply (@distinctb_snoc _ uuid_eqb uuid_eqb_eq); assumption.
  - rewrite map_app. apply (@distinctb_snoc _ uuid_eqb uuid_eqb_eq); assumption.
  - rewrite (student_id_keys_snoc _ _ (s := coalesce student_id "")) by reflexivity.
    apply (@distinctb_snoc _ String.eqb String.eqb_eq); assumption.
  - apply forallb_snoc.
    + eapply forallb_impl; [|eassumption]. intros p _. apply mem_snoc.
    + simpl. apply mem_In. apply in_app_iff. simpl. auto.
  - eapply forallb_impl; [|eassumption]. intros r _. apply mem_snoc.
  - eapply forallb_impl; [|eassumption]. intros e _. apply mem_opt_snoc.
  - eapply forallb_impl; [|eassumption]. intros v _ Hv.
    apply andb_true_iff in Hv. destruct Hv as [Hv Hu].
    rewrite Hv, (mem_opt_snoc _ new_id _ Hu). reflexivity.
  - eapply forallb_impl; [|eassumption]. intros a _. apply mem_opt_snoc.
Qed.

(** Every action keeps the constraints. *)
Lemma constraints_step (d : db) (a : action) :
  constraints_ok d = true -> constraints_ok (step d a) = true.
Proof.
  intros Hd. unfold step.
  destruct (run a d) as [d'|e] eqn:E; [|exact Hd].
  destruct a as [auth_uid rq|new_id full_name student_id role_id t|r].
  - destruct rq;
      try (eapply constraints_update; [|exact E|exact Hd]; exact I);
      simpl in E.
    + rewrite exec_insert_profile_denied in E. discriminate.
    + rewrite delete_profiles_keeps in E. inversion E; subst. exact Hd.
    + unfold exec_insert_user_role in E. passed.
      eapply constraints_insert_user_role_row; eauto.
    + inversion E; subst. apply constraints_delete_user_roles. exact Hd.
    + eapply constraints_insert_election; eauto.
    + inversion E; subst. apply constraints_delete_elections. exact Hd.
    + eapply constraints_insert_candidates; eauto.
    + inversion E; subst. apply constraints_delete_candidates. exact Hd.
    + eapply constraints_insert_vote; eauto.
    + rewrite delete_rows_nil, with_votes_same in E. inversion E; subst. exact Hd.
    + eapply constraints_insert_audit_log; eauto.
    + pose proof (update_audit_logs_keeps d auth_uid where_ set) as K.
      rewrite E in K. subst. exact Hd.
    + rewrite delete_audit_logs_keeps in E. inversion E; subst. exact Hd.
  - eapply constraints_signup; eauto.
  - eapply constraints_insert_user_role_row; eauto.
Qed.

(** In every reachable state the primary keys, the unique constraints and
    the foreign keys of the schema hold. *)
Lemma constraints_reachable (d : db) : reachable d -> constraints_ok d = true.
Proof.
  induction 1 as [|d a _ IH]; [reflexivity | apply constraints_step; exact IH].
Qed.

Lemma candidates_key_reachable (d : db) :
  reachable d -> NoDup (map Candidate.id (candidates d)).
Proof.
  intros H. apply constraints_reachable in H. open_constraints H.
  apply (distinctb_NoDup uuid_eqb uuid_eqb_eq). assumption.
Qed.

(** Who has a role is a user. *)
Lemma has_role_user (d : db) (u : uuid) (r : app_role) :
  reachable d -> has_role d (Some u) r = true -> In u (users d).
Proof.
  intros H Hrole. apply constraints_reachable in H. open_constraints H.
  simpl in Hrole. apply existsb_exists in Hrole. destruct Hrole as (x & Hx & Hu).
  apply andb_true_iff in Hu. destruct Hu as [Hu _]. apply uuid_eqb_eq in Hu. subst u.
  match goal with
  | K : forallb _ (user_roles d) = true |- _ =>
      rewrite forallb_forall in K; specialize (K x Hx)
  end.
  apply mem_In. assumption.
Qed.

(** No candidate refers to an election that is not in the table. *)
Lemma no_candidate_of_absent_election (d : db) (e : uuid) :
  reachable d -> ~ In e (map Election.id (elections d)) -> candidates_of d e = [].
Proof.
  intros H Hnot. apply constraints_reachable in H. open_constraints H.
  unfold candidates_of. apply filter_none. intros c Hc.
  destruct (uuid_eqb (Candidate.election_id c) e) eqn:E; [|reflexivity].
  exfalso. apply Hnot. apply uuid_eqb_eq in E. rewrite <- E. apply mem_In.
  match goal with
  | K : forallb _ (candidates d) = true |- _ =>
      rewrite forallb_forall in K; apply (K c Hc)
  end.
Qed.

(** ** Elections: who sees and who creates *)

Lemma has_role_some (d : db) (auth_uid : option uuid) (r : app_role) :
  has_role d auth_uid r = true -> is_some auth_uid = true.
Proof. destruct auth_uid; [reflexivity | discriminate]. Qed.

Lemma elections_select_pass (d : db) (auth_uid : option uuid) (e : Election.t) :
  rls_pass (elections_policies SELECT) d auth_uid e
  = is_some auth_uid
    && (has_role d auth_uid admin
        || is_true (sql_eq election_status_eqb (Election.status e) (Some active))).
Proof.
  unfold rls_pass. simpl. unfold everyone_can_view_active_elections.
  destruct (is_some auth_uid); simpl; [|reflexivity].
  destruct (has_role d auth_uid admin), (Election.status e) as [[]|]; reflexivity.
Qed.

Lemma status_active (e : Election.t) :
  is_true (sql_eq election_status_eqb (Election.status e) (Some active)) = true
  <-> Election.status e = Some active.
Proof.
  destruct (Election.status e) as [[]|]; simpl; split; congruence.
Qed.

(** C5. A caller without the admin role gets from a listing of the
    elections only elections whose status is active, whatever the filter
    of the request, since the rows are removed by the SELECT policy of the
    table before the filter applies: never a draft or closed election, nor
    one without a status.  Such a caller, when authenticated, gets every
    active election the filter keeps.  A caller with the admin role gets
    all the elections. *)
Theorem non_admin_lists_active_elections_only (d : db) (auth_uid : option uuid) :
  (has_role d auth_uid admin = false ->
   forall (where_ : Election.t -> bool) (e : Election.t),
     In e (select_elections d auth_uid where_) ->
     Election.status e = Some active
     /\ Election.status e <> Some draft
     /\ Election.status e <> Some closed)
  /\ (has_role d auth_uid admin = false ->
      is_some auth_uid = true ->
      forall (where_ : Election.t -> bool) (e : Election.t),
        In e (elections d) -> Election.status e = Some active -> where_ e = true ->
        In e (select_elections d auth_uid where_))
  /\ (has_role d auth_uid admin = true ->
      select_elections d auth_uid (fun _ => true) = elections d).
Proof.
  split; [|split].
  - intros Hrole where_ e Hin. unfold select_elections, select in Hin.
    apply filter_In in Hin. destruct Hin as [_ Hpass].
    rewrite elections_select_pass, Hrole in Hpass. simpl in Hpass.
    apply andb_true_iff in Hpass. destruct Hpass as [Hpass _].
    apply andb_true_iff in Hpass. destruct Hpass as [_ Hactive].
    apply status_active in Hactive. rewrite Hactive.
    repeat split; congruence.
  - intros Hrole Hauth where_ e Hin Hactive Hwhere.
    unfold select_elections, select. apply filter_In. split; [exact Hin|].
    rewrite elections_select_pass, Hrole, Hauth, Hwhere. simpl.
    rewrite andb_true_r. apply status_active. exact Hactive.
  - intros Hrole. unfold select_elections, select.
    apply forallb_filter_id. apply forallb_forall. intros e _.
    rewrite elections_select_pass, Hrole, (has_role_some _ _ _ Hrole). reflexivity.
Qed.

Lemma non_admin_lists_active_elections_only_witness :
  (forall e, In e (select_elections campus (Some "student-1") (fun _ => true)) ->
             Election.status e = Some active)
  /\ select_elections campus (Some "admin-1") (fun _ => true) = elections campus.
Proof.
  split.
  - intros e Hin.
    destruct (non_admin_lists_active_elections_only campus (Some "student-1"))
      as (H & _ & _).
    apply (H eq_refl (fun _ => true) e Hin).
  - destruct (non_admin_lists_active_elections_only campus (Some "admin-1"))
      as (_ & _ & H).
    apply H. vm_compute. reflexivity.
Defined.

Lemma exec_insert_election_denied (d : db) (auth_uid : option uuid) (r : Election.t) :
  has_role d auth_uid admin = false ->
  exec auth_uid (insert_election r) d = Err PermissionDenied.
Proof.
  intros Hrole. simpl. unfold exec_insert_election, rls_pass. simpl.
  unfold only_admins_elections. rewrite Hrole. simpl. rewrite andb_false_r. reflexivity.
Qed.

Lemma exec_insert_election_admin (d : db) (auth_uid : option uuid) (r : Election.t) :
  has_role d auth_uid admin = true ->
  ~ In (Election.id r) (map Election.id (elections d)) ->
  mem_opt (Election.created_by r) (users d) = true ->
  exec auth_uid (insert_election r) d = Ok (with_elections d (elections d ++ [r])).
Proof.
  intros Hrole Hfresh Hby. simpl. unfold exec_insert_election, rls_pass. simpl.
  unfold only_admins_elections. rewrite Hrole, (has_role_some _ _ _ Hrole). simpl.
  apply mem_false_not_In in Hfresh. rewrite Hfresh, Hby. reflexivity.
Qed.

(** Whatever [handleCreateElection] does for a caller without the admin
    role, it changes nothing and does not report a success. *)
Lemma handleCreateElection_non_admin
    (timestamptz_in : string -> option timestamptz) (s : Admin.state) (w : world) (d : db) :
  has_role d (Admin.user s) admin = false ->
  snd (Admin.handleCreateElection timestamptz_in s w d) = d
  /\ (fst (Admin.handleCreateElection timestamptz_in s w d) = ValidationError
      \/ exists e, fst (Admin.handleCreateElection timestamptz_in s w d) = toast_error_of e)
  /\ ((2 <= List.length (Admin.validCandidates s))%nat ->
      online w 0 = true ->
      is_some (timestamptz_in (Admin.startDate s)) = true ->
      is_some (timestamptz_in (Admin.endDate s)) = true ->
      fst (Admin.handleCreateElection timestamptz_in s w d)
      = toast_error_of PermissionDenied).
Proof.
  intros Hrole. unfold Admin.handleCreateElection.
  destruct (List.length (Admin.validCandidates s) <? 2)%nat eqn:Hn.
  - simpl. split; [reflexivity|]. split; [left; reflexivity|].
    apply Nat.ltb_lt in Hn. lia.
  - unfold Admin.insert_election_select_single.
    destruct (online w 0); [|simpl; split; [|split]; eauto; discriminate].
    destruct (timestamptz_in (Admin.startDate s));
      [|simpl; split; [|split]; eauto; discriminate].
    destruct (timestamptz_in (Admin.endDate s));
      [|simpl; split; [|split]; eauto; discriminate].
    rewrite exec_insert_election_denied by exact Hrole.
    simpl. split; [|split]; eauto.
Qed.

Lemma exec_insert_candidates_Ok (d d' : db) (auth_uid : option uuid)
    (rs : list Candidate.t) :
  exec_insert_candidates d auth_uid rs = Ok d' ->
  d' = with_candidates d (candidates d ++ rs)
  /\ (NoDup (map Candidate.id (candidates d)) ->
      NoDup (map Candidate.id (candidates d ++ rs))).
Proof.
  unfold exec_insert_candidates. intros H.
  destruct (insert_candidate_rows d auth_uid rs (candidates d)) as [l|e] eqn:I;
    [|discriminate].
  passed. inversion H. rewrite <- (insert_candidate_rows_Ok _ _ _ _ I).
  split; [reflexivity|]. apply (insert_candidate_rows_NoDup _ _ _ _ I).
Qed.

Lemma map_indexed_map (A B C : Type) (f : nat -> A -> B) (g : B -> C) (h : A -> C) :
  (forall i x, g (f i x) = h x) ->
  forall i l, map g (map_indexed f i l) = map h l.
Proof.
  intros H i l. revert i. induction l as [|x t IH]; intros i; simpl; [reflexivity|].
  rewrite H, IH. reflexivity.
Qed.

Lemma map_indexed_seq (A B C : Type) (f : nat -> A -> B) (g : B -> C) (h : nat -> C) :
  (forall i x, g (f i x) = h i) ->
  forall i l, map g (map_indexed f i l) = map h (seq i (List.length l)).
Proof.
  intros H i l. revert i. induction l as [|x t IH]; intros i; simpl; [reflexivity|].
  rewrite H, IH. reflexivity.
Qed.

(** The rows that [handleCreateElection] sends for the candidates: their
    ids are the draws 1, 2, ... and their election is the new one. *)
Lemma candidatesData_ids (w : world) (electionData : Election.t)
    (valid : list CandidateForm.t) :
  map Candidate.id (Admin.candidatesData w electionData valid)
  = map (gen_random_uuid w) (seq 1 (List.length valid)).
Proof. unfold Admin.candidatesData. apply map_indexed_seq. reflexivity. Qed.

Lemma candidatesData_election (w : world) (electionData : Election.t)
    (valid : list CandidateForm.t) (c : Candidate.t) :
  In c (Admin.candidatesData w electionData valid) ->
  Candidate.election_id c = Election.id electionData.
Proof.
  intros Hc.
  assert (M : map Candidate.election_id (Admin.candidatesData w electionData valid)
              = map (fun _ => Election.id electionData) valid).
  { unfold Admin.candidatesData. apply map_indexed_map. reflexivity. }
  apply (in_map Candidate.election_id) in Hc. rewrite M in Hc.
  apply in_map_iff in Hc. destruct Hc as (x & Hx & _). congruence.
Qed.

(** An insert of candidates by a caller with the admin role goes through
    when no id is taken or sent twice and the elections exist. *)
Lemma insert_candidate_rows_admin (d : db) (auth_uid : option uuid)
    (rs acc : list Candidate.t) :
  has_role d auth_uid admin = true ->
  NoDup (map Candidate.id (acc ++ rs)) ->
  insert_candidate_rows d auth_uid rs acc = Ok (acc ++ rs).
Proof.
  intros Hrole. revert acc. induction rs as [|r rest IH]; intros acc Hn.
  - simpl. rewrite app_nil_r. reflexivity.
  - cbn [insert_candidate_rows].
    assert (P : rls_pass (candidates_policies INSERT) d auth_uid r = true).
    { unfold rls_pass. simpl. unfold only_admins_can_manage_candidates.
      rewrite Hrole, (has_role_some _ _ _ Hrole). reflexivity. }
    assert (F : mem (Candidate.id r) (map Candidate.id acc) = false).
    { apply mem_false_not_In. intros Hin. rewrite map_app in Hn.
      apply (@NoDup_app_disjoint _ _ _ (Candidate.id r) Hn Hin). left. reflexivity. }
    rewrite P, F. cbn [negb]. rewrite (IH (acc ++ [r])).
    + rewrite <- app_assoc. reflexivity.
    + rewrite <- app_assoc. exact Hn.
Qed.

Lemma exec_insert_candidates_admin (d : db) (auth_uid : option uuid)
    (rs : list Candidate.t) :
  has_role d auth_uid admin = true ->
  NoDup (map Candidate.id (candidates d ++ rs)) ->
  (forall r, In r rs -> In (Candidate.election_id r) (map Election.id (elections d))) ->
  exec_insert_candidates d auth_uid rs = Ok (with_candidates d (candidates d ++ rs)).
Proof.
  intros Hrole Hn Hfk. unfold exec_insert_candidates.
  rewrite (@insert_candidate_rows_admin d auth_uid rs (candidates d) Hrole Hn).
  assert (F : forallb (fun r => mem (Candidate.election_id r) (map Election.id (elections d)))
                      rs = true).
  { apply forallb_forall. intros r Hr. apply mem_In. apply Hfk. exact Hr. }
  rewrite F. reflexivity.
Qed.

(** The audit request at the end of a handler changes the audit log at
    most. *)
Lemma audit_request_keeps (w : world) (i : nat) (auth_uid : option uuid) (r : AuditLog.t)
    (d : db) :
  exists L,
    match supabase w i auth_uid (insert_audit_log r) d with
    | Ok d' => d'
    | Err _ => d
    end = with_audit_logs d L.
Proof.
  unfold supabase. destruct (online w i);
    [|exists (audit_logs d); symmetry; apply with_audit_logs_same].
  simpl. unfold exec_insert_audit_log.
  each_check; try (exists (audit_logs d); symmetry; apply with_audit_logs_same).
  eexists. reflexivity.
Qed.

(** C7. An insert into [elections] by a caller without the admin role fails
    with [PermissionDenied], and [handleCreateElection] for such a caller
    leaves the database as it was and shows a failure, which is
    [PermissionDenied] once the form has two named candidates, dates that
    read as dates and the request is delivered.  For a caller with the
    admin role, in a reachable state, the insert of a row whose id is not
    taken and whose creator is a user (or NULL) succeeds and adds the row;
    sent by
    [handleCreateElection] with dates that read as dates, it gives back
    the created election, whose id is the one [gen_random_uuid()] drew and
    whose columns are those of the form.  And [handleCreateElection]
    itself, for such a caller with a form of two named candidates or more:
    when the first request is delivered, the dates read as dates and the
    id drawn is not taken, the election is in the table afterwards, as the
    last row, with the id drawn and the columns of the form, whatever
    becomes of the later requests; when the second request is delivered
    too and the ids drawn for the candidates are free, the handler shows
    "Election created successfully!" and the candidates are stored. *)
Theorem only_admins_create_elections (d : db) (auth_uid : option uuid)
    (Hd : reachable d) :
  (has_role d auth_uid admin = false ->
   (forall r, exec auth_uid (insert_election r) d = Err PermissionDenied)
   /\ (forall timestamptz_in (s : Admin.state) (w : world),
         Admin.user s = auth_uid ->
         snd (Admin.handleCreateElection timestamptz_in s w d) = d
         /\ (forall message, fst (Admin.handleCreateElection timestamptz_in s w d)
                             <> toast_success message)
         /\ ((2 <= List.length (Admin.validCandidates s))%nat ->
             online w 0 = true ->
             is_some (timestamptz_in (Admin.startDate s)) = true ->
             is_some (timestamptz_in (Admin.endDate s)) = true ->
             fst (Admin.handleCreateElection timestamptz_in s w d)
             = toast_error_of PermissionDenied)))
  /\ (has_role d auth_uid admin = true ->
      (forall r,
          ~ In (Election.id r) (map Election.id (elections d)) ->
          mem_opt (Election.created_by r) (users d) = true ->
          exec auth_uid (insert_election r) d = Ok (with_elections d (elections d ++ [r])))
      /\ (forall timestamptz_in (s : Admin.state) (w : world) start_date end_date,
            Admin.user s = auth_uid ->
            online w 0 = true ->
            timestamptz_in (Admin.startDate s) = Some start_date ->
            timestamptz_in (Admin.endDate s) = Some end_date ->
            ~ In (gen_random_uuid w 0) (map Election.id (elections d)) ->
            exists electionData,
              Admin.insert_election_select_single timestamptz_in s w d
              = Ok (electionData, with_elections d (elections d ++ [electionData]))
              /\ Election.id electionData = gen_random_uuid w 0
              /\ Election.title electionData = Admin.title s
              /\ Election.description electionData = Some (Admin.description s)
              /\ Election.status electionData = Some (Admin.status s)
              /\ Election.is_anonymous electionData = Some (Admin.isAnonymous s)
              /\ Election.start_date electionData = Some start_date
              /\ Election.end_date electionData = Some end_date
              /\ Election.created_by electionData = auth_uid)
      /\ (forall timestamptz_in (s : Admin.state) (w : world) start_date end_date,
            Admin.user s = auth_uid ->
            (2 <= List.length (Admin.validCandidates s))%nat ->
            online w 0 = true ->
            timestamptz_in (Admin.startDate s) = Some start_date ->
            timestamptz_in (Admin.endDate s) = Some end_date ->
            ~ In (gen_random_uuid w 0) (map Election.id (elections d)) ->
            exists electionData,
              Election.id electionData = gen_random_uuid w 0
              /\ Election.title electionData = Admin.title s
              /\ Election.description electionData = Some (Admin.description s)
              /\ Election.status electionData = Some (Admin.status s)
              /\ Election.is_anonymous electionData = Some (Admin.isAnonymous s)
              /\ Election.start_date electionData = Some start_date
              /\ Election.end_date electionData = Some end_date
              /\ Election.created_by electionData = auth_uid
              /\ elections (snd (Admin.handleCreateElection timestamptz_in s w d))
                 = elections d ++ [electionData]
              /\ (online w 1 = true ->
                  NoDup (map Candidate.id (candidates d)
                           ++ map (gen_random_uuid w)
                                  (seq 1 (List.length (Admin.validCandidates s)))) ->
                  fst (Admin.handleCreateElection timestamptz_in s w d)
                  = toast_success "Election created successfully!"
                  /\ candidates (snd (Admin.handleCreateElection timestamptz_in s w d))
                     = candidates d
                         ++ Admin.candidatesData w electionData
                              (Admin.validCandidates s)))).
Proof.
  split.
  - intros Hrole. split; [intros r; apply exec_insert_election_denied; exact Hrole|].
    intros timestamptz_in s w Hs. rewrite <- Hs in Hrole.
    destruct (handleCreateElection_non_admin timestamptz_in s w d Hrole)
      as (Hsame & Ht & Hdenied).
    split; [exact Hsame|]. split; [|exact Hdenied]. intros message.
    destruct Ht as [Ht|[e Ht]]; rewrite Ht; discriminate.
  - intros Hrole. split; [intros r; apply exec_insert_election_admin; exact Hrole|].
    assert (Huser : mem_opt auth_uid (users d) = true).
    { destruct auth_uid as [u|]; [|reflexivity]. simpl. apply mem_In.
      eapply has_role_user; eauto. }
    assert (Single : forall timestamptz_in (s : Admin.state) (w : world) start_date end_date,
               Admin.user s = auth_uid ->
               online w 0 = true ->
               timestamptz_in (Admin.startDate s) = Some start_date ->
               timestamptz_in (Admin.endDate s) = Some end_date ->
               ~ In (gen_random_uuid w 0) (map Election.id (elections d)) ->
               Admin.insert_election_select_single timestamptz_in s w d
               = Ok (Election.mk (gen_random_uuid w 0) (Admin.title s)
                                 (Some (Admin.description s)) (Some (Admin.status s))
                                 (Some (Admin.isAnonymous s)) (Some start_date)
                                 (Some end_date) auth_uid (Some (now w)) (Some (now w)),
                     with_elections d
                       (elections d
                          ++ [Election.mk (gen_random_uuid w 0) (Admin.title s)
                                          (Some (Admin.description s))
                                          (Some (Admin.status s))
                                          (Some (Admin.isAnonymous s)) (Some start_date)
                                          (Some end_date) auth_uid (Some (now w))
                                          (Some (now w))]))).
    { intros timestamptz_in s w start_date end_date Hs Hon Hstart Hend Hfresh.
      unfold Admin.insert_election_select_single. rewrite Hon, Hstart, Hend, Hs.
      rewrite exec_insert_election_admin; [|exact Hrole|exact Hfresh|exact Huser].
      reflexivity. }
    split.
    + intros timestamptz_in s w start_date end_date Hs Hon Hstart Hend Hfresh.
      rewrite (Single _ _ _ _ _ Hs Hon Hstart Hend Hfresh).
      eexists. split; [reflexivity|]. simpl. repeat split; reflexivity.
    + intros timestamptz_in s w start_date end_date Hs Hvalid Hon Hstart Hend Hfresh.
      pose proof (Single _ _ _ _ _ Hs Hon Hstart Hend Hfresh) as E.
      set (electionData := Election.mk (gen_random_uuid w 0) (Admin.title s)
                             (Some (Admin.description s)) (Some (Admin.status s))
                             (Some (Admin.isAnonymous s)) (Some start_date)
                             (Some end_date) auth_uid (Some (now w)) (Some (now w))) in *.
      set (d1 := with_elections d (elections d ++ [electionData])) in *.
      set (rows := Admin.candidatesData w electionData (Admin.validCandidates s)).
      exists electionData.
      do 8 (split; [reflexivity|]).
      unfold Admin.handleCreateElection.
      apply Nat.ltb_ge in Hvalid. rewrite Hvalid, E. fold rows. split.
      * destruct (supabase w 1 (Admin.user s) (insert_candidates rows) d1)
          as [d2|err] eqn:E1; [|reflexivity].
        cbn [snd].
        destruct (audit_request_keeps w 2 (Admin.user s)
                    (Admin.election_created_log s w electionData
                       (List.length (Admin.validCandidates s))) d2) as [L ->].
        unfold supabase in E1. destruct (online w 1); [|discriminate].
        simpl in E1. apply exec_insert_candidates_Ok in E1. destruct E1 as [-> _].
        reflexivity.
      * intros Hon1 Hfree.
        assert (E1 : supabase w 1 (Admin.user s) (insert_candidates rows) d1
                     = Ok (with_candidates d1 (candidates d1 ++ rows))).
        { unfold supabase. rewrite Hon1, Hs. simpl exec.
          apply exec_insert_candidates_admin.
          - exact Hrole.
          - rewrite map_app. unfold rows. rewrite candidatesData_ids. exact Hfree.
          - intros r Hr. apply candidatesData_election in Hr. rewrite Hr.
            unfold d1. cbn [elections with_elections]. rewrite map_app.
            apply in_or_app. right. left. reflexivity. }
        rewrite E1. cbn [fst snd]. split; [reflexivity|].
        destruct (audit_request_keeps w 2 (Admin.user s)
                    (Admin.election_created_log s w electionData
                       (List.length (Admin.validCandidates s)))
                    (with_candidates d1 (candidates d1 ++ rows))) as [L ->].
        reflexivity.
Qed.

Lemma only_admins_create_elections_witness :
  exec (Some "student-1") (insert_election (sample_election "election-3" "Secretary" draft))
       campus
  = Err PermissionDenied
  /\ (exists electionData,
        Admin.insert_election_select_single sample_timestamptz_in sample_form
                                            (sample_world "new") campus
        = Ok (electionData, with_elections campus (elections campus ++ [electionData]))
        /\ Election.id electionData = "new-0")
  /\ (exists electionData,
        Election.id electionData = "new-0"
        /\ elections (snd (Admin.handleCreateElection sample_timestamptz_in sample_form
                             (sample_world "new") campus))
           = elections campus ++ [electionData]
        /\ fst (Admin.handleCreateElection sample_timestamptz_in sample_form
                  (sample_world "new") campus)
           = toast_success "Election created successfully!").
Proof.
  split; [|split].
  - destruct (only_admins_create_elections (Some "student-1") reachable_campus)
      as [H _].
    apply H. vm_compute. reflexivity.
  - destruct (only_admins_create_elections (Some "admin-1") reachable_campus)
      as [_ H].
    destruct H as (_ & H & _); [vm_compute; reflexivity|].
    destruct (H sample_timestamptz_in sample_form (sample_world "new") 1700%Z 1700%Z)
      as (electionData & Hok & Hid & _);
      [reflexivity | reflexivity | reflexivity | reflexivity
      | vm_compute; intuition discriminate |].
    exists electionData. split; [exact Hok|]. rewrite Hid. vm_compute. reflexivity.
  - destruct (only_admins_create_elections (Some "admin-1") reachable_campus)
      as [_ H].
    destruct H as (_ & _ & H); [vm_compute; reflexivity|].
    destruct (H sample_timestamptz_in sample_form (sample_world "new") 1700%Z 1700%Z)
      as (electionData & Hid & _ & _ & _ & _ & _ & _ & _ & Hel & Hsucc);
      [reflexivity | vm_compute; lia | reflexivity | reflexivity | reflexivity
      | vm_compute; intuition discriminate |].
    exists electionData. split; [rewrite Hid; vm_compute; reflexivity|].
    split; [exact Hel|].
    apply Hsucc; [reflexivity|].
    apply (distinctb_NoDup uuid_eqb uuid_eqb_eq). vm_compute. reflexivity.
Defined.

(** ** Creating an election with its candidates *)

Lemma filter_length_le (A : Type) (f : A -> bool) (l : list A) :
  (List.length (filter f l) <= List.length l)%nat.
Proof.
  induction l as [|x t IH]; simpl; [lia|]. destruct (f x); simpl; lia.
Qed.

(** C6. A request to create an election with fewer than two candidates, and
    even one with fewer than two candidates that have a name, stops at the
    validation before any request is sent: the toast is the validation
    message and the database, with its elections and its candidates, is as
    it was. *)
Theorem fewer_than_two_candidates_refused
    (timestamptz_in : string -> option timestamptz) (s : Admin.state) (w : world) (d : db)
    (Hfew : (List.length (Admin.candidates s) < 2)%nat
            \/ (List.length (Admin.validCandidates s) < 2)%nat) :
  Admin.handleCreateElection timestamptz_in s w d = (ValidationError, d)
  /\ elections (snd (Admin.handleCreateElection timestamptz_in s w d)) = elections d
  /\ candidates (snd (Admin.handleCreateElection timestamptz_in s w d)) = candidates d.
Proof.
  assert (H : (List.length (Admin.validCandidates s) < 2)%nat).
  { destruct Hfew as [Hfew|Hfew]; [|exact Hfew].
    pose proof (filter_length_le
                  (fun c => negb (String.eqb (trim (CandidateForm.name c)) ""))
                  (Admin.candidates s)) as Hle.
    unfold Admin.validCandidates. lia. }
  assert (E : Admin.handleCreateElection timestamptz_in s w d = (ValidationError, d)).
  { unfold Admin.handleCreateElection. apply Nat.ltb_lt in H. rewrite H. reflexivity. }
  rewrite E. auto.
Qed.

Lemma fewer_than_two_candidates_refused_witness :
  Admin.handleCreateElection sample_timestamptz_in
    (Admin.mkState (Some "admin-1") "Secretary" "" false "2025-12-01T09:00"
                   "2025-12-02T17:00" active [CandidateForm.mk "X" ""])
    (sample_world "new") campus
  = (ValidationError, campus).
Proof.
  apply (fewer_than_two_candidates_refused sample_timestamptz_in
           (Admin.mkState (Some "admin-1") "Secretary" "" false "2025-12-01T09:00"
                          "2025-12-02T17:00" active [CandidateForm.mk "X" ""])
           (sample_world "new") campus).
  left. simpl. lia.
Defined.

Lemma insert_election_select_single_Ok
    (timestamptz_in : string -> option timestamptz) (s : Admin.state) (w : world)
    (d d1 : db) (electionData : Election.t) :
  Admin.insert_election_select_single timestamptz_in s w d = Ok (electionData, d1) ->
  d1 = with_elections d (elections d ++ [electionData])
  /\ Election.id electionData = gen_random_uuid w 0
  /\ ~ In (Election.id electionData) (map Election.id (elections d)).
Proof.
  unfold Admin.insert_election_select_single. intros H.
  destruct (online w 0); [|discriminate].
  destruct (timestamptz_in (Admin.startDate s)); [|discriminate].
  destruct (timestamptz_in (Admin.endDate s)); [|discriminate].
  simpl in H. unfold exec_insert_election in H.
  match type of H with
  | match (if ?c then _ else _) with _ => _ end = _ => destruct c; [|discriminate]
  end.
  match type of H with
  | match (if ?c then _ else _) with _ => _ end = _ =>
      destruct c eqn:Hfresh; [|discriminate]
  end.
  match type of H with
  | match (if ?c then _ else _) with _ => _ end = _ => destruct c; [|discriminate]
  end.
  inversion H; subst. simpl. split; [reflexivity|]. split; [reflexivity|].
  apply negb_true_iff in Hfresh. apply mem_false_not_In in Hfresh. exact Hfresh.
Qed.

(** C3, as the code has it.  When the insert of the candidates fails after
    the election row was created, the caller sees one failure, that of the
    candidates insert, and nothing is sent after it; no candidate of the
    batch and no audit entry is stored.  The election row stays: the
    database is the one the election insert left, and in a reachable state
    the new election has no candidate. *)
Theorem failed_candidates_insert_keeps_election
    (timestamptz_in : string -> option timestamptz) (s : Admin.state) (w : world)
    (d d1 : db) (electionData : Election.t) (candidatesError : error)
    (Hvalid : (2 <= List.length (Admin.validCandidates s))%nat)
    (Helection : Admin.insert_election_select_single timestamptz_in s w d
                 = Ok (electionData, d1))
    (Hcandidates : supabase w 1 (Admin.user s)
                     (insert_candidates
                        (Admin.candidatesData w electionData (Admin.validCandidates s))) d1
                   = Err candidatesError) :
  Admin.handleCreateElection timestamptz_in s w d = (toast_error_of candidatesError, d1)
  /\ elections d1 = elections d ++ [electionData]
  /\ candidates d1 = candidates d
  /\ votes d1 = votes d
  /\ audit_logs d1 = audit_logs d
  /\ (reachable d -> candidates_of d1 (Election.id electionData) = []).
Proof.
  split.
  - unfold Admin.handleCreateElection.
    apply Nat.ltb_ge in Hvalid. rewrite Hvalid, Helection, Hcandidates. reflexivity.
  - apply insert_election_select_single_Ok in Helection.
    destruct Helection as (-> & _ & Hfresh). simpl.
    repeat split; try reflexivity.
    intros Hd.
    exact (@no_candidate_of_absent_election d (Election.id electionData) Hd Hfresh).
Qed.

Lemma failed_candidates_insert_keeps_election_witness :
  fst (Admin.handleCreateElection sample_timestamptz_in sample_form
         (second_request_lost "new") campus)
  = toast_error_of fetch_failed.
Proof.
  destruct (Admin.insert_election_select_single sample_timestamptz_in sample_form
              (second_request_lost "new") campus) as [[electionData d1]|e] eqn:E;
    [|vm_compute in E; discriminate].
  destruct (@failed_candidates_insert_keeps_election sample_timestamptz_in sample_form
              (second_request_lost "new") campus d1 electionData fetch_failed)
    as (H & _).
  - vm_compute. lia.
  - exact E.
  - reflexivity.
  - rewrite H. reflexivity.
Defined.

(** C3, as stated, fails: the administrator of the sample university
    submits the form with the candidates X and Y, the election row is
    created, the request with the candidates is lost, and the election
    stays in the database with no candidate. *)
Lemma election_left_without_candidates :
  let after := snd (Admin.handleCreateElection sample_timestamptz_in sample_form
                      (second_request_lost "new") campus) in
  fst (Admin.handleCreateElection sample_timestamptz_in sample_form
         (second_request_lost "new") campus) = toast_error_of fetch_failed
  /\ map Election.id (elections after) = ["election-1"; "election-2"; "new-0"]
  /\ candidates_of after "new-0" = []
  /\ ~ creation_all_or_nothing sample_timestamptz_in sample_form
         (second_request_lost "new") campus.
Proof.
  split; [vm_compute; reflexivity|]. split; [vm_compute; reflexivity|].
  split; [vm_compute; reflexivity|].
  intros H.
  destruct (Admin.insert_election_select_single sample_timestamptz_in sample_form
              (second_request_lost "new") campus) as [[electionData d1]|e] eqn:E;
    [|vm_compute in E; discriminate].
  destruct (H electionData d1 fetch_failed) as [_ Hsame].
  - vm_compute. lia.
  - exact E.
  - reflexivity.
  - apply (f_equal (fun x => List.length (elections x))) in Hsame.
    vm_compute in Hsame. discriminate.
Qed.

(** ** Votes are not changed, and are deleted only by a cascade *)

Lemma step_update_votes (d : db) (auth_uid : option uuid)
    (where_ : Vote.t -> bool) (set : Vote.t -> Vote.t) :
  step d (client_request auth_uid (update_votes where_ set)) = d.
Proof.
  unfold step. simpl run.
  destruct (exec_update_votes d auth_uid where_ set) as [d'|e] eqn:E; [|reflexivity].
  apply (update_votes_no_change d auth_uid where_ set). exact E.
Qed.

Lemma step_delete_votes (d : db) (auth_uid : option uuid) (where_ : Vote.t -> bool) :
  step d (client_request auth_uid (delete_votes where_)) = d.
Proof.
  unfold step. change (run (client_request auth_uid (delete_votes where_)) d)
    with (exec auth_uid (delete_votes where_) d).
  rewrite (delete_votes_no_change d auth_uid where_). reflexivity.
Qed.

(** C8, as the code has it.  No UPDATE and no DELETE on [votes] changes
    anything, whoever sends it, the administrator included.  A row of
    [votes] is in the table after an action as it was before it, unless
    the action deletes the election of the vote or deletes its candidate
    (the candidate itself, or the election the candidate belongs to):
    [votes.candidate_id] is [ON DELETE CASCADE] like [votes.election_id]. *)
Theorem vote_rows_stay_unless_cascade (d : db) (a : action) (v : Vote.t)
    (Hin : In v (votes d)) :
  (In v (votes (step d a))
   \/ deletes_election d a (Vote.election_id v)
   \/ deletes_candidate d a (Vote.candidate_id v))
  /\ (forall auth_uid where_ set,
        step d (client_request auth_uid (update_votes where_ set)) = d)
  /\ (forall auth_uid where_,
        step d (client_request auth_uid (delete_votes where_)) = d).
Proof.
  split; [|split; [apply step_update_votes | apply step_delete_votes]].
  destruct (votes_step_cases d a)
    as [H|[(u & r & _ & _ & H)|[(u & w & Ha & H)|(u & w & Ha & H)]]]; rewrite H.
  - auto.
  - left. apply in_app_iff. auto.
  - unfold cascade_candidates_to_votes.
    destruct (mem (Vote.candidate_id v)
                (map Candidate.id
                   (deleted_rows (candidates_policies DELETE) d u w (candidates d))))
      eqn:E.
    + right. right. left. exists u, w. split; [exact Ha|]. apply mem_In. exact E.
    + left. apply filter_In. rewrite E. auto.
  - unfold cascade_candidates_to_votes, cascade_elections_to_votes.
    set (gone := map Election.id
                     (deleted_rows (elections_policies DELETE) d u w (elections d))).
    destruct (mem (Vote.election_id v) gone) eqn:Ee.
    + right. left. exists u, w. split; [exact Ha|]. apply mem_In. exact Ee.
    + destruct (mem (Vote.candidate_id v)
                  (map Candidate.id
                     (filter (fun c => mem (Candidate.election_id c) gone)
                             (candidates d)))) eqn:Ec.
      * right. right. right. apply mem_In in Ec. apply In_map_exists in Ec.
        destruct Ec as (row & Hrow & Hid). apply filter_In in Hrow.
        destruct Hrow as [Hrow Hgone]. apply mem_In in Hgone.
        exists u, w, row. auto.
      * left. apply filter_In. split.
        -- apply filter_In. rewrite Ee. auto.
        -- rewrite Ec. reflexivity.
Qed.

Lemma vote_rows_stay_unless_cascade_witness :
  In (snd (sample_vote "vote-1" "cand-A" "student-1"))
     (votes (step campus_after_votes
                  (client_request (Some "admin-1")
                     (update_elections (fun _ => true) (fun e => e)))))
  \/ deletes_election campus_after_votes
       (client_request (Some "admin-1") (update_elections (fun _ => true) (fun e => e)))
       "election-1"
  \/ deletes_candidate campus_after_votes
       (client_request (Some "admin-1") (update_elections (fun _ => true) (fun e => e)))
       "cand-A".
Proof.
  apply (@vote_rows_stay_unless_cascade campus_after_votes
           (client_request (Some "admin-1")
              (update_elections (fun _ => true) (fun e => e)))
           (snd (sample_vote "vote-1" "cand-A" "student-1"))).
  vm_compute. auto.
Defined.

(** C8, as stated, fails: the administrator of the sample university
    deletes the candidate A; the election stays and the two votes for A
    are gone. *)
Lemma vote_removed_with_its_candidate :
  let a := client_request (Some "admin-1")
             (delete_candidates (fun c => uuid_eqb (Candidate.id c) "cand-A")) in
  let v := snd (sample_vote "vote-1" "cand-A" "student-1") in
  In v (votes campus_after_votes)
  /\ map Election.id (elections (step campus_after_votes a)) = ["election-1"; "election-2"]
  /\ map Vote.id (votes (step campus_after_votes a)) = ["vote-3"]
  /\ ~ removed_only_with_election campus_after_votes a v.
Proof.
  split; [vm_compute; auto|]. split; [vm_compute; reflexivity|].
  split; [vm_compute; reflexivity|].
  intros H. destruct H as [H|(u & w & Ha & _)].
  - vm_compute. auto.
  - vm_compute in H. destruct H as [H|[]]. discriminate.
  - discriminate.
Qed.

(** ** The export of the results *)

Lemma append_assoc (a b c : string) : ((a ++ b) ++ c = a ++ (b ++ c))%string.
Proof. induction a as [|x a IH]; simpl; [reflexivity | now rewrite IH]. Qed.

Lemma append_empty_r (a : string) : (a ++ "" = a)%string.
Proof. induction a as [|x a IH]; simpl; [reflexivity | now rewrite IH]. Qed.



Lemma digit_is_digit (k : Z) :
  (0 <= k <= 9)%Z ->
  all_digits (ResultsPage.digit k) = true /\ String.length (ResultsPage.digit k) = 1%nat.
Proof.
  intros H.
  assert (C : (k = 0 \/ k = 1 \/ k = 2 \/ k = 3 \/ k = 4 \/ k = 5 \/ k = 6 \/ k = 7
               \/ k = 8 \/ k = 9)%Z) by lia.
  repeat (destruct C as [->|C]; [split; reflexivity|]). subst. split; reflexivity.
Qed.

Lemma all_digits_app (a b : string) :
  all_digits (a ++ b)%string = all_digits a && all_digits b.
Proof.
  induction a as [|x a IH]; simpl; [reflexivity|]. rewrite IH. apply andb_assoc.
Qed.

Lemma string_of_uint_digits (u : Decimal.uint) :
  all_digits (NilEmpty.string_of_uint u) = true.
Proof. induction u; simpl; auto. Qed.

Lemma number_to_string_digits (z : Z) :
  (0 <= z)%Z ->
  all_digits (ResultsPage.number_to_string z) = true
  /\ ResultsPage.number_to_string z <> "".
Proof.
  intros H. unfold ResultsPage.number_to_string.
  destruct z as [|p|p]; [split; [reflexivity | discriminate]| |lia].
  simpl. unfold NilZero.string_of_uint.
  destruct (Pos.to_uint p) eqn:E; simpl;
    try (split; [apply string_of_uint_digits | discriminate]).
  split; [reflexivity | discriminate].
Qed.

Lemma hundredths_two_decimals (n : Z) :
  (0 <= n)%Z -> two_decimals (ResultsPage.hundredths_to_string n).
Proof.
  intros H. unfold ResultsPage.hundredths_to_string.
  exists (ResultsPage.number_to_string (n / 100)),
         (ResultsPage.digit (n mod 100 / 10) ++ ResultsPage.digit (n mod 10))%string.
  assert (H1 : (0 <= n / 100)%Z) by (apply Z.div_pos; lia).
  assert (H2 : (0 <= n mod 100 / 10 <= 9)%Z).
  { pose proof (Z.mod_pos_bound n 100 ltac:(lia)) as B. split.
    - apply Z.div_pos; lia.
    - apply Z.lt_succ_r. apply Z.div_lt_upper_bound; lia. }
  assert (H3 : (0 <= n mod 10 <= 9)%Z).
  { pose proof (Z.mod_pos_bound n 10 ltac:(lia)). lia. }
  destruct (number_to_string_digits H1) as [Ha Hne].
  destruct (digit_is_digit H2) as [Hb1 Hb2], (digit_is_digit H3) as [Hc1 Hc2].
  split; [reflexivity|]. split; [exact Hne|]. split; [exact Ha|].
  split.
  - rewrite all_digits_app, Hb1, Hc1. reflexivity.
  - unfold ResultsPage.digit. reflexivity.
Qed.

Lemma nearest_hundredths_nonneg (m : positive) (e : Z) :
  (0 <= ResultsPage.nearest_hundredths m e)%Z.
Proof.
  unfold ResultsPage.nearest_hundredths. destruct (0 <=? e)%Z eqn:E.
  - apply Z.leb_le in E. pose proof (Z.pow_nonneg 2 e ltac:(lia)). nia.
  - apply Z.leb_gt in E.
    pose proof (Z.pow_pos_nonneg 2 (- e) ltac:(lia) ltac:(lia)).
    pose proof (Z.pow_pos_nonneg 2 (1 - e) ltac:(lia) ltac:(lia)).
    apply Z.div_pos; lia.
Qed.

(** Rounding keeps the sign it is given. *)
Lemma binary_round_aux_sign (sx : bool) (mx ex : Z) (lx : location) :
  match binary_round_aux ResultsPage.prec ResultsPage.emax sx mx ex lx with
  | S754_zero s | S754_infinity s | S754_finite s _ _ => s = sx
  | S754_nan => True
  end.
Proof.
  unfold binary_round_aux.
  destruct (shr_fexp ResultsPage.prec ResultsPage.emax mx ex lx) as [mrs' e'].
  destruct (shr_fexp ResultsPage.prec ResultsPage.emax
              (round_nearest_even (shr_m mrs') (loc_of_shr_record mrs')) e' loc_Exact)
    as [mrs'' e''].
  destruct (shr_m mrs''); [reflexivity| |exact I].
  destruct (e'' <=? ResultsPage.emax - ResultsPage.prec)%Z; reflexivity.
Qed.

Lemma Number_unsigned (z : Z) : (0 <= z)%Z -> unsigned (ResultsPage.Number z).
Proof.
  intros H. unfold ResultsPage.Number, binary_normalize.
  destruct z as [|p|p]; [reflexivity| |lia].
  unfold binary_round.
  destruct (shl_align p 0 _) as [mz ez].
  pose proof (binary_round_aux_sign false (Z.pos mz) ez loc_Exact) as S.
  unfold unsigned.
  destruct (binary_round_aux ResultsPage.prec ResultsPage.emax false (Z.pos mz) ez loc_Exact);
    auto.
Qed.

Lemma SFdiv_unsigned (x y : spec_float) :
  unsigned x -> unsigned y ->
  unsigned (SFdiv ResultsPage.prec ResultsPage.emax x y).
Proof.
  destruct x as [sx|sx| |sx mx ex], y as [sy|sy| |sy my ey]; simpl;
    intros Hx Hy; subst; try reflexivity; try exact I.
  destruct (SFdiv_core_binary ResultsPage.prec ResultsPage.emax (Z.pos mx) ex (Z.pos my) ey)
    as [[mz ez] lz].
  pose proof (binary_round_aux_sign (xorb false false) mz ez lz) as S.
  destruct (binary_round_aux ResultsPage.prec ResultsPage.emax (xorb false false) mz ez lz);
    auto.
Qed.

Lemma SFmul_unsigned (x y : spec_float) :
  unsigned x -> unsigned y ->
  unsigned (SFmul ResultsPage.prec ResultsPage.emax x y).
Proof.
  destruct x as [sx|sx| |sx mx ex], y as [sy|sy| |sy my ey]; simpl;
    intros Hx Hy; subst; try reflexivity; try exact I.
  pose proof (binary_round_aux_sign (xorb false false) (Z.pos (mx * my)) (ex + ey)
                                    loc_Exact) as S.
  destruct (binary_round_aux ResultsPage.prec ResultsPage.emax (xorb false false)
              (Z.pos (mx * my)) (ex + ey) loc_Exact); auto.
Qed.

Lemma percentage_unsigned (count total : Z) :
  (0 <= count)%Z -> (0 <= total)%Z -> unsigned (ResultsPage.percentage_of count total).
Proof.
  intros Hc Ht. unfold ResultsPage.percentage_of.
  apply SFmul_unsigned; [apply SFdiv_unsigned|]; apply Number_unsigned; lia.
Qed.

(** *** The lines of the export *)









(** *** The percentage as a binary64 number

    The division, the product with a hundred and [toFixed] each round once.
    Below, the three roundings are followed through [SpecFloat]: for vote
    counts up to 2^36 they leave the hundredths nearest to the exact
    percentage. *)

Section Binary64.

Local Open Scope Z_scope.























End Binary64.



(** ** The tally *)

Lemma group_key_eqb_eq (a b : group_key) : group_key_eqb a b = true <-> a = b.
Proof.
  destruct a as [a1 a2], b as [b1 b2]. unfold group_key_eqb. simpl.
  rewrite andb_true_iff, uuid_eqb_eq, String.eqb_eq. split.
  - intros [-> ->]. reflexivity.
  - intros H. inversion H. auto.
Qed.

Lemma group_key_eqb_refl (a : group_key) : group_key_eqb a a = true.
Proof. now apply group_key_eqb_eq. Qed.

Lemma group_key_eqb_neq (a b : group_key) : group_key_eqb a b = false <-> a <> b.
Proof.
  rewrite <- group_key_eqb_eq. destruct (group_key_eqb a b); split; congruence.
Qed.

Lemma filter_comm (A : Type) (f g : A -> bool) (l : list A) :
  filter f (filter g l) = filter g (filter f l).
Proof.
  rewrite !filter_filter_andb. apply filter_ext. intros x. apply andb_comm.
Qed.

Lemma filter_idem (A : Type) (f : A -> bool) (l : list A) :
  filter f (filter f l) = filter f l.
Proof.
  rewrite filter_filter_andb. apply filter_ext. intros x. destruct (f x); reflexivity.
Qed.

(** Dropping a key before or after the grouping gives the same groups. *)
Lemma groups_filter (k : group_key) (l : list group_key) :
  filter (fun k' => negb (group_key_eqb k k')) (groups l)
  = groups (filter (fun k' => negb (group_key_eqb k k')) l).
Proof.
  induction l as [|x t IH]; [reflexivity|]. simpl.
  destruct (group_key_eqb k x) eqn:E; simpl.
  - apply group_key_eqb_eq in E. subst x. rewrite filter_idem. exact IH.
  - f_equal. rewrite filter_comm, IH. reflexivity.
Qed.

Lemma filter_absent (k : group_key) (l : list group_key) :
  ~ In k l -> filter (fun k' => negb (group_key_eqb k k')) l = l.
Proof.
  intros H. apply forallb_filter_id. apply forallb_forall. intros x Hx.
  apply negb_true_iff. apply group_key_eqb_neq. intros ->. contradiction.
Qed.

Lemma groups_cons (k : group_key) (l : list group_key) :
  groups (k :: l) = k :: filter (fun k' => negb (group_key_eqb k k')) (groups l).
Proof. reflexivity. Qed.

(** A key repeated at the head of the list and absent from the rest is one
    group, the first. *)
Lemma groups_repeat (k : group_key) (n : nat) (rest : list group_key) :
  ~ In k rest ->
  groups (repeat k (S n) ++ rest) = k :: groups rest.
Proof.
  intros H. induction n as [|n IH].
  - simpl. rewrite groups_filter, filter_absent by exact H. reflexivity.
  - change (repeat k (S (S n)) ++ rest) with (k :: (repeat k (S n) ++ rest)).
    rewrite groups_cons, IH. simpl filter. rewrite group_key_eqb_refl. simpl.
    rewrite groups_filter, filter_absent by exact H. reflexivity.
Qed.

Lemma joined_fst (vs : list Vote.t) (c : Candidate.t) (row : Candidate.t * option Vote.t) :
  In row (joined vs c) -> fst row = c.
Proof.
  unfold joined. destruct (votes_for (Candidate.id c) vs) as [|v ms].
  - intros [<-|[]]. reflexivity.
  - intros H. apply in_map_iff in H. destruct H as (x & <- & _). reflexivity.
Qed.

Lemma joined_keys (vs : list Vote.t) (c : Candidate.t) :
  exists n, map key_of (joined vs c) = repeat (key_of (c, None)) (S n).
Proof.
  unfold joined. destruct (votes_for (Candidate.id c) vs) as [|v ms].
  - exists 0%nat. reflexivity.
  - exists (List.length ms). simpl. f_equal.
    induction ms as [|x t IH]; simpl; [reflexivity | now rewrite IH].
Qed.

Lemma left_join_flat_map (cs : list Candidate.t) (vs : list Vote.t) :
  left_join cs vs = flat_map (joined vs) cs.
Proof. reflexivity. Qed.

(** [WHERE c.election_id = election_uuid] keeps the rows of the candidates
    of the election. *)
Lemma where_election (cs : list Candidate.t) (vs : list Vote.t) (e : uuid) :
  filter (fun row => uuid_eqb (Candidate.election_id (fst row)) e) (left_join cs vs)
  = flat_map (joined vs) (filter (fun c => uuid_eqb (Candidate.election_id c) e) cs).
Proof.
  rewrite left_join_flat_map. induction cs as [|c t IH]; [reflexivity|].
  simpl flat_map. rewrite filter_app, IH. simpl filter.
  destruct (uuid_eqb (Candidate.election_id c) e) eqn:E; simpl.
  - f_equal. apply forallb_filter_id. apply forallb_forall. intros row Hrow.
    rewrite (joined_fst _ _ _ Hrow). exact E.
  - rewrite filter_none; [reflexivity|]. intros row Hrow.
    rewrite (joined_fst _ _ _ Hrow). exact E.
Qed.

(** The groups are the candidates, one group each, in the order of the
    table. *)
Lemma groups_of_join (vs : list Vote.t) (l : list Candidate.t) :
  NoDup (map Candidate.id l) ->
  groups (map key_of (flat_map (joined vs) l)) = map (fun c => key_of (c, None)) l.
Proof.
  induction l as [|c t IH]; intros H; [reflexivity|].
  inversion H as [|? ? Hnot Ht]; subst.
  simpl flat_map. rewrite map_app.
  destruct (joined_keys vs c) as [n ->].
  rewrite groups_repeat.
  - simpl. f_equal. apply IH. exact Ht.
  - intros Hin. apply Hnot. apply in_map_iff in Hin.
    destruct Hin as (row & Hkey & Hrow). apply in_flat_map in Hrow.
    destruct Hrow as (c2 & Hc2 & Hrow2). apply joined_fst in Hrow2.
    apply in_map_iff. exists c2. split; [|exact Hc2].
    unfold key_of in Hkey. simpl in Hkey. rewrite Hrow2 in Hkey.
    inversion Hkey. reflexivity.
Qed.

(** [COUNT(v.id)] over the rows of one candidate: its votes when the group
    is the candidate's, none otherwise. *)
Lemma count_joined (vs : list Vote.t) (c : Candidate.t) (k : group_key) :
  List.length (filter (fun row => group_key_eqb (key_of row) k && is_some (snd row))
                      (joined vs c))
  = if group_key_eqb (key_of (c, None)) k
    then List.length (votes_for (Candidate.id c) vs)
    else 0%nat.
Proof.
  unfold joined. destruct (votes_for (Candidate.id c) vs) as [|v ms].
  - simpl. rewrite andb_false_r. destruct (group_key_eqb _ k); reflexivity.
  - change (key_of (c, None)) with (key_of (c, Some v)).
    destruct (group_key_eqb (key_of (c, Some v)) k) eqn:E.
    + rewrite forallb_filter_id; [now rewrite length_map|].
      apply forallb_forall. intros row Hrow. apply in_map_iff in Hrow.
      destruct Hrow as (x & <- & _). simpl. rewrite andb_true_r. exact E.
    + rewrite filter_none; [reflexivity|]. intros row Hrow. apply in_map_iff in Hrow.
      destruct Hrow as (x & <- & _). simpl. rewrite andb_true_r. exact E.
Qed.

Lemma count_absent (vs : list Vote.t) (l : list Candidate.t) (k : group_key) :
  ~ In (fst k) (map Candidate.id l) ->
  count_v_id (flat_map (joined vs) l) k = 0%Z.
Proof.
  unfold count_v_id. intros H. rewrite filter_none; [reflexivity|].
  intros row Hrow. apply in_flat_map in Hrow. destruct Hrow as (c & Hc & Hrow).
  apply joined_fst in Hrow. apply andb_false_iff. left.
  apply group_key_eqb_neq. intros Hk. apply H. apply in_map_iff. exists c.
  split; [|exact Hc]. rewrite <- Hk. unfold key_of. rewrite Hrow. reflexivity.
Qed.

Lemma count_of_join (vs : list Vote.t) (l : list Candidate.t) (c : Candidate.t) :
  NoDup (map Candidate.id l) -> In c l ->
  count_v_id (flat_map (joined vs) l) (key_of (c, None))
  = Z.of_nat (List.length (votes_for (Candidate.id c) vs)).
Proof.
  induction l as [|c2 t IH]; intros H Hin; [contradiction|].
  inversion H as [|? ? Hnot Ht]; subst.
  unfold count_v_id in *. simpl flat_map. rewrite filter_app, length_app, count_joined.
  destruct Hin as [->|Hin].
  - rewrite group_key_eqb_refl.
    pose proof (@count_absent vs t (key_of (c, None)) Hnot) as Z0.
    unfold count_v_id in Z0. lia.
  - specialize (IH Ht Hin).
    destruct (group_key_eqb (key_of (c2, None)) (key_of (c, None))) eqn:E.
    + exfalso. apply group_key_eqb_eq in E. inversion E as [[Hid Hname]].
      apply Hnot. rewrite Hid. apply in_map. exact Hin.
    + lia.
Qed.

Lemma NoDup_map_filter (A : Type) (f : A -> uuid) (g : A -> bool) (l : list A) :
  NoDup (map f l) -> NoDup (map f (filter g l)).
Proof.
  induction l as [|x t IH]; simpl; intros H; [constructor|].
  inversion H as [|? ? Hnot Ht]; subst. destruct (g x); simpl; [|auto].
  constructor; [|auto]. intros Hin. apply Hnot.
  apply in_map_iff in Hin. destruct Hin as (y & Hy & Hin).
  apply filter_In in Hin. apply in_map_iff. exists y. tauto.
Qed.

(** The query, when the ids of the candidates are distinct: one entry per
    candidate of the election, with its name and the number of votes for
    it, ordered by the count. *)
Lemma vote_counts_of_entries (cs : list Candidate.t) (vs : list Vote.t) (e : uuid) :
  NoDup (map Candidate.id cs) ->
  vote_counts_of cs vs e
  = order_by_vote_count_desc
      (map (tally_entry vs) (filter (fun c => uuid_eqb (Candidate.election_id c) e) cs)).
Proof.
  intros H. unfold vote_counts_of. rewrite where_election.
  set (l := filter (fun c => uuid_eqb (Candidate.election_id c) e) cs).
  assert (Hl : NoDup (map Candidate.id l)) by (apply NoDup_map_filter; exact H).
  rewrite groups_of_join by exact Hl. rewrite map_map. f_equal.
  apply map_ext_in. intros c Hc. unfold tally_entry. simpl. f_equal.
  apply count_of_join; assumption.
Qed.

Lemma insert_desc_perm (x : VoteCount) (l : list VoteCount) :
  Permutation (insert_desc x l) (x :: l).
Proof.
  induction l as [|y t IH]; simpl; [apply Permutation_refl|].
  destruct (vote_count y <=? vote_count x)%Z; [apply Permutation_refl|].
  apply perm_trans with (y :: x :: t); [apply perm_skip; exact IH | apply perm_swap].
Qed.

Lemma order_by_perm (l : list VoteCount) :
  Permutation (order_by_vote_count_desc l) l.
Proof.
  induction l as [|x t IH]; simpl; [constructor|].
  apply perm_trans with (x :: order_by_vote_count_desc t);
    [apply insert_desc_perm | apply perm_skip; exact IH].
Qed.

Lemma insert_desc_descending (x : VoteCount) (l : list VoteCount) :
  descending l -> descending (insert_desc x l).
Proof.
  unfold descending. induction l as [|y t IH]; simpl; intros H.
  - repeat constructor.
  - destruct (vote_count y <=? vote_count x)%Z eqn:E.
    + apply Z.leb_le in E. constructor; [exact H|]. constructor. exact E.
    + apply Z.leb_gt in E. inversion H as [|? ? Ht Hhd]; subst.
      constructor; [apply IH; exact Ht|].
      destruct t as [|z t']; simpl.
      * constructor. lia.
      * destruct (vote_count z <=? vote_count x)%Z; constructor; [lia|].
        inversion Hhd; subst. assumption.
Qed.

Lemma order_by_descending (l : list VoteCount) :
  descending (order_by_vote_count_desc l).
Proof.
  induction l as [|x t IH]; simpl; [constructor|].
  apply insert_desc_descending. exact IH.
Qed.

(** *** What the caller of [get_vote_counts] sees of the two tables *)

Lemma select_all (row : Type) (ps : list (policy row)) (d : db)
    (auth_uid : option uuid) (l : list row) :
  select ps d auth_uid (fun _ => true) l = filter (rls_pass ps d auth_uid) l.
Proof.
  unfold select. apply filter_ext. intros r. apply andb_true_r.
Qed.

Lemma select_candidates_authenticated (d : db) (auth_uid : option uuid) :
  is_some auth_uid = true ->
  select_candidates d auth_uid (fun _ => true) = candidates d.
Proof.
  intros H. unfold select_candidates. rewrite select_all.
  apply forallb_filter_id. apply forallb_forall. intros c _.
  unfold rls_pass. rewrite H. reflexivity.
Qed.

Lemma select_votes_admin (d : db) (auth_uid : option uuid) :
  has_role d auth_uid admin = true ->
  select_votes d auth_uid (fun _ => true) = votes d.
Proof.
  intros H. unfold select_votes. rewrite select_all.
  apply forallb_filter_id. apply forallb_forall. intros v _.
  unfold rls_pass. rewrite (has_role_some _ _ _ H). simpl.
  unfold users_can_view_own_votes. rewrite H.
  destruct (sql_eq uuid_eqb (Vote.voter_id v) auth_uid) as [[]|]; reflexivity.
Qed.

(** The votes a voter has cast. *)
Lemma select_votes_own (d : db) (u : uuid) :
  has_role d (Some u) admin = false ->
  select_votes d (Some u) (fun _ => true)
  = filter (fun v => is_true (sql_eq uuid_eqb (Vote.voter_id v) (Some u))) (votes d).
Proof.
  intros H. unfold select_votes. rewrite select_all. apply filter_ext. intros v.
  unfold rls_pass. simpl. unfold users_can_view_own_votes. rewrite H.
  destruct (sql_eq uuid_eqb (Vote.voter_id v) (Some u)) as [[]|]; reflexivity.
Qed.

(** For a caller with the admin role the tally is as described: one entry
    for every candidate of the election, those without votes included,
    with the name of the candidate and the number of votes for it, in
    descending order of the counts. *)
Lemma tally_for_admin (d : db) (auth_uid : option uuid) (e : uuid) :
  reachable d ->
  has_role d auth_uid admin = true ->
  get_vote_counts d auth_uid e
  = order_by_vote_count_desc (map (tally_entry (votes d)) (candidates_of d e))
  /\ Permutation (get_vote_counts d auth_uid e)
                 (map (tally_entry (votes d)) (candidates_of d e))
  /\ descending (get_vote_counts d auth_uid e).
Proof.
  intros Hd Hrole.
  assert (E : get_vote_counts d auth_uid e
              = order_by_vote_count_desc
                  (map (tally_entry (votes d)) (candidates_of d e))).
  { unfold get_vote_counts.
    rewrite select_candidates_authenticated by (eapply has_role_some; eauto).
    rewrite select_votes_admin by exact Hrole.
    apply vote_counts_of_entries. apply candidates_key_reachable. exact Hd. }
  rewrite E. split; [reflexivity|].
  split; [apply order_by_perm | apply order_by_descending].
Qed.

(** For an authenticated caller without the admin role the tally has the
    same entries, but each count is the number of votes for the candidate
    that the caller has cast: the votes of the others are hidden from the
    caller by the SELECT policy of [votes], and so from the query. *)
Lemma tally_for_voter (d : db) (u : uuid) (e : uuid) :
  reachable d ->
  has_role d (Some u) admin = false ->
  get_vote_counts d (Some u) e
  = order_by_vote_count_desc
      (map (tally_entry
              (filter (fun v => is_true (sql_eq uuid_eqb (Vote.voter_id v) (Some u)))
                      (votes d)))
           (candidates_of d e)).
Proof.
  intros Hd Hrole. unfold get_vote_counts.
  rewrite select_candidates_authenticated by reflexivity.
  rewrite select_votes_own by exact Hrole.
  apply vote_counts_of_entries. apply candidates_key_reachable. exact Hd.
Qed.

(** C2, on the code.  In the sample university, with the candidates A and B
    and the votes [A, A, B] of three students, [get_vote_counts] gives
    [(A, 2), (B, 1)] to the administrator only.  Called by the first
    student it gives [(A, 1), (B, 0)], by the third [(B, 1), (A, 0)]: each
    sees the counts of the own vote, and the results page of the first
    student shows one vote in all.  The state is reachable, and the
    function is called as the page calls it. *)
Theorem tally_counts_only_visible_votes :
  reachable campus_after_votes
  /\ map Candidate.name (candidates_of campus_after_votes "election-1") = ["A"; "B"]
  /\ map Vote.candidate_id (votes campus_after_votes) = ["cand-A"; "cand-A"; "cand-B"]
  /\ get_vote_counts campus_after_votes (Some "admin-1") "election-1"
     = [mkVoteCount "cand-A" "A" 2; mkVoteCount "cand-B" "B" 1]
  /\ get_vote_counts campus_after_votes (Some "student-1") "election-1"
     = [mkVoteCount "cand-A" "A" 1; mkVoteCount "cand-B" "B" 0]
  /\ get_vote_counts campus_after_votes (Some "student-3") "election-1"
     = [mkVoteCount "cand-B" "B" 1; mkVoteCount "cand-A" "A" 0]
  /\ (let s := fst (ResultsPage.fetchResults
                      (ResultsPage.mkState "election-1" (Some "student-1") None [] 0)
                      (sample_world "draw") campus_after_votes) in
      ResultsPage.results s = [mkVoteCount "cand-A" "A" 1; mkVoteCount "cand-B" "B" 0]
      /\ ResultsPage.totalVotes s = 1%Z)
  /\ get_vote_counts campus (Some "admin-1") "election-1"
     = [mkVoteCount "cand-A" "A" 0; mkVoteCount "cand-B" "B" 0].
Proof.
  split.
  - unfold campus_after_votes. apply reachable_play. exact reachable_campus.
  - repeat split; vm_compute; reflexivity.
Qed.


(** * Further properties *)

(** ** The schema in reachable states *)

Lemma forallb_In (A : Type) (f : A -> bool) (l : list A) (x : A) :
  forallb f l = true -> In x l -> f x = true.
Proof. intros H Hx. rewrite forallb_forall in H. auto. Qed.

(** X1. In every reachable state the primary keys of the tables have no
    value twice, a principal holds a role at most once, and every
    reference has its target: a candidate's election, a vote's election,
    candidate and voter, the user of a role and of a profile. *)
Theorem keys_and_references_hold (d : db) (Hd : reachable d) :
  NoDup (users d)
  /\ NoDup (map Election.id (elections d))
  /\ NoDup (map Candidate.id (candidates d))
  /\ NoDup (map Vote.id (votes d))
  /\ NoDup (user_role_keys (user_roles d))
  /\ (forall c, In c (candidates d) ->
        exists e, In e (elections d) /\ Election.id e = Candidate.election_id c)
  /\ (forall v, In v (votes d) ->
        (exists e, In e (elections d) /\ Election.id e = Vote.election_id v)
        /\ (exists c, In c (candidates d) /\ Candidate.id c = Vote.candidate_id v)
        /\ (forall p, Vote.voter_id v = Some p -> In p (users d)))
  /\ (forall r, In r (user_roles d) -> In (UserRole.user_id r) (users d))
  /\ (forall p, In p (profiles d) -> In (Profile.id p) (users d)).
Proof.
  apply constraints_reachable in Hd. open_constraints Hd.
  repeat match goal with
         | K : distinctb uuid_eqb _ = true |- _ =>
             apply (distinctb_NoDup uuid_eqb uuid_eqb_eq) in K
         | K : distinctb user_role_eqb _ = true |- _ =>
             apply (distinctb_NoDup user_role_eqb user_role_eqb_eq) in K
         end.
  do 5 (split; [assumption|]).
  assert (Hvote : forall v, In v (votes d) ->
            mem (Vote.election_id v) (map Election.id (elections d)) = true
            /\ mem (Vote.candidate_id v) (map Candidate.id (candidates d)) = true
            /\ mem_opt (Vote.voter_id v) (users d) = true).
  { intros v Hv.
    match goal with
    | K : forallb _ (votes d) = true |- _ => pose proof (forallb_In _ _ _ K Hv) as M
    end.
    apply andb_true_iff in M. destruct M as [M M3].
    apply andb_true_iff in M. tauto. }
  split; [|split; [|split]].
  - intros c Hc.
    match goal with
    | K : forallb _ (candidates d) = true |- _ => pose proof (forallb_In _ _ _ K Hc) as M
    end.
    apply mem_In in M. apply In_map_exists in M. exact M.
  - intros v Hv. destruct (Hvote v Hv) as (M1 & M2 & M3).
    apply mem_In in M1, M2. apply In_map_exists in M1, M2.
    split; [exact M1|]. split; [exact M2|].
    intros p Hp. rewrite Hp in M3. apply mem_In. exact M3.
  - intros r Hr.
    match goal with
    | K : forallb _ (user_roles d) = true |- _ => pose proof (forallb_In _ _ _ K Hr) as M
    end.
    apply mem_In. exact M.
  - intros p Hp.
    match goal with
    | K : forallb _ (profiles d) = true |- _ => pose proof (forallb_In _ _ _ K Hp) as M
    end.
    apply mem_In. exact M.
Qed.

Lemma keys_and_references_hold_witness :
  NoDup (map Vote.id (votes campus_after_votes))
  /\ (forall v, In v (votes campus_after_votes) ->
        exists c, In c (candidates campus_after_votes)
                  /\ Candidate.id c = Vote.candidate_id v).
Proof.
  destruct (@keys_and_references_hold campus_after_votes) as (_ & _ & _ & H & _ & _ & K & _).
  - unfold campus_after_votes. apply reachable_play. exact reachable_campus.
  - split; [exact H|]. intros v Hv. destruct (K v Hv) as (_ & Hc & _). exact Hc.
Defined.

(** ** What the roles allow *)

Section NoRowPasses.

Variable row : Type.
Variable ps : list (policy row).
Variable d : db.
Variable auth_uid : option uuid.
Hypothesis denied : forall r, rls_pass ps d auth_uid r = false.

Lemma targeted_denied (where_ : row -> bool) (r : row) :
  targeted ps d auth_uid where_ r = false.
Proof. unfold targeted. rewrite denied. apply andb_false_r. Qed.

Lemma update_rows_denied (where_ : row -> bool) (set : row -> row) (l : list row) :
  update_rows ps d auth_uid where_ set l = l.
Proof.
  unfold update_rows. induction l as [|r t IH]; simpl; [reflexivity|].
  rewrite targeted_denied, IH. reflexivity.
Qed.

Lemma delete_rows_denied (where_ : row -> bool) (l : list row) :
  delete_rows ps d auth_uid where_ l = l.
Proof.
  unfold delete_rows. apply forallb_filter_id. apply forallb_forall. intros r _.
  rewrite targeted_denied. reflexivity.
Qed.

Lemma deleted_rows_denied (where_ : row -> bool) (l : list row) :
  deleted_rows ps d auth_uid where_ l = [].
Proof.
  unfold deleted_rows. apply filter_none. intros r _. apply targeted_denied.
Qed.

Lemma select_denied (where_ : row -> bool) (l : list row) :
  select ps d auth_uid where_ l = [].
Proof.
  unfold select. apply filter_none. intros r _. rewrite denied. reflexivity.
Qed.

End NoRowPasses.

Lemma filter_all (A : Type) (f : A -> bool) (l : list A) :
  (forall x, In x l -> f x = true) -> filter f l = l.
Proof. intros H. apply forallb_filter_id. apply forallb_forall. exact H. Qed.

(** A DELETE on [elections] or on [candidates] that targets no row leaves
    the database as it is. *)
Lemma exec_delete_elections_denied (d : db) (auth_uid : option uuid)
    (where_ : Election.t -> bool) :
  (forall r, rls_pass (elections_policies DELETE) d auth_uid r = false) ->
  exec_delete_elections d auth_uid where_ = d.
Proof.
  intros H. unfold exec_delete_elections.
  rewrite deleted_rows_denied, delete_rows_denied by exact H.
  unfold cascade_candidates_to_votes, cascade_elections_to_votes,
    cascade_elections_to_candidates. simpl.
  rewrite (filter_none (fun _ : Candidate.t => false)) by reflexivity. simpl.
  rewrite (filter_all (fun _ : Candidate.t => true)) by reflexivity.
  rewrite !(filter_all (fun _ : Vote.t => true)) by reflexivity.
  destruct d. reflexivity.
Qed.

Lemma exec_delete_candidates_denied (d : db) (auth_uid : option uuid)
    (where_ : Candidate.t -> bool) :
  (forall r, rls_pass (candidates_policies DELETE) d auth_uid r = false) ->
  exec_delete_candidates d auth_uid where_ = d.
Proof.
  intros H. unfold exec_delete_candidates.
  rewrite deleted_rows_denied, delete_rows_denied by exact H.
  unfold cascade_candidates_to_votes. simpl.
  rewrite (filter_all (fun _ : Vote.t => true)) by reflexivity.
  destruct d. reflexivity.
Qed.

Lemma admin_only_denied (row : Type) (d : db) (auth_uid : option uuid) (r : row) :
  has_role d auth_uid admin = false ->
  rls_pass [fun d uid (_ : row) => Some (has_role d uid admin)] d auth_uid r = false.
Proof.
  intros H. unfold rls_pass. simpl. rewrite H. simpl. apply andb_false_r.
Qed.

(** X2. A statement of a caller who does not hold the admin role changes
    no role assignment, no election and no candidate, whatever the
    statement is: the caller cannot take the admin role, nor create, edit
    or delete an election or a candidate. *)
Theorem non_admin_leaves_roles_elections_candidates (d : db) (auth_uid : option uuid)
    (rq : request) (Hrole : has_role d auth_uid admin = false) :
  user_roles (step d (client_request auth_uid rq)) = user_roles d
  /\ elections (step d (client_request auth_uid rq)) = elections d
  /\ candidates (step d (client_request auth_uid rq)) = candidates d.
Proof.
  assert (Hr : forall c r, c <> SELECT ->
                 rls_pass (user_roles_policies c) d auth_uid r = false).
  { intros c r Hc. destruct c; try contradiction; apply admin_only_denied; exact Hrole. }
  assert (He : forall c r, c <> SELECT ->
                 rls_pass (elections_policies c) d auth_uid r = false).
  { intros c r Hc. destruct c; try contradiction; apply admin_only_denied; exact Hrole. }
  assert (Hc : forall c r, c <> SELECT ->
                 rls_pass (candidates_policies c) d auth_uid r = false).
  { intros c r Hc. destruct c; try contradiction; apply admin_only_denied; exact Hrole. }
  unfold step. destruct rq; simpl run.
  - rewrite exec_insert_profile_denied. auto.
  - unfold exec_update_profiles. each_check; auto.
  - auto.
  - unfold exec_insert_user_role. rewrite (Hr INSERT) by discriminate. auto.
  - unfold exec_update_user_roles.
    rewrite update_rows_denied by (intros r; exact (Hr UPDATE r ltac:(discriminate))).
    each_check; auto.
  - rewrite delete_rows_denied by (intros r; exact (Hr DELETE r ltac:(discriminate))). auto.
  - unfold exec_insert_election. rewrite (He INSERT) by discriminate. auto.
  - unfold exec_update_elections.
    rewrite update_rows_denied by (intros r; exact (He UPDATE r ltac:(discriminate))).
    each_check; auto.
  - rewrite exec_delete_elections_denied; [auto|]. intros r. exact (He DELETE r ltac:(discriminate)).
  - unfold exec_insert_candidates. destruct rs as [|r rs]; simpl.
    + each_check; auto.
    + rewrite (Hc INSERT) by discriminate. auto.
  - unfold exec_update_candidates.
    rewrite update_rows_denied by (intros r; exact (Hc UPDATE r ltac:(discriminate))).
    each_check; auto.
  - rewrite exec_delete_candidates_denied; [auto|]. intros r. exact (Hc DELETE r ltac:(discriminate)).
  - unfold exec_insert_vote. each_check; auto.
  - unfold exec_update_votes. each_check; auto.
  - auto.
  - unfold exec_insert_audit_log. each_check; auto.
  - unfold exec_update_audit_logs. each_check; auto.
  - auto.
Qed.

Lemma non_admin_leaves_roles_elections_candidates_witness :
  user_roles (step campus
                (client_request (Some "student-1")
                   (insert_user_role (UserRole.mk "role-9" "student-1" admin))))
  = user_roles campus.
Proof.
  apply (@non_admin_leaves_roles_elections_candidates campus (Some "student-1")
           (insert_user_role (UserRole.mk "role-9" "student-1" admin))).
  vm_compute. reflexivity.
Defined.

Lemma anonymous_denied (row : Type) (ps : list (policy row)) (d : db) (r : row) :
  rls_pass ps d None r = false.
Proof. reflexivity. Qed.

(** X3. A request without a session gets nothing and changes nothing: every
    statement leaves the database as it is, every listing of a table is
    empty, and so is the tally. *)
Theorem anonymous_caller_reads_and_changes_nothing (d : db) :
  (forall rq, step d (client_request None rq) = d)
  /\ (forall where_, select_profiles d None where_ = [])
  /\ (forall where_, select_user_roles d None where_ = [])
  /\ (forall where_, select_elections d None where_ = [])
  /\ (forall where_, select_candidates d None where_ = [])
  /\ (forall where_, select_votes d None where_ = [])
  /\ (forall where_, select_audit_logs d None where_ = [])
  /\ (forall election_uuid, get_vote_counts d None election_uuid = []).
Proof.
  split.
  - intros rq. unfold step. destruct rq; simpl run.
    + rewrite exec_insert_profile_denied. reflexivity.
    + unfold exec_update_profiles.
      rewrite update_rows_denied by (intros; reflexivity).
      each_check; try reflexivity. apply with_profiles_same.
    + apply delete_profiles_keeps.
    + reflexivity.
    + unfold exec_update_user_roles.
      rewrite update_rows_denied by (intros; reflexivity).
      each_check; try reflexivity. apply with_user_roles_same.
    + rewrite delete_rows_denied by (intros; reflexivity). apply with_user_roles_same.
    + reflexivity.
    + unfold exec_update_elections.
      rewrite update_rows_denied by (intros; reflexivity).
      each_check; try reflexivity. apply with_elections_same.
    + apply exec_delete_elections_denied. intros; reflexivity.
    + unfold exec_insert_candidates. destruct rs as [|r rs]; simpl.
      * apply with_candidates_same.
      * reflexivity.
    + unfold exec_update_candidates.
      rewrite update_rows_denied by (intros; reflexivity).
      each_check; try reflexivity. apply with_candidates_same.
    + apply exec_delete_candidates_denied. intros; reflexivity.
    + reflexivity.
    + apply step_update_votes.
    + apply step_delete_votes.
    + reflexivity.
    + apply update_audit_logs_keeps.
    + apply delete_audit_logs_keeps.
  - repeat split; intros; try (apply select_denied; intros; reflexivity).
    unfold get_vote_counts, select_candidates.
    rewrite select_denied by (intros; reflexivity). reflexivity.
Qed.

(** X4. The audit log only grows: after any action it is what it was, or
    has one more entry at its end; no entry is changed or removed.  An
    UPDATE or a DELETE on [audit_logs] is a statement a client can send:
    the table has no policy for either, so it finds no row and changes
    nothing, whoever sends it, a caller with the admin role included.
    Only a caller with the admin role can read the log: to any other
    caller every listing of it is empty, and to a caller with the admin
    role the listing without a filter is the whole log. *)
Theorem audit_log_only_grows (d : db) (a : action) :
  (exists added,
      audit_logs (step d a) = audit_logs d ++ added /\ (List.length added <= 1)%nat)
  /\ (forall auth_uid where_ set,
        step d (client_request auth_uid (update_audit_logs where_ set)) = d)
  /\ (forall auth_uid where_,
        step d (client_request auth_uid (delete_audit_logs where_)) = d)
  /\ (forall auth_uid where_,
        has_role d auth_uid admin = false ->
        select_audit_logs d auth_uid where_ = [])
  /\ (forall auth_uid,
        has_role d auth_uid admin = true ->
        select_audit_logs d auth_uid (fun _ => true) = audit_logs d).
Proof.
  split; [|split; [|split; [|split]]].
  - assert (Same : forall d', audit_logs d' = audit_logs d ->
               exists added, audit_logs d' = audit_logs d ++ added
                             /\ (List.length added <= 1)%nat).
    { intros d' H. exists []. rewrite app_nil_r. split; [exact H | simpl; lia]. }
    destruct a as [auth_uid rq|new_id full_name student_id role_id t|r].
    + destruct rq; unfold step; simpl run.
      * rewrite exec_insert_profile_denied. auto.
      * unfold exec_update_profiles. each_check; auto.
      * auto.
      * unfold exec_insert_user_role, insert_user_role_row. each_check; auto.
      * unfold exec_update_user_roles. each_check; auto.
      * auto.
      * unfold exec_insert_election. each_check; auto.
      * unfold exec_update_elections. each_check; auto.
      * auto.
      * unfold exec_insert_candidates.
        destruct (insert_candidate_rows d auth_uid rs (candidates d)); [|auto].
        each_check; auto.
      * unfold exec_update_candidates. each_check; auto.
      * auto.
      * unfold exec_insert_vote. each_check; auto.
      * unfold exec_update_votes. each_check; auto.
      * auto.
      * unfold exec_insert_audit_log. each_check; auto.
        exists [r]. split; [reflexivity | simpl; lia].
      * rewrite update_audit_logs_keeps. auto.
      * rewrite delete_audit_logs_keeps. auto.
    + unfold step. simpl run. unfold handle_new_user, insert_user_role_row.
      each_check; auto.
    + unfold step. simpl run. unfold insert_user_role_row. each_check; auto.
  - intros auth_uid where_ set. unfold step. simpl run. apply update_audit_logs_keeps.
  - intros auth_uid where_. unfold step. simpl run. apply delete_audit_logs_keeps.
  - intros auth_uid where_ Hrole. apply select_denied. intros r.
    apply admin_only_denied. exact Hrole.
  - intros auth_uid Hrole. unfold select_audit_logs. rewrite select_all.
    apply forallb_filter_id. apply forallb_forall. intros r _.
    unfold rls_pass. rewrite (has_role_some _ _ _ Hrole). simpl.
    rewrite Hrole. reflexivity.
Qed.

Lemma audit_log_only_grows_witness :
  audit_logs campus_with_log <> []
  /\ (exists added,
        audit_logs (step campus_with_log
                      (client_request (Some "admin-1") (delete_audit_logs (fun _ => true))))
        = audit_logs campus_with_log ++ added
        /\ (List.length added <= 1)%nat)
  /\ select_audit_logs campus_with_log (Some "admin-1") (fun _ => true)
     = audit_logs campus_with_log
  /\ select_audit_logs campus_with_log (Some "student-1") (fun _ => true) = [].
Proof.
  destruct (audit_log_only_grows campus_with_log
              (client_request (Some "admin-1") (delete_audit_logs (fun _ => true))))
    as (H1 & _ & _ & H2 & H3).
  split; [vm_compute; discriminate|]. split; [exact H1|].
  split; [apply H3; vm_compute; reflexivity|].
  apply H2. vm_compute. reflexivity.
Defined.

Lemma votes_select_pass (d : db) (auth_uid : option uuid) (v : Vote.t) :
  has_role d auth_uid admin = false ->
  rls_pass (votes_policies SELECT) d auth_uid v = true ->
  exists p, auth_uid = Some p /\ Vote.voter_id v = Some p.
Proof.
  intros Hrole H. unfold rls_pass in H. simpl in H.
  unfold users_can_view_own_votes in H. rewrite Hrole in H.
  destruct auth_uid as [p|]; [|discriminate]. simpl in H.
  destruct (Vote.voter_id v) as [q|]; simpl in H; [|discriminate].
  destruct (uuid_eqb q p) eqn:E; [|discriminate].
  apply uuid_eqb_eq in E. subst. eauto.
Qed.

(** X5. A caller who does not hold the admin role is shown no vote of
    another voter: every row a listing of [votes] gives to such a caller
    names the caller as its voter, whatever the filter of the request. *)
Theorem votes_listed_are_the_callers (d : db) (auth_uid : option uuid)
    (where_ : Vote.t -> bool) (v : Vote.t)
    (Hrole : has_role d auth_uid admin = false)
    (Hin : In v (select_votes d auth_uid where_)) :
  exists p, auth_uid = Some p /\ Vote.voter_id v = Some p.
Proof.
  unfold select_votes, select in Hin. apply filter_In in Hin.
  destruct Hin as [_ H]. apply andb_true_iff in H. destruct H as [H _].
  apply (votes_select_pass _ _ _ Hrole H).
Qed.

Lemma votes_listed_are_the_callers_witness :
  exists p, Some "student-1" = Some p
            /\ Vote.voter_id (snd (sample_vote "vote-1" "cand-A" "student-1")) = Some p.
Proof.
  apply (@votes_listed_are_the_callers campus_after_votes (Some "student-1")
           (fun _ => true) (snd (sample_vote "vote-1" "cand-A" "student-1"))).
  - vm_compute. reflexivity.
  - vm_compute. auto.
Defined.

(** X6. A statement of a caller changes no profile but the caller's own:
    the profile of any other user is in the table after the statement as
    it was before. *)
Theorem profile_of_another_user_stays (d : db) (auth_uid : option uuid) (rq : request)
    (p : Profile.t)
    (Hin : In p (profiles d)) (Hother : auth_uid <> Some (Profile.id p)) :
  In p (profiles (step d (client_request auth_uid rq))).
Proof.
  unfold step. destruct rq; simpl run.
  - rewrite exec_insert_profile_denied. exact Hin.
  - unfold exec_update_profiles. each_check; auto. simpl.
    unfold update_rows. apply in_map_iff. exists p. split; [|exact Hin].
    destruct (targeted _ d auth_uid where_ p) eqn:T; [|reflexivity].
    exfalso. unfold targeted, rls_pass in T. simpl in T.
    apply andb_true_iff in T. destruct T as [_ T].
    destruct auth_uid as [u|]; simpl in T; [|discriminate].
    destruct (uuid_eqb u (Profile.id p)) eqn:E; [|discriminate].
    apply uuid_eqb_eq in E. subst. contradiction.
  - rewrite delete_profiles_keeps. exact Hin.
  - unfold exec_insert_user_role, insert_user_role_row. each_check; auto.
  - unfold exec_update_user_roles. each_check; auto.
  - auto.
  - unfold exec_insert_election. each_check; auto.
  - unfold exec_update_elections. each_check; auto.
  - auto.
  - unfold exec_insert_candidates.
    destruct (insert_candidate_rows d auth_uid rs (candidates d)); [|auto].
    each_check; auto.
  - unfold exec_update_candidates. each_check; auto.
  - auto.
  - unfold exec_insert_vote. each_check; auto.
  - unfold exec_update_votes. each_check; auto.
  - auto.
  - unfold exec_insert_audit_log. each_check; auto.
  - rewrite update_audit_logs_keeps. exact Hin.
  - rewrite delete_audit_logs_keeps. exact Hin.
Qed.

Lemma profile_of_another_user_stays_witness :
  In (Profile.mk "student-2" "Ben" (Some "S-002") (Some 102%Z))
     (profiles (step campus
                  (client_request (Some "student-1")
                     (update_profiles (fun _ => true)
                        (fun p => Profile.mk (Profile.id p) "Mallory" None None))))).
Proof.
  apply (@profile_of_another_user_stays campus (Some "student-1")
           (update_profiles (fun _ => true)
              (fun p => Profile.mk (Profile.id p) "Mallory" None None))
           (Profile.mk "student-2" "Ben" (Some "S-002") (Some 102%Z))).
  - vm_compute. auto.
  - discriminate.
Defined.

(** ** The vote page *)

Lemma is_for_true (e p : uuid) (v : Vote.t) :
  is_for e p v = true <-> Vote.election_id v = e /\ Vote.voter_id v = Some p.
Proof.
  unfold is_for. rewrite andb_true_iff, uuid_eqb_eq.
  destruct (Vote.voter_id v) as [q|]; simpl.
  - destruct (uuid_eqb q p) eqn:E; simpl.
    + apply uuid_eqb_eq in E. subst. tauto.
    + split; [intros [_ H]; discriminate|].
      intros [_ H]. inversion H; subst. rewrite uuid_eqb_refl in E. discriminate.
  - split; intros [_ H]; discriminate.
Qed.

Lemma votes_of_In (e p : uuid) (vs : list Vote.t) :
  votes_of e p vs <> []
  <-> exists v, In v vs /\ Vote.election_id v = e /\ Vote.voter_id v = Some p.
Proof.
  unfold votes_of. split.
  - intros H. destruct (filter (is_for e p) vs) as [|v t] eqn:E; [congruence|].
    assert (Hin : In v (filter (is_for e p) vs)) by (rewrite E; left; reflexivity).
    apply filter_In in Hin. destruct Hin as [Hin Hfor].
    exists v. split; [exact Hin | apply is_for_true; exact Hfor].
  - intros (v & Hin & He & Hp) E.
    assert (Hf : In v (filter (is_for e p) vs)).
    { apply filter_In. split; [exact Hin | apply is_for_true; tauto]. }
    rewrite E in Hf. exact Hf.
Qed.

(** The query of [checkIfAlreadyVoted] gives the caller the rows of the
    caller for the election: the SELECT policy hides none of them. *)
Lemma select_votes_of_caller (d : db) (e p : uuid) :
  select_votes d (Some p)
    (fun v => uuid_eqb (Vote.election_id v) e
              && is_true (sql_eq uuid_eqb (Vote.voter_id v) (Some p)))
  = votes_of e p (votes d).
Proof.
  unfold select_votes, select, votes_of. apply filter_ext. intros v.
  unfold is_for, rls_pass. simpl. unfold users_can_view_own_votes.
  destruct (sql_eq uuid_eqb (Vote.voter_id v) (Some p)) as [[]|]; simpl;
    rewrite ?andb_false_r; reflexivity.
Qed.

(** X7. In a reachable state [checkIfAlreadyVoted] of a signed-in user
    sends the user back with "You have already voted in this election"
    exactly when its request is delivered and the table has a vote of the
    user in the election; the query never fails on several rows. *)
Theorem checkIfAlreadyVoted_tells_recorded_vote
    (s : VotePage.state) (w : world) (d : db) (p : uuid)
    (Hd : reachable d) (Hu : VotePage.user s = Some p) :
  VotePage.checkIfAlreadyVoted s w d
  = Some (toast_error "You have already voted in this election")
  <-> online w 0 = true
      /\ exists v, In v (votes d)
                   /\ Vote.election_id v = VotePage.electionId s
                   /\ Vote.voter_id v = Some p.
Proof.
  unfold VotePage.checkIfAlreadyVoted. rewrite Hu.
  destruct (online w 0); [|split; [discriminate | intros [H _]; discriminate]].
  rewrite select_votes_of_caller, <- votes_of_In.
  pose proof (@NoDup_keys_votes_of (VotePage.electionId s) p (votes d)
                (keys_distinct_reachable Hd)) as Hlen.
  destruct (votes_of (VotePage.electionId s) p (votes d)) as [|x [|y t]]; simpl.
  - split; [discriminate | intros [_ H]; congruence].
  - split; [intros _; split; [reflexivity | discriminate] | reflexivity].
  - simpl in Hlen. lia.
Qed.

Lemma checkIfAlreadyVoted_tells_recorded_vote_witness :
  VotePage.checkIfAlreadyVoted
    (VotePage.mkState "election-1" (Some "student-1") None "") (sample_world "x")
    campus_after_votes
  = Some (toast_error "You have already voted in this election")
  <-> online (sample_world "x") 0 = true
      /\ exists v, In v (votes campus_after_votes)
                   /\ Vote.election_id v = "election-1"
                   /\ Vote.voter_id v = Some "student-1".
Proof.
  apply (@checkIfAlreadyVoted_tells_recorded_vote
           (VotePage.mkState "election-1" (Some "student-1") None "") (sample_world "x")
           campus_after_votes "student-1").
  - apply reachable_play. apply reachable_campus.
  - reflexivity.
Defined.

Lemma supabase_reachable (w : world) (i : nat) (auth_uid : option uuid) (rq : request)
    (d d' : db) :
  reachable d -> supabase w i auth_uid rq d = Ok d' -> reachable d'.
Proof.
  intros Hd H. unfold supabase in H. destruct (online w i); [|discriminate].
  replace d' with (step d (client_request auth_uid rq)).
  - constructor. exact Hd.
  - unfold step. simpl run. rewrite H. reflexivity.
Qed.

(** The two ways [handleSubmitVote] ends: with its success and the vote
    stored, or with another toast and the database as it was. *)
Lemma handleSubmitVote_cases (s : VotePage.state) (w : world) (d : db) :
  let row := VotePage.vote_row w (VotePage.electionId s) (VotePage.selectedCandidate s)
                               (VotePage.user s) in
  let voted := with_votes d (votes d ++ [row]) in
  (supabase w 0 (VotePage.user s) (insert_vote row) d = Ok voted
   /\ (VotePage.handleSubmitVote s w d
       = (toast_success "Vote submitted successfully!", voted)
       \/ supabase w 1 (VotePage.user s) (insert_audit_log (VotePage.vote_cast_log s w)) voted
          = Ok (with_audit_logs voted (audit_logs d ++ [VotePage.vote_cast_log s w]))
          /\ VotePage.handleSubmitVote s w d
             = (toast_success "Vote submitted successfully!",
                with_audit_logs voted (audit_logs d ++ [VotePage.vote_cast_log s w]))))
  \/ (snd (VotePage.handleSubmitVote s w d) = d
      /\ forall message, fst (VotePage.handleSubmitVote s w d) <> toast_success message).
Proof.
  intros row voted. unfold VotePage.handleSubmitVote. fold row.
  destruct (String.eqb (VotePage.selectedCandidate s) "");
    [right; split; [reflexivity | discriminate]|].
  destruct (supabase w 0 (VotePage.user s) (insert_vote row) d) as [d1|e] eqn:E;
    [|right; split; [reflexivity | discriminate]].
  left.
  assert (E1 : d1 = voted).
  { unfold supabase in E. destruct (online w 0); [|discriminate].
    simpl in E. apply exec_insert_vote_Ok in E. tauto. }
  subst d1. split; [reflexivity|].
  destruct (supabase w 1 (VotePage.user s) (insert_audit_log (VotePage.vote_cast_log s w))
              voted) as [d2|e] eqn:E2; [|left; reflexivity].
  right.
  assert (E3 : d2 = with_audit_logs voted (audit_logs d ++ [VotePage.vote_cast_log s w])).
  { unfold supabase in E2. destruct (online w 1); [|discriminate].
    simpl in E2. unfold exec_insert_audit_log in E2. passed. inversion E2. reflexivity. }
  subst d2. split; reflexivity.
Qed.


(** X9. A vote that [handleSubmitVote] has reported as submitted is found
    again: the state it leaves is reachable, and in it
    [checkIfAlreadyVoted] of the same user and election, once its request
    is delivered, sends the user back with "You have already voted in this
    election". *)
Theorem submitted_vote_is_found_again
    (s : VotePage.state) (w w' : world) (d : db) (p : uuid)
    (Hd : reachable d) (Hu : VotePage.user s = Some p)
    (Hok : fst (VotePage.handleSubmitVote s w d)
           = toast_success "Vote submitted successfully!")
    (Hon : online w' 0 = true) :
  reachable (snd (VotePage.handleSubmitVote s w d))
  /\ VotePage.checkIfAlreadyVoted s w' (snd (VotePage.handleSubmitVote s w d))
     = Some (toast_error "You have already voted in this election").
Proof.
  set (row := VotePage.vote_row w (VotePage.electionId s) (VotePage.selectedCandidate s)
                                (VotePage.user s)).
  assert (Hrow : Vote.election_id row = VotePage.electionId s /\ Vote.voter_id row = Some p).
  { split; [reflexivity | exact Hu]. }
  assert (R : reachable (snd (VotePage.handleSubmitVote s w d))
              /\ In row (votes (snd (VotePage.handleSubmitVote s w d)))).
  { destruct (handleSubmitVote_cases s w d) as [[E [H|[E2 H]]]|[_ H]].
    - fold row in E, H. rewrite H. simpl. split.
      + apply (supabase_reachable _ _ _ _ Hd E).
      + apply in_or_app. right. left. reflexivity.
    - fold row in E, E2, H. rewrite H. split.
      + apply (supabase_reachable _ _ _ _ (supabase_reachable _ _ _ _ Hd E) E2).
      + simpl. apply in_or_app. right. left. reflexivity.
    - exfalso. apply (H _ Hok). }
  destruct R as [R Hin]. split; [exact R|].
  unfold VotePage.checkIfAlreadyVoted. rewrite Hu, Hon, select_votes_of_caller.
  pose proof (@NoDup_keys_votes_of (VotePage.electionId s) p _
                (keys_distinct_reachable R)) as Hlen.
  assert (Hne : votes_of (VotePage.electionId s) p
                  (votes (snd (VotePage.handleSubmitVote s w d))) <> []).
  { apply votes_of_In. exists row. tauto. }
  destruct (votes_of (VotePage.electionId s) p
              (votes (snd (VotePage.handleSubmitVote s w d)))) as [|x [|y t]].
  - congruence.
  - reflexivity.
  - simpl in Hlen. lia.
Qed.

Lemma submitted_vote_is_found_again_witness :
  reachable (snd (VotePage.handleSubmitVote
                    (VotePage.mkState "election-1" (Some "student-1") None "cand-A")
                    (second_request_lost "x") campus))
  /\ VotePage.checkIfAlreadyVoted
       (VotePage.mkState "election-1" (Some "student-1") None "cand-A") (sample_world "y")
       (snd (VotePage.handleSubmitVote
               (VotePage.mkState "election-1" (Some "student-1") None "cand-A")
               (second_request_lost "x") campus))
     = Some (toast_error "You have already voted in this election").
Proof.
  apply (@submitted_vote_is_found_again
           (VotePage.mkState "election-1" (Some "student-1") None "cand-A")
           (second_request_lost "x") (sample_world "y") campus "student-1").
  - exact reachable_campus.
  - reflexivity.
  - vm_compute. reflexivity.
  - reflexivity.
Defined.

(** ** Listings in an order *)

Section OrderBy.

Variable A : Type.
Variable before : A -> A -> bool.

Lemma insert_by_perm (x : A) (l : list A) : Permutation (insert_by before x l) (x :: l).
Proof.
  induction l as [|y t IH]; simpl; [apply Permutation_refl|].
  destruct (before x y); [apply Permutation_refl|].
  apply perm_trans with (y :: x :: t); [apply perm_skip; exact IH | apply perm_swap].
Qed.

Lemma order_by_permutation (l : list A) : Permutation (order_by before l) l.
Proof.
  induction l as [|x t IH]; simpl; [apply perm_nil|].
  apply perm_trans with (x :: order_by before t);
    [apply insert_by_perm | apply perm_skip; exact IH].
Qed.

Lemma order_by_In (x : A) (l : list A) : In x (order_by before l) <-> In x l.
Proof.
  split; apply Permutation_in;
    [apply order_by_permutation | apply Permutation_sym, order_by_permutation].
Qed.

Hypothesis total : forall a b, before a b = false -> before b a = true.

Lemma insert_by_sorted (x : A) (l : list A) :
  Sorted (fun a b => before a b = true) l ->
  Sorted (fun a b => before a b = true) (insert_by before x l).
Proof.
  induction l as [|y t IH]; simpl; intros H.
  - constructor; constructor.
  - destruct (before x y) eqn:E.
    + constructor; [exact H | constructor; exact E].
    + inversion H as [|? ? Ht Hy]; subst. constructor; [apply IH; exact Ht|].
      destruct t as [|z t']; simpl.
      * constructor. apply total. exact E.
      * destruct (before x z); constructor.
        -- apply total. exact E.
        -- inversion Hy; subst. assumption.
Qed.

Lemma order_by_sorted (l : list A) :
  Sorted (fun a b => before a b = true) (order_by before l).
Proof.
  induction l as [|x t IH]; simpl; [constructor | apply insert_by_sorted; exact IH].
Qed.

End OrderBy.

Lemma created_at_desc_total (a b : option timestamptz) :
  created_at_desc a b = false -> created_at_desc b a = true.
Proof.
  destruct a as [x|], b as [y|]; simpl; try congruence.
  intros H. apply Z.leb_gt in H. apply Z.leb_le. lia.
Qed.

Lemma elections_key_reachable (d : db) :
  reachable d -> NoDup (map Election.id (elections d)).
Proof.
  intros H. apply constraints_reachable in H. open_constraints H.
  apply (distinctb_NoDup uuid_eqb uuid_eqb_eq). assumption.
Qed.

(** With distinct keys, the rows with the key of a row of the table are
    that row alone. *)
Lemma filter_by_key (A : Type) (f : A -> uuid) (l : list A) (x : A) :
  NoDup (map f l) -> In x l -> filter (fun y => uuid_eqb (f y) (f x)) l = [x].
Proof.
  induction l as [|y t IH]; simpl; intros Hn Hin; [contradiction|].
  inversion Hn as [|? ? Hnot Ht]; subst. destruct Hin as [Hin|Hin].
  - subst y. rewrite uuid_eqb_refl. f_equal. apply filter_none. intros z Hz.
    destruct (uuid_eqb (f z) (f x)) eqn:E; [|reflexivity].
    exfalso. apply Hnot. apply uuid_eqb_eq in E. rewrite <- E. apply in_map. exact Hz.
  - destruct (uuid_eqb (f y) (f x)) eqn:E; [|apply IH; assumption].
    exfalso. apply Hnot. apply uuid_eqb_eq in E. rewrite E. apply in_map. exact Hin.
Qed.

Lemma select_candidates_where (d : db) (auth_uid : option uuid)
    (where_ : Candidate.t -> bool) :
  is_some auth_uid = true ->
  select_candidates d auth_uid where_ = filter where_ (candidates d).
Proof.
  intros H. unfold select_candidates, select. apply filter_ext. intros c.
  unfold rls_pass. rewrite H. reflexivity.
Qed.

(** The election with the id [k], as the caller is given it. *)
Lemma select_election_by_id (d : db) (auth_uid : option uuid) (e : Election.t) :
  reachable d -> In e (elections d) ->
  select_elections d auth_uid (fun x => uuid_eqb (Election.id x) (Election.id e))
  = if rls_pass (elections_policies SELECT) d auth_uid e then [e] else [].
Proof.
  intros Hd Hin. unfold select_elections, select.
  transitivity (filter (rls_pass (elections_policies SELECT) d auth_uid)
                  (filter (fun x => uuid_eqb (Election.id x) (Election.id e))
                          (elections d))).
  - rewrite filter_filter_andb. apply filter_ext. intros x. apply andb_comm.
  - rewrite (filter_by_key Election.id _ _ (elections_key_reachable Hd) Hin).
    simpl. destruct (rls_pass _ d auth_uid e); reflexivity.
Qed.

(** X10. [fetchElectionAndCandidates] of a signed-in user, in a reachable
    state and with its two requests delivered.  When the election of the
    page is in the table and the user may see it (it is active, or the
    user has the admin role), the page gets that election and its
    candidates, each once, in the order of their names.  When the user may
    not see it, or no election has the id, the page gets nothing: a
    student cannot open the ballot of a draft or closed election. *)
Theorem fetchElectionAndCandidates_loads_visible_election
    (text_le : string -> string -> bool) (s : VotePage.state) (w : world) (d : db)
    (Hd : reachable d) (Hauth : is_some (VotePage.user s) = true)
    (Hon0 : online w 0 = true) (Hon1 : online w 1 = true) :
  (forall e, In e (elections d) -> Election.id e = VotePage.electionId s ->
     has_role d (VotePage.user s) admin = true \/ Election.status e = Some active ->
     exists cs,
       VotePage.fetchElectionAndCandidates text_le s w d = Some (e, cs)
       /\ Permutation cs (candidates_of d (VotePage.electionId s))
       /\ ((forall a b, text_le a b = false -> text_le b a = true) ->
           Sorted (fun a b => text_le (Candidate.name a) (Candidate.name b) = true) cs))
  /\ (forall e, In e (elections d) -> Election.id e = VotePage.electionId s ->
        has_role d (VotePage.user s) admin = false -> Election.status e <> Some active ->
        VotePage.fetchElectionAndCandidates text_le s w d = None)
  /\ (~ In (VotePage.electionId s) (map Election.id (elections d)) ->
      VotePage.fetchElectionAndCandidates text_le s w d = None).
Proof.
  unfold VotePage.fetchElectionAndCandidates. rewrite Hon0, Hon1.
  split; [|split].
  - intros e Hin Hid Hsee. rewrite <- Hid.
    rewrite (@select_election_by_id d (VotePage.user s) e Hd Hin), elections_select_pass, Hauth.
    assert (V : has_role d (VotePage.user s) admin
                || is_true (sql_eq election_status_eqb (Election.status e) (Some active))
                = true).
    { apply orb_true_iff. destruct Hsee as [H|H]; [left; exact H|].
      right. apply status_active. exact H. }
    rewrite V. simpl. eexists. split; [reflexivity|].
    rewrite (@select_candidates_where d (VotePage.user s) _ Hauth). split.
    + apply order_by_permutation.
    + intros total. apply order_by_sorted. intros a b. apply total.
  - intros e Hin Hid Hrole Hstatus. rewrite <- Hid.
    rewrite (@select_election_by_id d (VotePage.user s) e Hd Hin), elections_select_pass,
      Hauth, Hrole.
    destruct (is_true (sql_eq election_status_eqb (Election.status e) (Some active)))
      eqn:E; [|reflexivity].
    apply status_active in E. contradiction.
  - intros Hnot. unfold select_elections, select. rewrite filter_none; [reflexivity|].
    intros x Hx.
    destruct (uuid_eqb (Election.id x) (VotePage.electionId s)) eqn:E;
      [|apply andb_false_r].
    exfalso. apply Hnot. apply uuid_eqb_eq in E. rewrite <- E. apply in_map. exact Hx.
Qed.

Lemma fetchElectionAndCandidates_loads_visible_election_witness :
  VotePage.fetchElectionAndCandidates String.leb
    (VotePage.mkState "election-2" (Some "student-1") None "") (sample_world "x") campus
  = None.
Proof.
  destruct (@fetchElectionAndCandidates_loads_visible_election String.leb
              (VotePage.mkState "election-2" (Some "student-1") None "") (sample_world "x")
              campus reachable_campus eq_refl eq_refl eq_refl) as (_ & H & _).
  apply (H (sample_election "election-2" "Treasurer" closed)).
  - vm_compute. auto.
  - reflexivity.
  - vm_compute. reflexivity.
  - discriminate.
Defined.

(** ** The dashboard and the list of the admin page *)

(** X11. The dashboard lists active elections only, also to a caller with
    the admin role, who may see the others: every election of
    [fetchElections] is a row of the table whose status is active; to a
    signed-in caller the list has each active election of the table, as
    often as the table has it; and it is in descending order of
    [created_at]. *)
Theorem dashboard_lists_the_active_elections (auth_uid : option uuid) (w : world) (d : db)
    (l : list Election.t) (Hl : Dashboard.fetchElections auth_uid w d = Some l) :
  (forall e, In e l -> In e (elections d) /\ Election.status e = Some active)
  /\ (is_some auth_uid = true ->
      Permutation l
        (filter (fun e => is_true (sql_eq election_status_eqb (Election.status e)
                                          (Some active)))
                (elections d)))
  /\ Sorted (fun a b => created_at_desc (Election.created_at a) (Election.created_at b) = true)
            l.
Proof.
  unfold Dashboard.fetchElections in Hl. destruct (online w 0); [|discriminate].
  inversion Hl as [E]. clear Hl. split; [|split].
  - intros e Hin. apply order_by_In in Hin. unfold select_elections, select in Hin.
    apply filter_In in Hin. destruct Hin as [Hin H].
    apply andb_true_iff in H. destruct H as [_ H].
    split; [exact Hin | apply status_active; exact H].
  - intros Hauth. eapply perm_trans; [apply order_by_permutation|].
    unfold select_elections, select.
    erewrite filter_ext; [apply Permutation_refl|].
    intros e. simpl. rewrite elections_select_pass, Hauth. simpl.
    destruct (is_true (sql_eq election_status_eqb (Election.status e) (Some active)));
      [rewrite orb_true_r|rewrite andb_false_r]; reflexivity.
  - apply order_by_sorted. intros a b. apply created_at_desc_total.
Qed.

Lemma dashboard_lists_the_active_elections_witness :
  In (sample_election "election-1" "President" active) (elections campus)
  /\ Election.status (sample_election "election-1" "President" active) = Some active.
Proof.
  destruct (@dashboard_lists_the_active_elections (Some "admin-1") (sample_world "x") campus
              [sample_election "election-1" "President" active]) as (H & _).
  - vm_compute. reflexivity.
  - apply H. left. reflexivity.
Defined.

(** X12. The list of the admin page: to a caller with the admin role
    [fetchElections] gives every election of the table, as often as the
    table has it, in descending order of [created_at]; to any other caller
    only active elections.  A request that fails gives the empty list. *)
Theorem admin_page_lists_all_elections (auth_uid : option uuid) (w : world) (d : db) :
  (has_role d auth_uid admin = true -> online w 0 = true ->
   Permutation (Admin.fetchElections auth_uid w d) (elections d))
  /\ (has_role d auth_uid admin = false ->
      forall e, In e (Admin.fetchElections auth_uid w d) ->
                In e (elections d) /\ Election.status e = Some active)
  /\ Sorted (fun a b => created_at_desc (Election.created_at a) (Election.created_at b) = true)
            (Admin.fetchElections auth_uid w d)
  /\ (online w 0 = false -> Admin.fetchElections auth_uid w d = []).
Proof.
  unfold Admin.fetchElections. split; [|split; [|split]].
  - intros Hrole Hon. rewrite Hon.
    eapply perm_trans; [apply order_by_permutation|].
    unfold select_elections, select. rewrite filter_all; [apply Permutation_refl|].
    intros e _. rewrite elections_select_pass, Hrole, (has_role_some _ _ _ Hrole).
    reflexivity.
  - intros Hrole e Hin. destruct (online w 0); [|contradiction].
    apply order_by_In in Hin. unfold select_elections, select in Hin.
    apply filter_In in Hin. destruct Hin as [Hin H].
    rewrite elections_select_pass, Hrole in H. simpl in H.
    apply andb_true_iff in H. destruct H as [H _].
    apply andb_true_iff in H. destruct H as [_ H].
    split; [exact Hin | apply status_active; exact H].
  - destruct (online w 0); [|constructor].
    apply order_by_sorted. intros a b. apply created_at_desc_total.
  - intros Hon. rewrite Hon. reflexivity.
Qed.

Lemma admin_page_lists_all_elections_witness :
  Permutation (Admin.fetchElections (Some "admin-1") (sample_world "x") campus)
              (elections campus).
Proof.
  destruct (admin_page_lists_all_elections (Some "admin-1") (sample_world "x") campus)
    as [H _].
  apply H; vm_compute; reflexivity.
Defined.

Lemma new_Set_In (x : uuid) (l : list uuid) : In x (new_Set l) <-> In x l.
Proof.
  induction l as [|y t IH]; simpl; [tauto|].
  rewrite filter_In, IH. split.
  - intros [H|[H _]]; auto.
  - intros [H|H]; [auto|].
    destruct (uuid_eqb y x) eqn:E.
    + left. apply uuid_eqb_eq. exact E.
    + right. split; [exact H | reflexivity].
Qed.

Lemma new_Set_NoDup (l : list uuid) : NoDup (new_Set l).
Proof.
  induction l as [|y t IH]; simpl; constructor.
  - rewrite filter_In. intros [_ H]. rewrite uuid_eqb_refl in H. discriminate.
  - apply NoDup_filter. exact IH.
Qed.

(** X13. The set of [fetchVotedElections] holds an election exactly when
    the table has a vote of the caller in it, and holds it once; so the
    card of an election on the dashboard is marked as voted exactly when
    the caller has a vote in that election. *)
Theorem voted_mark_iff_vote_recorded (u : uuid) (w : world) (d : db) (set : list uuid)
    (Hset : Dashboard.fetchVotedElections (Some u) w d = Some set) :
  NoDup set
  /\ forall e : Election.t,
       Dashboard.hasVoted set e = true
       <-> exists v, In v (votes d)
                     /\ Vote.election_id v = Election.id e
                     /\ Vote.voter_id v = Some u.
Proof.
  unfold Dashboard.fetchVotedElections in Hset. destruct (online w 0); [|discriminate].
  inversion Hset as [E]. clear Hset. split; [apply new_Set_NoDup|].
  intros e. unfold Dashboard.hasVoted, has. rewrite mem_In, new_Set_In, in_map_iff.
  split.
  - intros (v & Hv & Hin). unfold select_votes, select in Hin.
    apply filter_In in Hin. destruct Hin as [Hin H].
    apply andb_true_iff in H. destruct H as [_ H].
    exists v. split; [exact Hin|]. split; [exact Hv|].
    destruct (is_for_true (Vote.election_id v) u v) as [K _].
    apply K. unfold is_for. rewrite uuid_eqb_refl. exact H.
  - intros (v & Hin & Hv & Hu). exists v. split; [exact Hv|].
    unfold select_votes, select. apply filter_In. split; [exact Hin|].
    unfold rls_pass. simpl. unfold users_can_view_own_votes. rewrite Hu. simpl.
    rewrite uuid_eqb_refl. reflexivity.
Qed.

Lemma voted_mark_iff_vote_recorded_witness :
  NoDup ["election-1"]
  /\ forall e : Election.t,
       Dashboard.hasVoted ["election-1"] e = true
       <-> exists v, In v (votes campus_after_votes)
                     /\ Vote.election_id v = Election.id e
                     /\ Vote.voter_id v = Some "student-2".
Proof.
  apply (@voted_mark_iff_vote_recorded "student-2" (sample_world "x") campus_after_votes
           ["election-1"]).
  vm_compute. reflexivity.
Defined.

(** ** Deleting an election *)

Lemma votes_references_reachable (d : db) (v : Vote.t) :
  reachable d -> In v (votes d) ->
  In (Vote.election_id v) (map Election.id (elections d))
  /\ In (Vote.candidate_id v) (map Candidate.id (candidates d)).
Proof.
  intros H Hin. apply constraints_reachable in H. open_constraints H.
  match goal with
  | K : forallb _ (votes d) = true |- _ =>
      rewrite forallb_forall in K; specialize (K v Hin);
      repeat rewrite andb_true_iff in K; destruct K as [[K1 K2] _]
  end.
  split; apply mem_In; assumption.
Qed.

Lemma candidate_election_reachable (d : db) (c : Candidate.t) :
  reachable d -> In c (candidates d) ->
  In (Candidate.election_id c) (map Election.id (elections d)).
Proof.
  intros H Hin. apply constraints_reachable in H. open_constraints H.
  match goal with
  | K : forallb _ (candidates d) = true |- _ =>
      rewrite forallb_forall in K; specialize (K c Hin)
  end.
  apply mem_In. assumption.
Qed.

(** The ids of the elections that an admin's [DELETE ... WHERE id = k]
    removes: [k] is among them exactly when it is the id of an election. *)
Lemma deleted_election_ids (d : db) (auth_uid : option uuid) (k x : uuid) :
  has_role d auth_uid admin = true ->
  mem x (map Election.id
           (deleted_rows (elections_policies DELETE) d auth_uid
              (fun e => uuid_eqb (Election.id e) k) (elections d))) = true
  <-> x = k /\ In k (map Election.id (elections d)).
Proof.
  intros Hrole. rewrite mem_In, in_map_iff. unfold deleted_rows. split.
  - intros (e & He & Hin). apply filter_In in Hin. destruct Hin as [Hin T].
    unfold targeted in T. apply andb_true_iff in T. destruct T as [T _].
    apply uuid_eqb_eq in T. split; [congruence|].
    rewrite <- T. apply in_map. exact Hin.
  - intros [Hx Hin]. apply in_map_iff in Hin. destruct Hin as (e & He & Hin).
    exists e. split; [congruence|]. apply filter_In. split; [exact Hin|].
    unfold targeted, rls_pass. rewrite He, uuid_eqb_refl, (has_role_some _ _ _ Hrole).
    simpl. rewrite Hrole. reflexivity.
Qed.

(** X14. [handleDeleteElection] by a caller with the admin role, in a
    reachable state and with the request delivered, removes the election
    with all that hangs on it: afterwards no election has the id, no
    candidate belongs to it, no vote is for it or for one of its
    candidates, and its tally is empty.  The other elections and the
    candidates of the other elections stay, and so do the roles. *)
Theorem handleDeleteElection_removes_election_with_dependents
    (auth_uid : option uuid) (w : world) (id : uuid) (d : db)
    (Hd : reachable d) (Hrole : has_role d auth_uid admin = true)
    (Hon : online w 0 = true) :
  fst (Admin.handleDeleteElection auth_uid w id d)
  = toast_success "Election deleted successfully"
  /\ ~ In id (map Election.id (elections (snd (Admin.handleDeleteElection auth_uid w id d))))
  /\ candidates_of (snd (Admin.handleDeleteElection auth_uid w id d)) id = []
  /\ (forall v, In v (votes (snd (Admin.handleDeleteElection auth_uid w id d))) ->
        In v (votes d)
        /\ Vote.election_id v <> id
        /\ ~ In (Vote.candidate_id v) (map Candidate.id (candidates_of d id)))
  /\ get_vote_counts (snd (Admin.handleDeleteElection auth_uid w id d)) auth_uid id = []
  /\ (forall e, In e (elections d) -> Election.id e <> id ->
        In e (elections (snd (Admin.handleDeleteElection auth_uid w id d))))
  /\ (forall c, In c (candidates d) -> Candidate.election_id c <> id ->
        In c (candidates (snd (Admin.handleDeleteElection auth_uid w id d))))
  /\ user_roles (snd (Admin.handleDeleteElection auth_uid w id d)) = user_roles d.
Proof.
  assert (R : reachable (snd (Admin.handleDeleteElection auth_uid w id d))).
  { unfold Admin.handleDeleteElection.
    destruct (supabase w 0 auth_uid
                (delete_elections (fun e => uuid_eqb (Election.id e) id)) d) as [d'|e] eqn:E.
    - apply (supabase_reachable _ _ _ _ Hd E).
    - exact Hd. }
  revert R. unfold Admin.handleDeleteElection, supabase. rewrite Hon. simpl exec. cbv iota.
  simpl fst. simpl snd. intros R.
  pose proof (fun x => @deleted_election_ids d auth_uid id x Hrole) as G.
  set (gone := map Election.id
                 (deleted_rows (elections_policies DELETE) d auth_uid
                    (fun e => uuid_eqb (Election.id e) id) (elections d))) in *.
  assert (Hc : candidates_of (exec_delete_elections d auth_uid
                                (fun e => uuid_eqb (Election.id e) id)) id = []).
  { unfold candidates_of, exec_delete_elections.
    cbn [elections candidates votes with_votes with_candidates with_elections]. fold gone.
    unfold cascade_elections_to_candidates. apply filter_none. intros c Hin.
    apply filter_In in Hin. destruct Hin as [Hin Hkept].
    destruct (uuid_eqb (Candidate.election_id c) id) eqn:E; [|reflexivity].
    apply uuid_eqb_eq in E. apply negb_true_iff in Hkept.
    assert (K : mem (Candidate.election_id c) gone = true).
    { apply G. split; [exact E|]. rewrite <- E.
      apply candidate_election_reachable; assumption. }
    congruence. }
  split; [reflexivity|]. split; [|split; [exact Hc|split; [|split; [|split; [|split]]]]].
  - unfold exec_delete_elections.
    cbn [elections candidates votes with_votes with_candidates with_elections].
    unfold delete_rows. intros Hin.
    apply in_map_iff in Hin. destruct Hin as (e & He & Hin).
    apply filter_In in Hin. destruct Hin as [_ T]. apply negb_true_iff in T.
    unfold targeted, rls_pass in T.
    rewrite He, uuid_eqb_refl, (has_role_some _ _ _ Hrole) in T. simpl in T.
    rewrite Hrole in T. discriminate.
  - unfold exec_delete_elections.
    cbn [elections candidates votes with_votes with_candidates with_elections]. fold gone.
    unfold cascade_candidates_to_votes, cascade_elections_to_votes.
    intros v Hin. apply filter_In in Hin. destruct Hin as [Hin Hcand].
    apply filter_In in Hin. destruct Hin as [Hin Helection].
    apply negb_true_iff in Hcand, Helection.
    split; [exact Hin|]. split.
    + intros E.
      assert (K : mem (Vote.election_id v) gone = true).
      { apply G. split; [exact E|]. rewrite <- E.
        apply (@votes_references_reachable d v Hd Hin). }
      congruence.
    + intros K. apply in_map_iff in K. destruct K as (c & Hc1 & Hc2).
      unfold candidates_of in Hc2. apply filter_In in Hc2. destruct Hc2 as [Hc2 Hc3].
      apply uuid_eqb_eq in Hc3.
      assert (M : mem (Vote.candidate_id v)
                    (map Candidate.id
                       (filter (fun c => mem (Candidate.election_id c) gone) (candidates d)))
                  = true).
      { apply mem_In. apply in_map_iff. exists c. split; [exact Hc1|].
        apply filter_In. split; [exact Hc2|]. apply G. split; [exact Hc3|].
        rewrite <- Hc3. apply candidate_election_reachable; assumption. }
      congruence.
  - assert (Hrole' : has_role (exec_delete_elections d auth_uid
                                 (fun e => uuid_eqb (Election.id e) id)) auth_uid admin
                     = true) by exact Hrole.
    destruct (@tally_for_admin _ auth_uid id R Hrole') as [E _]. rewrite E, Hc. reflexivity.
  - intros e Hin Hne. unfold exec_delete_elections.
    cbn [elections candidates votes with_votes with_candidates with_elections].
    unfold delete_rows.
    apply filter_In. split; [exact Hin|]. apply negb_true_iff.
    unfold targeted. destruct (uuid_eqb (Election.id e) id) eqn:E; [|reflexivity].
    apply uuid_eqb_eq in E. contradiction.
  - intros c Hin Hne. unfold exec_delete_elections.
    cbn [elections candidates votes with_votes with_candidates with_elections]. fold gone.
    unfold cascade_elections_to_candidates. apply filter_In. split; [exact Hin|].
    apply negb_true_iff. destruct (mem (Candidate.election_id c) gone) eqn:E; [|reflexivity].
    apply G in E. destruct E as [E _]. contradiction.
  - reflexivity.
Qed.

Lemma handleDeleteElection_removes_election_with_dependents_witness :
  get_vote_counts
    (snd (Admin.handleDeleteElection (Some "admin-1") (sample_world "x") "election-1"
            campus_after_votes))
    (Some "admin-1") "election-1"
  = [].
Proof.
  destruct (@handleDeleteElection_removes_election_with_dependents
              (Some "admin-1") (sample_world "x") "election-1" campus_after_votes)
    as (_ & _ & _ & _ & H & _).
  - apply reachable_play. apply reachable_campus.
  - vm_compute. reflexivity.
  - reflexivity.
  - exact H.
Defined.

(** X15. [handleDeleteElection] by a caller who does not hold the admin
    role deletes nothing, and still reports "Election deleted
    successfully" when its request is delivered: the DELETE policy hides
    every election from the statement, which then removes no row and
    returns no error. *)
Theorem handleDeleteElection_without_admin_role
    (auth_uid : option uuid) (w : world) (id : uuid) (d : db)
    (Hrole : has_role d auth_uid admin = false) :
  snd (Admin.handleDeleteElection auth_uid w id d) = d
  /\ (online w 0 = true ->
      fst (Admin.handleDeleteElection auth_uid w id d)
      = toast_success "Election deleted successfully")
  /\ (online w 0 = false ->
      fst (Admin.handleDeleteElection auth_uid w id d)
      = toast_error "Failed to delete election").
Proof.
  unfold Admin.handleDeleteElection, supabase. destruct (online w 0); simpl.
  - rewrite exec_delete_elections_denied.
    + split; [reflexivity|]. split; [reflexivity | discriminate].
    + intros r. apply admin_only_denied. exact Hrole.
  - split; [reflexivity|]. split; [discriminate | reflexivity].
Qed.

Lemma handleDeleteElection_without_admin_role_witness :
  Admin.handleDeleteElection (Some "student-1") (sample_world "x") "election-1"
    campus_after_votes
  = (toast_success "Election deleted successfully", campus_after_votes).
Proof.
  destruct (@handleDeleteElection_without_admin_role
              (Some "student-1") (sample_world "x") "election-1" campus_after_votes)
    as (H1 & H2 & _).
  - vm_compute. reflexivity.
  - specialize (H2 eq_refl).
    destruct (Admin.handleDeleteElection (Some "student-1") (sample_world "x") "election-1"
                campus_after_votes) as [t d'].
    simpl in H1, H2. subst. reflexivity.
Defined.

(** ** A created election *)

Lemma exec_reachable (auth_uid : option uuid) (rq : request) (d d' : db) :
  reachable d -> exec auth_uid rq d = Ok d' -> reachable d'.
Proof.
  intros Hd H. replace d' with (step d (client_request auth_uid rq)).
  - constructor. exact Hd.
  - unfold step. simpl run. rewrite H. reflexivity.
Qed.

Lemma insert_election_select_single_admin
    (timestamptz_in : string -> option timestamptz) (s : Admin.state) (w : world)
    (d d1 : db) (electionData : Election.t) :
  Admin.insert_election_select_single timestamptz_in s w d = Ok (electionData, d1) ->
  has_role d (Admin.user s) admin = true /\ (reachable d -> reachable d1).
Proof.
  unfold Admin.insert_election_select_single. intros H.
  destruct (online w 0); [|discriminate].
  destruct (timestamptz_in (Admin.startDate s)); [|discriminate].
  destruct (timestamptz_in (Admin.endDate s)); [|discriminate].
  match type of H with
  | match ?x with _ => _ end = _ => destruct x as [d'|e] eqn:E; [|discriminate]
  end.
  inversion H; subst. split.
  - simpl in E. unfold exec_insert_election in E.
    match type of E with
    | (if ?c then _ else _) = _ => destruct c eqn:P; [|discriminate]
    end.
    unfold rls_pass in P. simpl in P. unfold only_admins_elections in P.
    destruct (has_role d (Admin.user s) admin); [reflexivity|].
    simpl in P. rewrite andb_false_r in P. discriminate.
  - intros Hd. apply (exec_reachable _ _ Hd E).
Qed.

Lemma map_indexed_length (A B : Type) (f : nat -> A -> B) (i : nat) (l : list A) :
  List.length (map_indexed f i l) = List.length l.
Proof.
  revert i. induction l as [|x t IH]; intros i; simpl; [reflexivity|].
  rewrite IH. reflexivity.
Qed.

(** X16. When [handleCreateElection] reports "Election created
    successfully!" in a reachable state, the caller has the admin role,
    the form had two named candidates or more, and the election and its
    candidates are stored: the new election is the last row of
    [elections], with the id drawn for it; its candidates are the named
    entries of the form in their order, with the names as typed; no vote
    is added; and the tally of the new election, asked by the caller, has
    one entry with zero votes for each of them and no other (in which
    order, the query does not say: the counts are all equal). *)
Theorem handleCreateElection_success_stores_election_and_candidates
    (timestamptz_in : string -> option timestamptz) (s : Admin.state) (w : world) (d : db)
    (Hd : reachable d)
    (Hok : fst (Admin.handleCreateElection timestamptz_in s w d)
           = toast_success "Election created successfully!") :
  exists electionData,
    has_role d (Admin.user s) admin = true
    /\ (2 <= List.length (Admin.validCandidates s))%nat
    /\ Election.id electionData = gen_random_uuid w 0
    /\ reachable (snd (Admin.handleCreateElection timestamptz_in s w d))
    /\ elections (snd (Admin.handleCreateElection timestamptz_in s w d))
       = elections d ++ [electionData]
    /\ candidates (snd (Admin.handleCreateElection timestamptz_in s w d))
       = candidates d ++ Admin.candidatesData w electionData (Admin.validCandidates s)
    /\ candidates_of (snd (Admin.handleCreateElection timestamptz_in s w d))
                     (Election.id electionData)
       = Admin.candidatesData w electionData (Admin.validCandidates s)
    /\ map Candidate.name (Admin.candidatesData w electionData (Admin.validCandidates s))
       = map CandidateForm.name (Admin.validCandidates s)
    /\ votes (snd (Admin.handleCreateElection timestamptz_in s w d)) = votes d
    /\ Permutation
         (get_vote_counts (snd (Admin.handleCreateElection timestamptz_in s w d))
                          (Admin.user s) (Election.id electionData))
         (map (fun c => mkVoteCount (Candidate.id c) (Candidate.name c) 0)
              (Admin.candidatesData w electionData (Admin.validCandidates s))).
Proof.
  unfold Admin.handleCreateElection in *.
  destruct (List.length (Admin.validCandidates s) <? 2)%nat eqn:Hn; [discriminate Hok|].
  apply Nat.ltb_ge in Hn.
  destruct (Admin.insert_election_select_single timestamptz_in s w d)
    as [[electionData d1]|e] eqn:E; [|discriminate Hok].
  set (rows := Admin.candidatesData w electionData (Admin.validCandidates s)) in *.
  destruct (supabase w 1 (Admin.user s) (insert_candidates rows) d1) as [d2|e] eqn:E1;
    [|discriminate Hok].
  clear Hok. cbn [snd].
  destruct (insert_election_select_single_admin _ _ _ _ E) as [Hrole Hd1].
  specialize (Hd1 Hd).
  destruct (insert_election_select_single_Ok _ _ _ _ E) as (E' & Hid & Hfresh).
  pose proof (supabase_reachable _ _ _ _ Hd1 E1) as Hd2.
  assert (E1' : d2 = with_candidates d1 (candidates d1 ++ rows)
                /\ NoDup (map Candidate.id (candidates d1 ++ rows))).
  { unfold supabase in E1. destruct (online w 1); [|discriminate].
    simpl in E1. apply exec_insert_candidates_Ok in E1. destruct E1 as [E1 N].
    split; [exact E1|]. apply N. apply candidates_key_reachable. exact Hd1. }
  destruct E1' as [E1' Hnodup].
  set (request3 := supabase w 2 (Admin.user s)
                     (insert_audit_log
                        (Admin.election_created_log s w electionData
                           (List.length (Admin.validCandidates s)))) d2).
  assert (E2 : exists L,
             match request3 with Ok d3 => d3 | Err _ => d2 end = with_audit_logs d2 L
             /\ reachable (with_audit_logs d2 L)).
  { destruct request3 as [d3|e] eqn:E2.
    - pose proof (supabase_reachable _ _ _ _ Hd2 E2) as Hd3.
      unfold request3, supabase in E2. destruct (online w 2); [|discriminate].
      simpl in E2. unfold exec_insert_audit_log in E2. passed. inversion E2.
      eexists. split; [reflexivity|]. rewrite H0. exact Hd3.
    - exists (audit_logs d2). rewrite with_audit_logs_same. split; [reflexivity|exact Hd2]. }
  destruct E2 as (L & E2 & Hd3). rewrite E2. clear E2 request3.
  subst d2 d1.
  cbn [elections candidates votes with_elections with_candidates with_audit_logs] in *.
  assert (Hrows : forall c, In c rows -> Candidate.election_id c = Election.id electionData).
  { intros c Hc.
    assert (M : map Candidate.election_id rows
                = map (fun _ => Election.id electionData) (Admin.validCandidates s)).
    { unfold rows, Admin.candidatesData. apply map_indexed_map. reflexivity. }
    apply (in_map Candidate.election_id) in Hc. rewrite M in Hc.
    apply in_map_iff in Hc. destruct Hc as (x & Hx & _). congruence. }
  assert (Hof : filter (fun c => uuid_eqb (Candidate.election_id c) (Election.id electionData))
                       (candidates d ++ rows) = rows).
  { rewrite filter_app.
    pose proof (@no_candidate_of_absent_election d (Election.id electionData) Hd Hfresh)
      as Hnone.
    unfold candidates_of in Hnone. rewrite Hnone. simpl.
    apply filter_all. intros c Hc. apply uuid_eqb_eq. apply Hrows. exact Hc. }
  exists electionData.
  split; [exact Hrole|]. split; [exact Hn|]. split; [exact Hid|]. split; [exact Hd3|].
  split; [reflexivity|]. split; [reflexivity|]. split; [exact Hof|].
  split; [unfold rows, Admin.candidatesData; apply map_indexed_map; reflexivity|].
  split; [reflexivity|].
  destruct (@tally_for_admin _ (Admin.user s) (Election.id electionData) Hd3 Hrole)
    as (_ & T & _).
  eapply perm_trans; [exact T|]. unfold candidates_of.
  cbn [elections candidates votes with_elections with_candidates with_audit_logs].
  rewrite Hof.
  assert (Z0 : map (tally_entry (votes d)) rows
               = map (fun c => mkVoteCount (Candidate.id c) (Candidate.name c) 0) rows).
  { apply map_ext_in. intros c Hc. unfold tally_entry. f_equal.
    unfold votes_for. rewrite filter_none; [reflexivity|].
    intros v Hv. destruct (uuid_eqb (Candidate.id c) (Vote.candidate_id v)) eqn:Ev;
      [|reflexivity].
    exfalso. apply uuid_eqb_eq in Ev.
    destruct (@votes_references_reachable d v Hd Hv) as [_ Hcand].
    rewrite map_app in Hnodup.
    apply (@NoDup_app_disjoint _ _ _ (Vote.candidate_id v) Hnodup Hcand).
    rewrite <- Ev. apply in_map. exact Hc. }
  rewrite Z0. apply Permutation_refl.
Qed.

Lemma handleCreateElection_success_stores_election_and_candidates_witness :
  exists electionData,
    Election.id electionData = "new-0"
    /\ map Candidate.name
         (candidates_of (snd (Admin.handleCreateElection sample_timestamptz_in sample_form
                                (sample_world "new") campus))
                        (Election.id electionData))
       = ["X"; "Y"].
Proof.
  destruct (@handleCreateElection_success_stores_election_and_candidates
              sample_timestamptz_in sample_form (sample_world "new") campus
              reachable_campus)
    as (electionData & _ & _ & Hid & _ & _ & _ & Hof & Hnames & _).
  - vm_compute. reflexivity.
  - exists electionData. split; [exact Hid|]. rewrite Hof, Hnames. reflexivity.
Defined.

(** ** The results page *)

(** X17. The percentage under a candidate in the detailed results is the
    one of the export whenever there are votes.  With no votes the page
    shows [0.00%] where the export has [0%].  For counts that are not
    negative the text on the page is always digits, a point, two digits and
    the sign [%] whenever the number is finite. *)
Theorem page_percentage_and_export_cell (r : VoteCount) (totalVotes : Z) :
  ((0 < totalVotes)%Z ->
   ResultsPage.percentage_text r totalVotes = ResultsPage.percentage_cell r totalVotes)
  /\ ((totalVotes <= 0)%Z ->
      ResultsPage.percentage_text r totalVotes = "0.00%"
      /\ ResultsPage.percentage_cell r totalVotes = "0%")
  /\ ((0 <= vote_count r)%Z ->
      (exists sign m e,
          ResultsPage.percentage r totalVotes = S754_zero sign
          \/ ResultsPage.percentage r totalVotes = S754_finite sign m e) ->
      exists digits,
        ResultsPage.percentage_text r totalVotes = (digits ++ "%")%string
        /\ two_decimals digits).
Proof.
  unfold ResultsPage.percentage_text, ResultsPage.percentage_cell, ResultsPage.percentage.
  split; [|split].
  - intros H. apply Z.gtb_lt in H. rewrite H. reflexivity.
  - intros H. destruct (totalVotes >? 0)%Z eqn:E; [apply Z.gtb_lt in E; lia|].
    split; reflexivity.
  - intros Hc Hfinite. eexists. split; [reflexivity|].
    destruct (totalVotes >? 0)%Z eqn:E.
    + apply Z.gtb_lt in E.
      pose proof (@percentage_unsigned (vote_count r) totalVotes Hc ltac:(lia)) as U.
      destruct Hfinite as (sign & m & e & [H|H]); rewrite H in *; simpl in U; subst; simpl.
      * apply (hundredths_two_decimals (n := 0)). lia.
      * apply hundredths_two_decimals. apply nearest_hundredths_nonneg.
    + apply (hundredths_two_decimals (n := 0)). lia.
Qed.

Lemma page_percentage_and_export_cell_witness :
  ResultsPage.percentage_text (mkVoteCount "cand-A" "A" 3) 4 = "75.00%"
  /\ ResultsPage.percentage_text (mkVoteCount "cand-A" "A" 0) 0 = "0.00%".
Proof.
  destruct (page_percentage_and_export_cell (mkVoteCount "cand-A" "A" 3) 4) as (H & _ & _).
  destruct (page_percentage_and_export_cell (mkVoteCount "cand-A" "A" 0) 0) as (_ & K & _).
  split.
  - rewrite H by lia. vm_compute. reflexivity.
  - apply K. lia.
Defined.

Lemma sum_permutation (l l' : list VoteCount) :
  Permutation l l' ->
  forall a, fold_left (fun sum r => (sum + vote_count r)%Z) l a
            = fold_left (fun sum r => (sum + vote_count r)%Z) l' a.
Proof.
  induction 1 as [|x l l' _ IH|x y l|l l' l'' _ IH1 _ IH2]; intros a; simpl.
  - reflexivity.
  - apply IH.
  - f_equal. lia.
  - rewrite IH1. apply IH2.
Qed.

Lemma votes_for_one_more (c : uuid) (ids : list uuid) (vs : list Vote.t) :
  ~ In c ids ->
  List.length (filter (fun v => mem (Vote.candidate_id v) (c :: ids)) vs)
  = (List.length (votes_for c vs)
     + List.length (filter (fun v => mem (Vote.candidate_id v) ids) vs))%nat.
Proof.
  intros Hnot. unfold votes_for. induction vs as [|v t IH]; [reflexivity|].
  cbn [filter]. unfold mem at 1. cbn [existsb]. fold (mem (Vote.candidate_id v) ids).
  destruct (uuid_eqb c (Vote.candidate_id v)) eqn:E.
  - apply uuid_eqb_eq in E. subst c. rewrite uuid_eqb_refl. cbn [orb].
    apply mem_false_not_In in Hnot. rewrite Hnot. cbn [List.length]. rewrite IH.
    reflexivity.
  - assert (E' : uuid_eqb (Vote.candidate_id v) c = false).
    { destruct (uuid_eqb (Vote.candidate_id v) c) eqn:K; [|reflexivity].
      apply uuid_eqb_eq in K. subst c. rewrite uuid_eqb_refl in E. discriminate. }
    rewrite E'. cbn [orb].
    destruct (mem (Vote.candidate_id v) ids); cbn [List.length]; rewrite IH; lia.
Qed.

(** The counts of the entries of a tally add up to the number of the votes
    for its candidates. *)
Lemma sum_tally (vs : list Vote.t) (cs : list Candidate.t) :
  NoDup (map Candidate.id cs) ->
  forall a,
    fold_left (fun sum r => (sum + vote_count r)%Z) (map (tally_entry vs) cs) a
    = (a + Z.of_nat (List.length
                       (filter (fun v => mem (Vote.candidate_id v) (map Candidate.id cs))
                               vs)))%Z.
Proof.
  induction cs as [|c t IH]; intros Hn a.
  - simpl. rewrite filter_none by reflexivity. simpl. lia.
  - inversion Hn as [|? ? Hnot Ht]; subst. cbn [map fold_left].
    rewrite (IH Ht). rewrite (@votes_for_one_more _ _ vs Hnot). unfold tally_entry.
    cbn [vote_count]. lia.
Qed.

Lemma sum_fold_right (l : list VoteCount) (a : Z) :
  fold_left (fun sum r => (sum + vote_count r)%Z) l a
  = (a + fold_right Z.add 0%Z (map vote_count l))%Z.
Proof.
  revert a. induction l as [|x t IH]; intros a; simpl; [lia|].
  rewrite IH. lia.
Qed.

(** X18. [fetchResults] either fails, with the toast "Failed to load
    results" and the results and the total of the page as they were, or
    loads the election of the page, the tally as [get_vote_counts] gives
    it to the caller, and as total the sum of the counts of that tally.
    In a reachable state that total is, for a caller with the admin role,
    the number of the votes of the table for the candidates of the
    election, and for any other signed-in caller the number of the
    caller's own votes for them.  It does not fail when both requests are
    delivered and the election is in the table and visible to the
    caller. *)
Theorem fetchResults_total_is_votes_for_candidates
    (s : ResultsPage.state) (w : world) (d : db) :
  ((snd (ResultsPage.fetchResults s w d) = Some (toast_error "Failed to load results")
    /\ ResultsPage.results (fst (ResultsPage.fetchResults s w d)) = ResultsPage.results s
    /\ ResultsPage.totalVotes (fst (ResultsPage.fetchResults s w d))
       = ResultsPage.totalVotes s)
   \/ (snd (ResultsPage.fetchResults s w d) = None
       /\ (exists e, ResultsPage.election (fst (ResultsPage.fetchResults s w d)) = Some e
                     /\ In e (elections d)
                     /\ Election.id e = ResultsPage.electionId s)
       /\ ResultsPage.results (fst (ResultsPage.fetchResults s w d))
          = get_vote_counts d (ResultsPage.user s) (ResultsPage.electionId s)
       /\ ResultsPage.totalVotes (fst (ResultsPage.fetchResults s w d))
          = fold_right Z.add 0%Z
              (map vote_count (ResultsPage.results (fst (ResultsPage.fetchResults s w d))))
       /\ (reachable d -> has_role d (ResultsPage.user s) admin = true ->
           ResultsPage.totalVotes (fst (ResultsPage.fetchResults s w d))
           = Z.of_nat
               (List.length
                  (filter (fun v => mem (Vote.candidate_id v)
                                        (map Candidate.id
                                             (candidates_of d (ResultsPage.electionId s))))
                          (votes d))))
       /\ (reachable d ->
           forall u, ResultsPage.user s = Some u -> has_role d (Some u) admin = false ->
           ResultsPage.totalVotes (fst (ResultsPage.fetchResults s w d))
           = Z.of_nat
               (List.length
                  (filter (fun v => is_true (sql_eq uuid_eqb (Vote.voter_id v) (Some u))
                                    && mem (Vote.candidate_id v)
                                           (map Candidate.id
                                                (candidates_of d (ResultsPage.electionId s))))
                          (votes d))))))
  /\ (reachable d -> online w 0 = true -> online w 1 = true ->
      is_some (ResultsPage.user s) = true ->
      forall e, In e (elections d) -> Election.id e = ResultsPage.electionId s ->
                has_role d (ResultsPage.user s) admin = true
                \/ Election.status e = Some active ->
                snd (ResultsPage.fetchResults s w d) = None).
Proof.
  split.
  - unfold ResultsPage.fetchResults.
    destruct (online w 0); [|left; repeat split].
    destruct (ResultsPage.single
                (select_elections d (ResultsPage.user s)
                   (fun e => uuid_eqb (Election.id e) (ResultsPage.electionId s))))
      as [electionData|err] eqn:E; [|left; repeat split].
    destruct (online w 1); [|left; repeat split].
    right. cbn [fst snd ResultsPage.election ResultsPage.results ResultsPage.totalVotes].
    split; [reflexivity|].
    split; [|split; [reflexivity|split; [|split]]].
    + exists electionData. split; [reflexivity|].
      unfold ResultsPage.single in E.
      destruct (select_elections d (ResultsPage.user s)
                  (fun e => uuid_eqb (Election.id e) (ResultsPage.electionId s)))
        as [|x [|y t]] eqn:L; try discriminate.
      inversion E; subst x.
      assert (Hin : In electionData
                      (select_elections d (ResultsPage.user s)
                         (fun e => uuid_eqb (Election.id e) (ResultsPage.electionId s))))
        by (rewrite L; left; reflexivity).
      unfold select_elections, select in Hin. apply filter_In in Hin.
      destruct Hin as [Hin H]. apply andb_true_iff in H. destruct H as [_ H].
      split; [exact Hin | apply uuid_eqb_eq; exact H].
    + rewrite sum_fold_right. reflexivity.
    + intros Hd Hrole.
      destruct (@tally_for_admin d (ResultsPage.user s) (ResultsPage.electionId s) Hd Hrole)
        as (_ & P & _).
      rewrite (@sum_permutation _ _ P). rewrite sum_tally; [reflexivity|].
      unfold candidates_of. apply NoDup_map_filter. apply candidates_key_reachable.
      exact Hd.
    + intros Hd u Hu Hrole. rewrite Hu.
      rewrite (@tally_for_voter d u (ResultsPage.electionId s) Hd Hrole).
      rewrite (@sum_permutation _ _ (order_by_perm _)).
      rewrite sum_tally.
      * rewrite filter_filter_andb. reflexivity.
      * unfold candidates_of. apply NoDup_map_filter. apply candidates_key_reachable.
        exact Hd.
  - intros Hd Hon0 Hon1 Hauth e Hin Hid Hsee.
    unfold ResultsPage.fetchResults. rewrite Hon0, Hon1, <- Hid.
    rewrite (@select_election_by_id d (ResultsPage.user s) e Hd Hin),
      elections_select_pass, Hauth.
    assert (V : has_role d (ResultsPage.user s) admin
                || is_true (sql_eq election_status_eqb (Election.status e) (Some active))
                = true).
    { apply orb_true_iff. destruct Hsee as [H|H]; [left; exact H|].
      right. apply status_active. exact H. }
    rewrite V. reflexivity.
Qed.

Lemma fetchResults_total_is_votes_for_candidates_witness :
  ResultsPage.totalVotes
    (fst (ResultsPage.fetchResults
            (ResultsPage.mkState "election-1" (Some "admin-1") None [] 0)
            (sample_world "x") campus_after_votes))
  = 3%Z
  /\ ResultsPage.totalVotes
       (fst (ResultsPage.fetchResults
               (ResultsPage.mkState "election-1" (Some "student-2") None [] 0)
               (sample_world "x") campus_after_votes))
     = 1%Z.
Proof.
  split.
  - destruct (fetchResults_total_is_votes_for_candidates
                (ResultsPage.mkState "election-1" (Some "admin-1") None [] 0)
                (sample_world "x") campus_after_votes)
      as [[(H & _)|(_ & _ & _ & _ & H & _)] _].
    + vm_compute in H. discriminate.
    + rewrite H.
      * vm_compute. reflexivity.
      * apply reachable_play. apply reachable_campus.
      * vm_compute. reflexivity.
  - destruct (fetchResults_total_is_votes_for_candidates
                (ResultsPage.mkState "election-1" (Some "student-2") None [] 0)
                (sample_world "x") campus_after_votes)
      as [[(H & _)|(_ & _ & _ & _ & _ & H)] _].
    + vm_compute in H. discriminate.
    + rewrite (H (reachable_play _ reachable_campus) "student-2" eq_refl).
      * vm_compute. reflexivity.
      * vm_compute. reflexivity.
Defined.

(** ** Signing up *)

Lemma auth_signup_Ok (d d' : db) (new_id : uuid) (full_name student_id : option string)
    (role_id : uuid) (t : timestamptz) :
  run (auth_signup new_id full_name student_id role_id t) d = Ok d' ->
  ~ In new_id (users d)
  /\ ~ In (coalesce student_id "") (student_id_keys (profiles d))
  /\ d' = mkDb (users d ++ [new_id])
               (profiles d ++ [Profile.mk new_id (coalesce full_name "")
                                          (Some (coalesce student_id "")) (Some t)])
               (user_roles d ++ [UserRole.mk role_id new_id student])
               (elections d) (candidates d) (votes d) (audit_logs d).
Proof.
  simpl. unfold handle_new_user, insert_user_role_row. intros H. passed.
  cbn [users profiles user_roles elections candidates votes audit_logs
       with_profiles with_user_roles] in *.
  inversion H. split; [|split; [|reflexivity]].
  - apply mem_false_not_In. apply negb_true_iff. assumption.
  - intros Hin.
    match goal with
    | K : negb (existsb (String.eqb _) _) = true |- _ =>
        apply negb_true_iff in K;
        rewrite <- (existsb_eqb_In String.eqb String.eqb_eq) in Hin; congruence
    end.
Qed.

(** X19. A sign-up that succeeds in a reachable state adds the user, a
    profile with the id of the user, the name and the student id of the
    sign-up (the empty text for what was not given), and the role
    [student]: the new user has the role [student] and does not have the
    role [admin], and the roles of every other user are as before. *)
Theorem signup_gives_profile_and_student_role
    (d d' : db) (new_id : uuid) (full_name student_id : option string)
    (role_id : uuid) (t : timestamptz)
    (Hd : reachable d)
    (Hok : run (auth_signup new_id full_name student_id role_id t) d = Ok d') :
  users d' = users d ++ [new_id]
  /\ profiles d' = profiles d ++ [Profile.mk new_id (coalesce full_name "")
                                             (Some (coalesce student_id "")) (Some t)]
  /\ has_role d' (Some new_id) student = true
  /\ has_role d' (Some new_id) admin = false
  /\ (forall u r, u <> new_id -> has_role d' (Some u) r = has_role d (Some u) r).
Proof.
  destruct (@auth_signup_Ok _ _ _ _ _ _ _ Hok) as (Hnew & _ & ->).
  split; [reflexivity|]. split; [reflexivity|].
  unfold has_role. cbn [user_roles]. split; [|split].
  - rewrite existsb_app. simpl. rewrite uuid_eqb_refl. apply orb_true_r.
  - rewrite existsb_app. simpl. rewrite andb_false_r. simpl. rewrite orb_false_r.
    destruct (has_role d (Some new_id) admin) eqn:E; [|exact E].
    exfalso. apply Hnew. apply (@has_role_user _ _ _ Hd E).
  - intros u r Hu. rewrite existsb_app. simpl.
    destruct (uuid_eqb new_id u) eqn:E.
    + apply uuid_eqb_eq in E. congruence.
    + simpl. apply orb_false_r.
Qed.

Lemma signup_gives_profile_and_student_role_witness :
  has_role (step campus (auth_signup "student-4" (Some "Dee") None "role-6" 104%Z))
           (Some "student-4") student = true
  /\ has_role (step campus (auth_signup "student-4" (Some "Dee") None "role-6" 104%Z))
              (Some "student-4") admin = false.
Proof.
  destruct (@signup_gives_profile_and_student_role campus
              (step campus (auth_signup "student-4" (Some "Dee") None "role-6" 104%Z))
              "student-4" (Some "Dee") None "role-6" 104%Z reachable_campus)
    as (_ & _ & H1 & H2 & _).
  - vm_compute. reflexivity.
  - split; assumption.
Defined.

(** X20. The student id of a profile is unique, and a sign-up without one
    stores the empty text: once a profile has the empty text as its
    student id, every sign-up of a new user that gives no student id, or
    the empty one, fails on [profiles_student_id_key] and adds nothing,
    not the user either.  So after a sign-up without a student id has
    succeeded, the next one fails. *)
Theorem signup_without_student_id_only_once
    (d : db) (new_id : uuid) (full_name student_id : option string)
    (role_id : uuid) (t : timestamptz)
    (Hd : reachable d)
    (Hgiven : coalesce student_id "" = "")
    (Htaken : exists p, In p (profiles d) /\ Profile.student_id p = Some "")
    (Hnew : ~ In new_id (users d)) :
  run (auth_signup new_id full_name student_id role_id t) d
  = Err (unique_violation "profiles_student_id_key")
  /\ step d (auth_signup new_id full_name student_id role_id t) = d
  /\ (forall id0 name0 role0 t0 d0,
        run (auth_signup id0 name0 None role0 t0) d0 = Ok d ->
        exists p, In p (profiles d) /\ Profile.student_id p = Some "").
Proof.
  assert (E : run (auth_signup new_id full_name student_id role_id t) d
              = Err (unique_violation "profiles_student_id_key")).
  { simpl. apply mem_false_not_In in Hnew. rewrite Hnew. simpl.
    unfold handle_new_user. cbn [profiles].
    assert (P : mem new_id (map Profile.id (profiles d)) = false).
    { apply mem_false_not_In. intros Hin. apply mem_false_not_In in Hnew. apply Hnew.
      apply in_map_iff in Hin. destruct Hin as (p & Hp & Hin). rewrite <- Hp.
      pose proof (constraints_reachable Hd) as C. open_constraints C.
      match goal with
      | K : forallb _ (profiles d) = true |- _ =>
          rewrite forallb_forall in K; apply mem_In; apply (K p Hin)
      end. }
    rewrite P. simpl. rewrite Hgiven.
    assert (S : existsb (String.eqb "") (student_id_keys (profiles d)) = true).
    { apply (existsb_eqb_In String.eqb String.eqb_eq).
      destruct Htaken as (p & Hin & Hp). unfold student_id_keys.
      apply in_flat_map. exists p. split; [exact Hin|]. rewrite Hp. left. reflexivity. }
    rewrite S. reflexivity. }
  split; [exact E|]. split.
  - unfold step. rewrite E. reflexivity.
  - intros id0 name0 role0 t0 d0 H0.
    destruct (@auth_signup_Ok _ _ _ _ _ _ _ H0) as (_ & _ & ->).
    eexists. split; [apply in_or_app; right; left; reflexivity | reflexivity].
Qed.

Lemma signup_without_student_id_only_once_witness :
  run (auth_signup "student-5" (Some "Eve") None "role-7" 105%Z)
      (step campus (auth_signup "student-4" (Some "Dee") None "role-6" 104%Z))
  = Err (unique_violation "profiles_student_id_key").
Proof.
  destruct (@signup_without_student_id_only_once
              (step campus (auth_signup "student-4" (Some "Dee") None "role-6" 104%Z))
              "student-5" (Some "Eve") None "role-7" 105%Z) as (H & _).
  - constructor. exact reachable_campus.
  - reflexivity.
  - exists (Profile.mk "student-4" "Dee" (Some "") (Some 104%Z)). split.
    + vm_compute. auto 10.
    + reflexivity.
  - vm_compute. intuition discriminate.
  - exact H.
Defined.

(** ** The form of the admin page *)



(** The bytes that [trim] looks for are the encodings of the white space
    and the line terminators, all of them and no other. *)
Lemma white_space_encodes (p : string) :
  In p white_space
  <-> exists cp, In cp (WhiteSpace ++ LineTerminator) /\ p = utf8_encode cp.
Proof.
  assert (C : forallb (among (map utf8_encode (WhiteSpace ++ LineTerminator))) white_space
              && forallb (among white_space) (map utf8_encode (WhiteSpace ++ LineTerminator))
              = true) by (vm_compute; reflexivity).
  apply andb_true_iff in C. destruct C as [C1 C2].
  rewrite forallb_forall in C1, C2. split.
  - intros H. apply C1 in H. unfold among in H. apply existsb_exists in H.
    destruct H as (q & Hq & E). apply String.eqb_eq in E. subst q.
    apply in_map_iff in Hq. destruct Hq as (cp & E & Hcp). exists cp. auto.
  - intros (cp & Hcp & ->).
    assert (H : In (utf8_encode cp) (map utf8_encode (WhiteSpace ++ LineTerminator)))
      by (apply in_map; exact Hcp).
    apply C2 in H. unfold among in H. apply existsb_exists in H.
    destruct H as (q & Hq & E). apply String.eqb_eq in E. subst q. exact Hq.
Qed.

Lemma blank_made_of (s : string) : blank s <-> made_of white_space s.
Proof.
  split; induction 1.
  - constructor.
  - constructor; [|assumption]. apply white_space_encodes. eauto.
  - constructor.
  - match goal with
    | K : In _ white_space |- _ => apply white_space_encodes in K; destruct K as (cp & K & ->)
    end.
    constructor; assumption.
Qed.

Lemma among_In (ps : list string) (p : string) : among ps p = true <-> In p ps.
Proof.
  unfold among. rewrite existsb_exists. split.
  - intros (q & Hq & E). apply String.eqb_eq in E. subst. exact Hq.
  - intros H. exists p. split; [exact H | apply String.eqb_refl].
Qed.

(** One step of [trim_start_of]: the text stays, or a character of [ps]
    is taken from its start. *)
Lemma trim_start_of_step (ps : list string) (s : string) :
  trim_start_of ps s = s
  \/ exists p t, In p ps /\ s = (p ++ t)%string
                 /\ (String.length t < String.length s)%nat
                 /\ trim_start_of ps s = trim_start_of ps t.
Proof.
  destruct s as [|a t1]; [left; reflexivity|]. cbn [trim_start_of].
  destruct (among ps (String a "")) eqn:E1.
  { right. exists (String a ""), t1. apply among_In in E1.
    split; [assumption|]. split; [reflexivity|]. split; [simpl; lia | reflexivity]. }
  destruct t1 as [|b t2]; [left; reflexivity|].
  destruct (among ps (String a (String b ""))) eqn:E2.
  { right. exists (String a (String b "")), t2. apply among_In in E2.
    split; [assumption|]. split; [reflexivity|]. split; [simpl; lia | reflexivity]. }
  destruct t2 as [|c t3]; [left; reflexivity|].
  destruct (among ps (String a (String b (String c "")))) eqn:E3.
  { right. exists (String a (String b (String c ""))), t3. apply among_In in E3.
    split; [assumption|]. split; [reflexivity|]. split; [simpl; lia | reflexivity]. }
  left. reflexivity.
Qed.

(** What [trim_start_of] takes away is made of characters of [ps]. *)
Lemma made_of_trim_start_of (ps : list string) (s : string) :
  made_of ps (trim_start_of ps s) -> made_of ps s.
Proof.
  remember (String.length s) as n eqn:Hn. revert s Hn.
  induction n as [n IH] using lt_wf_ind. intros s Hn H.
  destruct (trim_start_of_step ps s) as [E|(p & t & Hp & Hs & Hlt & E)].
  - rewrite E in H. exact H.
  - rewrite E in H. rewrite Hs. constructor; [exact Hp|].
    apply (IH (String.length t)); [lia | reflexivity | exact H].
Qed.

Lemma list_ascii_of_string_app (a b : string) :
  list_ascii_of_string (a ++ b) = list_ascii_of_string a ++ list_ascii_of_string b.
Proof. induction a as [|c a IH]; simpl; [reflexivity | rewrite IH; reflexivity]. Qed.

Lemma string_of_list_ascii_app (a b : list ascii) :
  string_of_list_ascii (a ++ b)
  = (string_of_list_ascii a ++ string_of_list_ascii b)%string.
Proof. induction a as [|c a IH]; simpl; [reflexivity | rewrite IH; reflexivity]. Qed.

Lemma reverse_app (a b : string) : reverse (a ++ b) = (reverse b ++ reverse a)%string.
Proof.
  unfold reverse. rewrite list_ascii_of_string_app, rev_app_distr.
  apply string_of_list_ascii_app.
Qed.

Lemma reverse_involutive (s : string) : reverse (reverse s) = s.
Proof.
  unfold reverse. rewrite list_ascii_of_string_of_list_ascii, rev_involutive.
  apply string_of_list_ascii_of_string.
Qed.

Lemma made_of_app (ps : list string) (a b : string) :
  made_of ps a -> made_of ps b -> made_of ps (a ++ b).
Proof.
  induction 1 as [|p s Hp _ IH]; intros Hb; [exact Hb|].
  rewrite append_assoc. constructor; [exact Hp | apply IH; exact Hb].
Qed.

Lemma made_of_reverse (ps : list string) (s : string) :
  made_of ps s -> made_of (map reverse ps) (reverse s).
Proof.
  induction 1 as [|p s Hp _ IH]; [constructor|].
  rewrite reverse_app. apply made_of_app; [exact IH|].
  rewrite <- (append_empty_r (reverse p)). constructor; [|constructor].
  apply in_map. exact Hp.
Qed.

(** A character of white space at the start of a text is taken away. *)
Lemma trim_start_white_space (p rest : string) :
  In p white_space -> trim_start (p ++ rest) = trim_start rest.
Proof.
  intros H. cbv in H.
  repeat (destruct H as [<-|H]; [reflexivity|]). contradiction.
Qed.

(** [trim] gives the empty text exactly for a blank text. *)
Lemma trim_blank (s : string) : trim s = "" <-> blank s.
Proof.
  rewrite blank_made_of. split.
  - unfold trim, trim_end. intros E.
    apply (f_equal reverse) in E. rewrite reverse_involutive in E.
    change (reverse "") with "" in E.
    assert (M : made_of (map reverse white_space) (reverse (trim_start s))).
    { apply made_of_trim_start_of. rewrite E. constructor. }
    apply made_of_reverse in M. rewrite reverse_involutive, map_map in M.
    rewrite (map_ext _ (fun x => x) reverse_involutive), map_id in M.
    apply made_of_trim_start_of. exact M.
  - intros M. assert (E : trim_start s = "").
    { induction M as [|p t Hp _ IH]; [reflexivity|].
      rewrite trim_start_white_space by exact Hp. exact IH. }
    unfold trim. rewrite E. reflexivity.
Qed.


(** X22. The candidates that [handleCreateElection] counts and stores are
    the entries of the form whose name is not blank, in the order of the
    form and as often as the form has them.  A name is blank when it is
    empty or made of nothing but white space and line terminators, those
    beyond ASCII included: an entry named with a no-break space alone is
    left out. *)
Theorem validCandidates_are_the_named_entries (s : Admin.state) :
  (forall c, In c (Admin.validCandidates s)
             <-> In c (Admin.candidates s) /\ ~ blank (CandidateForm.name c))
  /\ (exists keep,
        Admin.validCandidates s = filter keep (Admin.candidates s)
        /\ forall c, keep c = true <-> ~ blank (CandidateForm.name c))
  /\ Admin.validCandidates
       (Admin.mkState (Admin.user s) (Admin.title s) (Admin.description s)
                      (Admin.isAnonymous s) (Admin.startDate s) (Admin.endDate s)
                      (Admin.status s)
                      [CandidateForm.mk "X" ""; CandidateForm.mk (utf8_encode 0x00A0) "";
                       CandidateForm.mk " Y" ""; CandidateForm.mk "" ""])
     = [CandidateForm.mk "X" ""; CandidateForm.mk " Y" ""].
Proof.
  assert (K : forall c : CandidateForm.t,
             negb (String.eqb (trim (CandidateForm.name c)) "") = true
             <-> ~ blank (CandidateForm.name c)).
  { intros c. rewrite negb_true_iff, <- trim_blank. apply String.eqb_neq. }
  split; [|split].
  - intros c. unfold Admin.validCandidates. rewrite filter_In, K. tauto.
  - eexists. split; [reflexivity|]. exact K.
  - vm_compute. reflexivity.
Qed.


(** ** Users and their profiles *)

Lemma users_step_client (d : db) (auth_uid : option uuid) (rq : request) :
  users (step d (client_request auth_uid rq)) = users d.
Proof.
  unfold step. destruct rq; simpl run.
  - rewrite exec_insert_profile_denied. reflexivity.
  - unfold exec_update_profiles. each_check; reflexivity.
  - reflexivity.
  - unfold exec_insert_user_role, insert_user_role_row. each_check; reflexivity.
  - unfold exec_update_user_roles. each_check; reflexivity.
  - reflexivity.
  - unfold exec_insert_election. each_check; reflexivity.
  - unfold exec_update_elections. each_check; reflexivity.
  - reflexivity.
  - unfold exec_insert_candidates.
    destruct (insert_candidate_rows d auth_uid rs (candidates d)); [|reflexivity].
    each_check; reflexivity.
  - unfold exec_update_candidates. each_check; reflexivity.
  - reflexivity.
  - unfold exec_insert_vote. each_check; reflexivity.
  - unfold exec_update_votes. each_check; reflexivity.
  - reflexivity.
  - unfold exec_insert_audit_log. each_check; reflexivity.
  - rewrite update_audit_logs_keeps. reflexivity.
  - rewrite delete_audit_logs_keeps. reflexivity.
Qed.

(** An UPDATE of [profiles] that passes the policy keeps the id of every
    row: the old and the new version of an updated row both have the id
    of the caller. *)
Lemma update_profiles_keeps_ids (d : db) (auth_uid : option uuid)
    (where_ : Profile.t -> bool) (set : Profile.t -> Profile.t) (l : list Profile.t) :
  update_check (profiles_policies UPDATE) d auth_uid where_ set l = true ->
  map Profile.id (update_rows (profiles_policies UPDATE) d auth_uid where_ set l)
  = map Profile.id l.
Proof.
  unfold update_check, update_rows. induction l as [|p t IH]; intros H; [reflexivity|].
  cbn [forallb] in H. apply andb_true_iff in H. destruct H as [H Ht].
  cbn [map]. rewrite (IH Ht). f_equal.
  destruct (targeted (profiles_policies UPDATE) d auth_uid where_ p) eqn:T; [|reflexivity].
  unfold targeted in T. apply andb_true_iff in T. destruct T as [_ T].
  assert (Own : forall r, rls_pass (profiles_policies UPDATE) d auth_uid r = true ->
                          auth_uid = Some (Profile.id r)).
  { intros r P. unfold rls_pass in P. simpl in P.
    destruct auth_uid as [u|]; [|discriminate]. simpl in P.
    destruct (uuid_eqb u (Profile.id r)) eqn:E; [|discriminate].
    apply uuid_eqb_eq in E. congruence. }
  apply Own in H, T. congruence.
Qed.

Lemma profile_ids_step_client (d : db) (auth_uid : option uuid) (rq : request) :
  map Profile.id (profiles (step d (client_request auth_uid rq)))
  = map Profile.id (profiles d).
Proof.
  unfold step. destruct rq; simpl run.
  - rewrite exec_insert_profile_denied. reflexivity.
  - unfold exec_update_profiles.
    destruct (update_check (profiles_policies UPDATE) d auth_uid where_ set (profiles d))
      eqn:U; [|reflexivity].
    each_check; try reflexivity. cbn [profiles with_profiles].
    apply update_profiles_keeps_ids. exact U.
  - rewrite delete_profiles_keeps. reflexivity.
  - unfold exec_insert_user_role, insert_user_role_row. each_check; reflexivity.
  - unfold exec_update_user_roles. each_check; reflexivity.
  - reflexivity.
  - unfold exec_insert_election. each_check; reflexivity.
  - unfold exec_update_elections. each_check; reflexivity.
  - reflexivity.
  - unfold exec_insert_candidates.
    destruct (insert_candidate_rows d auth_uid rs (candidates d)); [|reflexivity].
    each_check; reflexivity.
  - unfold exec_update_candidates. each_check; reflexivity.
  - reflexivity.
  - unfold exec_insert_vote. each_check; reflexivity.
  - unfold exec_update_votes. each_check; reflexivity.
  - reflexivity.
  - unfold exec_insert_audit_log. each_check; reflexivity.
  - rewrite update_audit_logs_keeps. reflexivity.
  - rewrite delete_audit_logs_keeps. reflexivity.
Qed.

(** X23. In every reachable state the ids of the profiles are the users,
    in the order of their sign-up: every user has one profile, no more,
    and no statement of a client gives a profile to another id or takes
    one away. *)
Theorem every_user_has_one_profile (d : db) (Hd : reachable d) :
  map Profile.id (profiles d) = users d.
Proof.
  induction Hd as [|d a _ IH]; [reflexivity|].
  destruct a as [auth_uid rq|new_id full_name student_id role_id t|r].
  - rewrite profile_ids_step_client, users_step_client. exact IH.
  - unfold step.
    destruct (run (auth_signup new_id full_name student_id role_id t) d) as [d'|e] eqn:E;
      [|exact IH].
    destruct (@auth_signup_Ok _ _ _ _ _ _ _ E) as (_ & _ & ->).
    cbn [profiles users]. rewrite map_app, IH. reflexivity.
  - unfold step. simpl run. unfold insert_user_role_row. each_check; exact IH.
Qed.

Lemma every_user_has_one_profile_witness :
  map Profile.id (profiles campus_after_votes) = users campus_after_votes.
Proof.
  apply every_user_has_one_profile. apply reachable_play. apply reachable_campus.
Defined.

(** ** The tally, for every election and state *)

(** X24. [get_vote_counts] called by a user with the admin role, in a
    reachable state: the tally of an election has exactly one entry for
    each candidate of the election, those without votes included, with the
    id and the name of the candidate and the number of the votes of the
    table for that candidate, and the entries are in descending order of
    their counts. *)
Theorem tally_of_admin_counts_every_vote (d : db) (auth_uid : option uuid) (e : uuid)
    (Hd : reachable d) (Hrole : has_role d auth_uid admin = true) :
  Permutation (get_vote_counts d auth_uid e)
              (map (fun c => mkVoteCount (Candidate.id c) (Candidate.name c)
                                         (Z.of_nat (List.length
                                                      (votes_for (Candidate.id c) (votes d)))))
                   (candidates_of d e))
  /\ List.length (get_vote_counts d auth_uid e) = List.length (candidates_of d e)
  /\ descending (get_vote_counts d auth_uid e).
Proof.
  destruct (@tally_for_admin d auth_uid e Hd Hrole) as (_ & P & S).
  split; [exact P|]. split; [|exact S].
  rewrite (Permutation_length P). apply length_map.
Qed.

Lemma tally_of_admin_counts_every_vote_witness :
  List.length (get_vote_counts campus_after_votes (Some "admin-1") "election-1")
  = List.length (candidates_of campus_after_votes "election-1").
Proof.
  destruct (@tally_of_admin_counts_every_vote campus_after_votes (Some "admin-1")
              "election-1") as (_ & H & _).
  - apply reachable_play. apply reachable_campus.
  - vm_compute. reflexivity.
  - exact H.
Defined.

(** X25. [get_vote_counts] called by a signed-in user without the admin
    role, in a reachable state: the tally has one entry for each candidate
    of the election, and the count of an entry is the number of the
    caller's own votes for the candidate; no vote of another voter is
    counted, so the counts add up to the caller's votes for the candidates
    of the election at most. *)
Theorem tally_of_voter_counts_own_votes (d : db) (u : uuid) (e : uuid)
    (Hd : reachable d) (Hrole : has_role d (Some u) admin = false) :
  Permutation (get_vote_counts d (Some u) e)
              (map (fun c =>
                      mkVoteCount (Candidate.id c) (Candidate.name c)
                        (Z.of_nat
                           (List.length
                              (filter (fun v => uuid_eqb (Candidate.id c) (Vote.candidate_id v)
                                                && is_true (sql_eq uuid_eqb (Vote.voter_id v)
                                                                   (Some u)))
                                      (votes d)))))
                   (candidates_of d e))
  /\ descending (get_vote_counts d (Some u) e)
  /\ (fold_left (fun sum r => (sum + vote_count r)%Z) (get_vote_counts d (Some u) e) 0
      <= Z.of_nat (List.length
                     (filter (fun v => is_true (sql_eq uuid_eqb (Vote.voter_id v) (Some u)))
                             (votes d))))%Z.
Proof.
  rewrite (@tally_for_voter d u e Hd Hrole).
  set (own := filter (fun v => is_true (sql_eq uuid_eqb (Vote.voter_id v) (Some u)))
                     (votes d)).
  split; [|split].
  - eapply perm_trans; [apply order_by_perm|].
    erewrite map_ext; [apply Permutation_refl|].
    intros c. unfold tally_entry, votes_for, own. rewrite filter_filter_andb.
    f_equal. f_equal. f_equal. apply filter_ext. intros v. apply andb_comm.
  - apply order_by_descending.
  - rewrite (@sum_permutation _ _ (order_by_perm _)).
    rewrite sum_tally.
    + simpl. apply inj_le. apply filter_length_le.
    + unfold candidates_of. apply NoDup_map_filter. apply candidates_key_reachable.
      exact Hd.
Qed.

Lemma tally_of_voter_counts_own_votes_witness :
  descending (get_vote_counts campus_after_votes (Some "student-1") "election-1").
Proof.
  destruct (@tally_of_voter_counts_own_votes campus_after_votes "student-1" "election-1")
    as (_ & H & _).
  - apply reachable_play. apply reachable_campus.
  - vm_compute. reflexivity.
  - exact H.
Defined.

(** ** From the ballot to the vote *)

(** X26. A ballot for a candidate that the vote page has loaded is
    recorded for a candidate of the election of the page.  In a reachable
    state, when [fetchElectionAndCandidates] has given the election and
    its candidates, the user picks one of them, has no vote in the
    election yet, and the request is delivered with an id that is not
    taken, [handleSubmitVote] reports its success and the table has the
    vote of the user for that candidate, who belongs to the election. *)
Theorem ballot_for_listed_candidate_is_recorded
    (text_le : string -> string -> bool) (s : VotePage.state) (w w' : world) (d : db)
    (p : uuid) (e : Election.t) (cs : list Candidate.t) (c : Candidate.t)
    (Hd : reachable d)
    (Hu : VotePage.user s = Some p) (Hp : In p (users d))
    (Hload : VotePage.fetchElectionAndCandidates text_le s w d = Some (e, cs))
    (Hc : In c cs)
    (Hsel : VotePage.selectedCandidate s = Candidate.id c)
    (Hid : Candidate.id c <> "")
    (Hnot : votes_of (VotePage.electionId s) p (votes d) = [])
    (Hfresh : ~ In (gen_random_uuid w' 0) (map Vote.id (votes d)))
    (Hon : online w' 0 = true) :
  fst (VotePage.handleSubmitVote s w' d) = toast_success "Vote submitted successfully!"
  /\ In (VotePage.vote_row w' (VotePage.electionId s) (Candidate.id c) (Some p))
        (votes (snd (VotePage.handleSubmitVote s w' d)))
  /\ In c (candidates d)
  /\ Candidate.election_id c = VotePage.electionId s
  /\ Election.id e = VotePage.electionId s.
Proof.
  assert (L : In c (candidates d)
              /\ Candidate.election_id c = VotePage.electionId s
              /\ Election.id e = VotePage.electionId s).
  { unfold VotePage.fetchElectionAndCandidates in Hload.
    destruct (online w 0); [|discriminate].
    destruct (select_elections d (VotePage.user s)
                (fun x => uuid_eqb (Election.id x) (VotePage.electionId s)))
      as [|x [|y t]] eqn:S; try discriminate.
    simpl in Hload. destruct (online w 1); [|discriminate].
    inversion Hload; subst x cs. clear Hload.
    apply order_by_In in Hc. unfold select_candidates, select in Hc.
    apply filter_In in Hc. destruct Hc as [Hc H].
    apply andb_true_iff in H. destruct H as [_ H]. apply uuid_eqb_eq in H.
    split; [exact Hc|]. split; [exact H|].
    assert (Hin : In e (select_elections d (VotePage.user s)
                          (fun x => uuid_eqb (Election.id x) (VotePage.electionId s))))
      by (rewrite S; left; reflexivity).
    unfold select_elections, select in Hin. apply filter_In in Hin.
    destruct Hin as [_ K]. apply andb_true_iff in K. destruct K as [_ K].
    apply uuid_eqb_eq. exact K. }
  destruct L as (Lc & Le & Lid).
  assert (K : castVote w' (VotePage.electionId s) (Candidate.id c) p d
              = Ok (with_votes d (votes d ++ [VotePage.vote_row w' (VotePage.electionId s)
                                                (Candidate.id c) (Some p)]))).
  { apply castVote_first.
    - exact Hnot.
    - apply mem_false_not_In. exact Hfresh.
    - rewrite <- Le. apply candidate_election_reachable; assumption.
    - apply in_map. exact Lc.
    - exact Hp. }
  unfold castVote in K.
  set (voted := with_votes d (votes d ++ [VotePage.vote_row w' (VotePage.electionId s)
                                           (Candidate.id c) (Some p)])) in *.
  assert (F : supabase w' 0 (Some p)
                (insert_vote (VotePage.vote_row w' (VotePage.electionId s)
                                (Candidate.id c) (Some p))) d
              = Ok voted).
  { unfold supabase. rewrite Hon. exact K. }
  assert (V : forall d2,
             supabase w' 1 (Some p) (insert_audit_log (VotePage.vote_cast_log s w')) voted
             = Ok d2 -> votes d2 = votes voted).
  { intros d2 E. unfold supabase in E. destruct (online w' 1); [|discriminate].
    simpl in E. unfold exec_insert_audit_log in E. passed. inversion E. reflexivity. }
  unfold VotePage.handleSubmitVote.
  rewrite Hsel. apply String.eqb_neq in Hid. rewrite Hid, Hu, F.
  split; [reflexivity|]. split; [|tauto]. cbn [snd].
  destruct (supabase w' 1 (Some p) (insert_audit_log (VotePage.vote_cast_log s w')) voted)
    as [d2|err] eqn:E.
  - rewrite (V d2 eq_refl). unfold voted. simpl. apply in_or_app. right. left. reflexivity.
  - unfold voted. simpl. apply in_or_app. right. left. reflexivity.
Qed.

Lemma ballot_for_listed_candidate_is_recorded_witness :
  fst (VotePage.handleSubmitVote
         (VotePage.mkState "election-1" (Some "student-1") None "cand-B")
         (sample_world "y") campus)
  = toast_success "Vote submitted successfully!".
Proof.
  destruct (@ballot_for_listed_candidate_is_recorded String.leb
              (VotePage.mkState "election-1" (Some "student-1") None "cand-B")
              (sample_world "x") (sample_world "y") campus "student-1"
              (sample_election "election-1" "President" active)
              [sample_candidate "cand-A" "election-1" "A";
               sample_candidate "cand-B" "election-1" "B"]
              (sample_candidate "cand-B" "election-1" "B")) as (H & _).
  - exact reachable_campus.
  - reflexivity.
  - vm_compute. auto 10.
  - vm_compute. reflexivity.
  - right. left. reflexivity.
  - reflexivity.
  - discriminate.
  - vm_compute. reflexivity.
  - vm_compute. intuition discriminate.
  - reflexivity.
  - exact H.
Defined.

(** ** Entries of the audit log *)

(** X27. The audit log takes an entry from every signed-in caller,
    whatever the entry says: an entry with an id that is not taken,
    naming any user of the system or none and any action, is stored as
    sent, at the end of the log.  Every caller with the admin role then
    reads it there; the caller who wrote it, without that role, does
    not. *)
Theorem audit_log_takes_entries_of_every_caller
    (d : db) (auth_uid : option uuid) (r : AuditLog.t)
    (Hauth : is_some auth_uid = true)
    (Hfresh : ~ In (AuditLog.id r) (map AuditLog.id (audit_logs d)))
    (Huser : mem_opt (AuditLog.user_id r) (users d) = true) :
  exec auth_uid (insert_audit_log r) d = Ok (with_audit_logs d (audit_logs d ++ [r]))
  /\ (forall reader, has_role d reader admin = true ->
        In r (select_audit_logs (with_audit_logs d (audit_logs d ++ [r])) reader
                (fun _ => true)))
  /\ (has_role d auth_uid admin = false ->
      select_audit_logs (with_audit_logs d (audit_logs d ++ [r])) auth_uid (fun _ => true)
      = []).
Proof.
  split; [|split].
  - simpl. unfold exec_insert_audit_log, rls_pass. rewrite Hauth. simpl.
    apply mem_false_not_In in Hfresh. rewrite Hfresh, Huser. reflexivity.
  - intros reader Hrole. unfold select_audit_logs, select. apply filter_In. split.
    + simpl. apply in_or_app. right. left. reflexivity.
    + unfold rls_pass. rewrite (has_role_some _ _ _ Hrole). simpl.
      change (has_role (with_audit_logs d (audit_logs d ++ [r])) reader admin)
        with (has_role d reader admin).
      rewrite Hrole. reflexivity.
  - intros Hrole. apply select_denied. intros x. apply admin_only_denied. exact Hrole.
Qed.

Lemma audit_log_takes_entries_of_every_caller_witness :
  exec (Some "student-1")
       (insert_audit_log
          (AuditLog.mk "log-1" (Some "admin-1") "election_created" [] (Some 1700%Z)))
       campus
  = Ok (with_audit_logs campus
          (audit_logs campus
             ++ [AuditLog.mk "log-1" (Some "admin-1") "election_created" []
                             (Some 1700%Z)])).
Proof.
  destruct (@audit_log_takes_entries_of_every_caller campus (Some "student-1")
              (AuditLog.mk "log-1" (Some "admin-1") "election_created" [] (Some 1700%Z)))
    as (H & _).
  - reflexivity.
  - vm_compute. intuition.
  - vm_compute. reflexivity.
  - exact H.
Defined.
